(** * Go localization backend: assignment engine, payload store, request
      handler, load generator statistics and the allocation verifier.

    Shallow embedding of the Go sources (main.go of the server,
    cmd/loadtest/main.go, cmd/allocationtest/main.go, pkg/model) together
    with the properties stated about them. *)

From Stdlib Require Import ZArith List String Ascii Bool Lia DecimalString.
From Stdlib Require Import Floats.SpecFloat Sorting.Sorted.
From Stdlib Require DecimalNat.
From stdpp Require Import base gmap strings list.

Local Open Scope Z_scope.
#[local] Set Warnings "-register-all".

(** ** Go runtime conventions shared by all components *)

Module Go.

(** A Go [string] is a sequence of bytes; the conversion to a byte
    slice exposes them. *)
Definition bytes (s : string) : list ascii := list_ascii_of_string s.

Definition byteval (c : ascii) : Z := Z.of_N (N_of_ascii c).

(** Unsigned [w]-bit wrap-around ([uint32], [uint64]). *)
Definition wrapU (w x : Z) : Z := x mod 2 ^ w.

(** Conversion of an integer value to a signed [w]-bit integer: the low
    [w] bits, read in two's complement. *)
Definition wrapS (w x : Z) : Z := (x + 2 ^ (w - 1)) mod 2 ^ w - 2 ^ (w - 1).

(** Width of Go's [int]: 64 bits on the 64-bit targets (amd64, arm64) the
    service is run on; the language also allows 32.  The assignment is
    written over an arbitrary width so that the conversion is visible. *)
Definition intBits : Z := 64.

(** A value of type [T] or a run-time panic (division by zero, index out
    of range). *)
Inductive result (T : Type) : Type :=
| Ok (v : T)
| Panic (msg : string).
Arguments Ok {T} v.
Arguments Panic {T} msg.

Definition bind {T U} (r : result T) (k : T -> result U) : result U :=
  match r with
  | Ok v => k v
  | Panic m => Panic m
  end.

(** [a % b] on signed integers: truncated remainder, panics on [b = 0]. *)
Definition rem (a b : Z) : result Z :=
  if b =? 0 then Panic "integer divide by zero" else Ok (Z.rem a b).

(** [s[i]] on a slice: panics when [i] is negative or [i >= len(s)]. *)
Definition index {T} (s : list T) (i : Z) : result T :=
  if i <? 0 then Panic "index out of range"
  else match nth_error s (Z.to_nat i) with
       | Some v => Ok v
       | None => Panic "index out of range"
       end.

(** [len(s)] as an [int]. *)
Definition len {T} (s : list T) : Z := Z.of_nat (length s).

End Go.

Notation "'let!' x ':=' r 'in' k" := (Go.bind r (fun x => k))
  (at level 10, x name, r at level 100, k at level 200).

(** ** sync/atomic *)

Module atomic.

(** [Add(delta)] on an atomic.Int64 holding [counter]: the new value. *)
Definition Add (counter delta : Z) : Z := Go.wrapS 64 (counter + delta).

End atomic.

(** ** hash/fnv: the 32-bit FNV-1a digest used by the server *)

Module fnv.

Definition offset32 : Z := 0x811c9dc5.
Definition prime32 : Z := 0x01000193.

(** [New32a()] *)
Definition New32a : Z := offset32.

(** One iteration of the [Write] method of [sum32a]:
    [hash ^= sum32a(c); hash *= prime32] on [uint32]. *)
Definition step32a (hash : Z) (c : ascii) : Z :=
  Go.wrapU 32 (Z.lxor hash (Go.byteval c) * prime32).

(** [h.Write(data)] *)
Definition Write (hash : Z) (data : list ascii) : Z :=
  fold_left step32a data hash.

(** [h.Sum32()] *)
Definition Sum32 (hash : Z) : Z := hash.

End fnv.

(** ** The server: payload table and assignment *)

Record Payload : Type := mkPayload { Name : string; Content : string }.

(** The index computed in [getPayloadForUser], for a table of [n] entries
    and an [int] of [bits] bits:
    [int(h.Sum32()) % len(payloads)]. *)
Definition assignIndexW (bits : Z) (userID : string) (n : Z) : Go.result Z :=
  let h := fnv.New32a in
  let h := fnv.Write h (Go.bytes userID) in
  Go.rem (Go.wrapS bits (fnv.Sum32 h)) n.

Definition assignIndex (userID : string) (n : Z) : Go.result Z :=
  assignIndexW Go.intBits userID n.

(** [getPayloadForUser] over the package-level table [payloads]. *)
Definition getPayloadForUser (payloads : list Payload) (userID : string)
  : Go.result Payload :=
  let! index := assignIndex userID (Go.len payloads) in
  Go.index payloads index.

(** The construction as the specification words it: a 32-bit state that
    starts at the offset basis and, per byte, is multiplied by the prime
    and then xor-ed with the byte; the index is the state modulo the
    variant count on unsigned numbers. *)
Module SpecWords.

Fixpoint hashFrom (state : Z) (key : string) : Z :=
  match key with
  | EmptyString => state
  | String c rest =>
      hashFrom (Z.lxor (Go.wrapU 32 (state * fnv.prime32)) (Go.byteval c)) rest
  end.

Definition hash (key : string) : Z := hashFrom fnv.offset32 key.

Definition assign (key : string) (variantCount : Z) : Z :=
  hash key mod variantCount.

End SpecWords.

(** The FNV-1a order of operations: per byte, xor first and multiply
    second. *)
Module Fnv1a.

Fixpoint hashFrom (state : Z) (key : string) : Z :=
  match key with
  | EmptyString => state
  | String c rest =>
      hashFrom (Go.wrapU 32 (Z.lxor state (Go.byteval c) * fnv.prime32)) rest
  end.

Definition hash (key : string) : Z := hashFrom fnv.offset32 key.

Definition assign (key : string) (variantCount : Z) : Z :=
  hash key mod variantCount.

End Fnv1a.

(** ** encoding/json: the part of the decoder the server relies on *)

Module json.

(** A decoded document.  Strings and object keys hold the bytes after
    escape processing; a number keeps its exact decimal value
    [(-1)^neg * mant * 10^exp10].  (The decoder's replacement of ill-formed
    UTF-8 by U+FFFD is not reproduced: no key containing such bytes equals
    an ASCII key either way.) *)
Inductive value : Type :=
| Null
| Bool (b : bool)
| Number (neg : bool) (mant exp10 : Z)
| Str (s : string)
| Array (items : list value)
| Object (members : list (string * value)).

Definition code (c : ascii) : Z := Go.byteval c.
Definition chr (z : Z) : ascii := ascii_of_N (Z.to_N z).

Definition isSpace (c : ascii) : bool :=
  (code c =? 32) || (code c =? 9) || (code c =? 13) || (code c =? 10).

Definition isDigit (c : ascii) : bool := (48 <=? code c) && (code c <=? 57).

Fixpoint skipSpace (s : list ascii) : list ascii :=
  match s with
  | c :: rest => if isSpace c then skipSpace rest else s
  | [] => []
  end.

Fixpoint spanDigits (s : list ascii) : list ascii * list ascii :=
  match s with
  | c :: rest =>
      if isDigit c then let '(ds, r) := spanDigits rest in (c :: ds, r)
      else ([], s)
  | [] => ([], [])
  end.

Definition digitsValue (ds : list ascii) : Z :=
  fold_left (fun acc c => 10 * acc + (code c - 48)) ds 0.

Definition hexValue (c : ascii) : option Z :=
  let n := code c in
  if (48 <=? n) && (n <=? 57) then Some (n - 48)
  else if (97 <=? n) && (n <=? 102) then Some (n - 87)
  else if (65 <=? n) && (n <=? 70) then Some (n - 55)
  else None.

(** The four hex digits after a backslash-u. *)
Definition getu4 (s : list ascii) : option (Z * list ascii) :=
  match s with
  | a :: b :: c :: d :: rest =>
      match hexValue a, hexValue b, hexValue c, hexValue d with
      | Some x3, Some x2, Some x1, Some x0 =>
          Some (x3 * 4096 + x2 * 256 + x1 * 16 + x0, rest)
      | _, _, _, _ => None
      end
  | _ => None
  end.

(** utf8.EncodeRune *)
Definition encodeRune (r : Z) : list ascii :=
  if r <? 0x80 then [chr r]
  else if r <? 0x800 then
    [chr (Z.lor 0xC0 (Z.shiftr r 6)); chr (Z.lor 0x80 (Z.land r 0x3F))]
  else if r <? 0x10000 then
    [chr (Z.lor 0xE0 (Z.shiftr r 12));
     chr (Z.lor 0x80 (Z.land (Z.shiftr r 6) 0x3F));
     chr (Z.lor 0x80 (Z.land r 0x3F))]
  else
    [chr (Z.lor 0xF0 (Z.shiftr r 18));
     chr (Z.lor 0x80 (Z.land (Z.shiftr r 12) 0x3F));
     chr (Z.lor 0x80 (Z.land (Z.shiftr r 6) 0x3F));
     chr (Z.lor 0x80 (Z.land r 0x3F))].

Definition replacementChar : Z := 0xFFFD.

Definition isSurrogate (r : Z) : bool := (0xD800 <=? r) && (r <? 0xE000).

(** A backslash-u escape whose digits gave [r]: a high surrogate followed
    by an escaped low surrogate is one rune and consumes both; any other
    surrogate is replaced by U+FFFD. *)
Definition escapedRune (r : Z) (rest : list ascii) : Z * list ascii :=
  if isSurrogate r then
    match rest with
    | b :: u :: rest' =>
        if (code b =? 92) && (code u =? 117) then
          match getu4 rest' with
          | Some (r2, rest'') =>
              if (r <? 0xDC00) && (0xDC00 <=? r2) && (r2 <? 0xE000)
              then (Z.shiftl (r - 0xD800) 10 + (r2 - 0xDC00) + 0x10000, rest'')
              else (replacementChar, rest)
          | None => (replacementChar, rest)
          end
        else (replacementChar, rest)
    | _ => (replacementChar, rest)
    end
  else (r, rest).

(** The single-character escapes. *)
Definition simpleEscape (c : ascii) : option ascii :=
  let n := code c in
  if (n =? 34) || (n =? 92) || (n =? 47) then Some c
  else if n =? 98 then Some (chr 8)
  else if n =? 102 then Some (chr 12)
  else if n =? 110 then Some (chr 10)
  else if n =? 114 then Some (chr 13)
  else if n =? 116 then Some (chr 9)
  else None.

(** A string literal, after its opening quote: the decoded bytes (in
    reverse in [acc]) and the input after the closing quote. *)
Fixpoint stringBody (fuel : nat) (s acc : list ascii)
  : option (string * list ascii) :=
  match fuel with
  | O => None
  | S fuel =>
      match s with
      | [] => None
      | c :: rest =>
          if code c =? 34 then Some (string_of_list_ascii (rev acc), rest)
          else if code c =? 92 then
            match rest with
            | [] => None
            | e :: rest' =>
                if code e =? 117 then
                  match getu4 rest' with
                  | Some (r, rest'') =>
                      let '(r', rest3) := escapedRune r rest'' in
                      stringBody fuel rest3 (rev_append (encodeRune r') acc)
                  | None => None
                  end
                else
                  match simpleEscape e with
                  | Some d => stringBody fuel rest' (d :: acc)
                  | None => None
                  end
            end
          else if code c <? 32 then None
          else stringBody fuel rest (c :: acc)
      end
  end.

(** A number literal: an optional minus sign; a zero or a non-zero digit
    followed by digits; optionally a dot and one or more digits;
    optionally e or E, a sign, and one or more digits. *)
Definition number (s : list ascii) : option (value * list ascii) :=
  let '(neg, s1) :=
    match s with
    | c :: r => if code c =? 45 then (true, r) else (false, s)
    | [] => (false, s)
    end in
  let '(ints, s2) := spanDigits s1 in
  match ints with
  | [] => None
  | d0 :: more =>
      if (code d0 =? 48) && negb (Nat.eqb (length more) 0) then None
      else
        let frac :=
          match s2 with
          | c :: r =>
              if code c =? 46 then
                let '(fs, r') := spanDigits r in
                match fs with
                | [] => None
                | _ => Some (fs, r')
                end
              else Some ([], s2)
          | [] => Some ([], s2)
          end in
        match frac with
        | None => None
        | Some (fs, s3) =>
            let mant := digitsValue (ints ++ fs) in
            let shift := - Z.of_nat (length fs) in
            match s3 with
            | c :: r =>
                if (code c =? 101) || (code c =? 69) then
                  let '(eneg, r1) :=
                    match r with
                    | sg :: r' =>
                        if code sg =? 45 then (true, r')
                        else if code sg =? 43 then (false, r')
                        else (false, r)
                    | [] => (false, r)
                    end in
                  let '(es, r2) := spanDigits r1 in
                  match es with
                  | [] => None
                  | _ =>
                      let e := digitsValue es in
                      Some (Number neg mant ((if eneg then - e else e) + shift), r2)
                  end
                else Some (Number neg mant shift, s3)
            | [] => Some (Number neg mant shift, s3)
            end
        end
  end.

(** [lit] as a prefix of the input. *)
Fixpoint literal (lit s : list ascii) : option (list ascii) :=
  match lit with
  | [] => Some s
  | l :: lit' =>
      match s with
      | c :: rest => if code c =? code l then literal lit' rest else None
      | [] => None
      end
  end.

(** The scanner gives up beyond this many open arrays and objects. *)
Definition maxNestingDepth : Z := 10000.

(** Recursive descent over the input.  [parseValue] expects the first
    byte of a value; [elements] and [members] expect the first byte of
    the next array element, respectively of the next member's key, with
    the items read so far in reverse in [acc].  [depth] counts the open
    containers.  Every call consumes input, so a fuel of the input length
    plus one is never exhausted. *)
Fixpoint parseValue (fuel : nat) (depth : Z) (s : list ascii)
  : option (value * list ascii) :=
  match fuel with
  | O => None
  | S fuel =>
      match s with
      | [] => None
      | c :: rest =>
          let n := code c in
          if n =? 123 then
            if maxNestingDepth <? depth + 1 then None
            else match skipSpace rest with
                 | c' :: rest' =>
                     if code c' =? 125 then Some (Object [], rest')
                     else members fuel (depth + 1) (c' :: rest') []
                 | [] => None
                 end
          else if n =? 91 then
            if maxNestingDepth <? depth + 1 then None
            else match skipSpace rest with
                 | c' :: rest' =>
                     if code c' =? 93 then Some (Array [], rest')
                     else elements fuel (depth + 1) (c' :: rest') []
                 | [] => None
                 end
          else if n =? 34 then
            match stringBody (S (length rest)) rest [] with
            | Some (str, rest') => Some (Str str, rest')
            | None => None
            end
          else if n =? 116 then
            option_map (fun r => (Bool true, r)) (literal (Go.bytes "true") s)
          else if n =? 102 then
            option_map (fun r => (Bool false, r)) (literal (Go.bytes "false") s)
          else if n =? 110 then
            option_map (fun r => (Null, r)) (literal (Go.bytes "null") s)
          else number s
      end
  end

with elements (fuel : nat) (depth : Z) (s : list ascii) (acc : list value)
  : option (value * list ascii) :=
  match fuel with
  | O => None
  | S fuel =>
      match parseValue fuel depth s with
      | Some (v, rest) =>
          match skipSpace rest with
          | c :: rest' =>
              if code c =? 44 then elements fuel depth (skipSpace rest') (v :: acc)
              else if code c =? 93 then Some (Array (rev (v :: acc)), rest')
              else None
          | [] => None
          end
      | None => None
      end
  end

with members (fuel : nat) (depth : Z) (s : list ascii)
             (acc : list (string * value))
  : option (value * list ascii) :=
  match fuel with
  | O => None
  | S fuel =>
      match s with
      | q :: afterq =>
          if code q =? 34 then
            match stringBody (S (length afterq)) afterq [] with
            | Some (key, rest) =>
                match skipSpace rest with
                | colon :: rest1 =>
                    if code colon =? 58 then
                      match parseValue fuel depth (skipSpace rest1) with
                      | Some (v, rest2) =>
                          match skipSpace rest2 with
                          | c :: rest3 =>
                              if code c =? 44 then
                                members fuel depth (skipSpace rest3) ((key, v) :: acc)
                              else if code c =? 125 then
                                Some (Object (rev ((key, v) :: acc)), rest3)
                              else None
                          | [] => None
                          end
                      | None => None
                      end
                    else None
                | [] => None
                end
            | None => None
            end
          else None
      | [] => None
      end
  end.

(** The text of a string literal without escapes: [s] between quotes. *)
Definition quote (s : string) : string :=
  let q := String (chr 34) EmptyString in (q ++ s ++ q)%string.

(** A whole document: one value between optional white space.  [None] is
    a syntax error. *)
Definition parse (content : string) : option value :=
  let s := skipSpace (Go.bytes content) in
  match parseValue (S (length s)) 0 s with
  | Some (v, rest) =>
      match skipSpace rest with
      | [] => Some v
      | _ :: _ => None
      end
  | None => None
  end.

(** [checkValid]: the document is syntactically well formed. *)
Definition Valid (content : string) : bool :=
  match parse content with Some _ => true | None => false end.

(** strconv.ParseFloat reports a range error when the decimal rounds to
    an infinity, that is from [2^1024 - 2^970] on. *)
Definition float64Limit : Z := 2 ^ 1024 - 2 ^ 970.

Definition overflowsFloat64 (mant exp10 : Z) : bool :=
  if mant =? 0 then false
  else if 0 <=? exp10 then
    if 400 <? exp10 then true else float64Limit <=? mant * 10 ^ exp10
  else
    if mant <? float64Limit then false
    else float64Limit * 10 ^ (- exp10) <=? mant.

(** Storing a document into an [interface{}]: every number must convert
    to a float64. *)
Fixpoint storable (v : value) : bool :=
  match v with
  | Number _ mant exp10 => negb (overflowsFloat64 mant exp10)
  | Array items => forallb storable items
  | Object members => forallb (fun kv => storable (snd kv)) members
  | _ => true
  end.

(** [m[key]] after the members were stored in order into a Go map: the
    last member with that key. *)
Fixpoint mapIndex (members : list (string * value)) (key : string)
  : option value :=
  match members with
  | [] => None
  | (k, v) :: rest =>
      match mapIndex rest key with
      | Some v' => Some v'
      | None => if String.eqb k key then Some v else None
      end
  end.

(** [json.Unmarshal(content, &parsed)] with
    [parsed map[string]interface{}]: the members of the top-level object
    (none for a top-level [null], which leaves the map nil), or [None]
    when the call returns an error: a syntax error, a top-level value
    that is neither an object nor [null], or a number out of range. *)
Definition UnmarshalMap (content : string) : option (list (string * value)) :=
  match parse content with
  | None => None
  | Some v =>
      match v with
      | Object members => if storable v then Some members else None
      | Null => Some []
      | _ => None
      end
  end.

End json.

(** ** Library routines used by the loader *)

(** strings.HasSuffix *)
Definition HasSuffix (s suffix : string) : bool :=
  let n := String.length s in
  let k := String.length suffix in
  (k <=? n)%nat && String.eqb (String.substring (n - k) k s) suffix.

(** sort.Strings: ascending in byte-wise lexicographic order. *)
Fixpoint insertString (x : string) (sorted : list string) : list string :=
  match sorted with
  | [] => [x]
  | y :: rest =>
      if String.leb x y then x :: sorted else y :: insertString x rest
  end.

Definition sortStrings (names : list string) : list string :=
  fold_right insertString [] names.

(** The verb percent-d of fmt on a non-negative [int]. *)
Definition itoa (i : nat) : string := NilZero.string_of_uint (Nat.to_uint i).

(** filepath.Join of a directory and a file name. *)
Definition Join (dir name : string) : string := (dir ++ "/" ++ name)%string.

(** ** The payload directory and process initialisation *)

(** One entry of the directory: its name, whether it is a directory, and
    what os.ReadFile returns for it ([None]: the read fails). *)
Record DirEntry : Type := mkEntry {
  EntryName : string;
  EntryIsDir : bool;
  EntryData : option string
}.

(** The file system as the loader sees it: [None] when os.ReadDir fails. *)
Definition Directory : Type := option (list DirEntry).

Inductive LogLine : Type :=
| WarnLoadFailed (path : string)
| WarnInvalidJSON (path : string)
| FoundPayloadsArray (name : string) (items : Z)
| WarnMarshalFailed (i : nat) (name : string)
| LoadedFromArray (items : Z) (name : string)
| LoadedPayload (name : string) (size : Z)
| LoadedTotal (count : Z).

(** The package-level table while [init] runs, with the lines logged. *)
Record Loader : Type := mkLoader {
  payloads : list Payload;
  logged : list LogLine
}.

Definition appendPayload (p : Payload) (st : Loader) : Loader :=
  {| payloads := payloads st ++ [p]; logged := logged st |}.

Definition logLine (l : LogLine) (st : Loader) : Loader :=
  {| payloads := payloads st; logged := logged st ++ [l] |}.

(** How the process comes up: [log.Fatal] exits before [main] runs. *)
Inductive Boot : Type :=
| Fatal (msg : string)
| Booted (st : Loader).

Definition payloadDir : string := "payloads".

(** A directory entry the first loop keeps: not a directory, with a name
    ending in ".json". *)
Definition isPayloadFile (e : DirEntry) : bool :=
  negb (EntryIsDir e) && HasSuffix (EntryName e) ".json".

Section Loading.

(** [json.Marshal(item)] on an element of a decoded array: the bytes
    written, or [None] for an error.  (Its float formatting is outside
    this development.) *)
Variable Marshal : json.value -> option string.

(** The loop over the elements of a "payloads" array, from index [i]. *)
Fixpoint explode (name : string) (i : nat) (items : list json.value)
                 (st : Loader) : Loader :=
  match items with
  | [] => st
  | item :: rest =>
      match Marshal item with
      | None => explode name (S i) rest (logLine (WarnMarshalFailed i name) st)
      | Some itemBytes =>
          explode name (S i) rest
            (appendPayload
               {| Name := (name ++ "[" ++ itoa i ++ "]")%string;
                  Content := itemBytes |} st)
      end
  end.

(** os.ReadFile on a path below the payload directory. *)
Definition ReadFile (entries : list DirEntry) (name : string) : option string :=
  match List.find (fun e => String.eqb (EntryName e) name) entries with
  | Some e => EntryData e
  | None => None
  end.

(** The body of the loop "Load each payload" for one file name. *)
Definition loadFile (entries : list DirEntry) (st : Loader) (name : string)
  : Loader :=
  let payloadPath := Join payloadDir name in
  match ReadFile entries name with
  | None => logLine (WarnLoadFailed payloadPath) st
  | Some content =>
      match json.UnmarshalMap content with
      | None => logLine (WarnInvalidJSON payloadPath) st
      | Some parsed =>
          match json.mapIndex parsed "payloads" with
          | Some (json.Array payloadsArray) =>
              let st := logLine (FoundPayloadsArray name (Go.len payloadsArray)) st in
              let st := explode name 0 payloadsArray st in
              logLine (LoadedFromArray (Go.len payloadsArray) name) st
          | _ =>
              let st := appendPayload {| Name := name; Content := content |} st in
              logLine (LoadedPayload name (Z.of_nat (String.length content))) st
          end
      end
  end.

(** The names collected by the first loop. *)
Definition payloadNames (entries : list DirEntry) : list string :=
  List.map EntryName (List.filter isPayloadFile entries).

Definition emptyLoader : Loader := {| payloads := []; logged := [] |}.

Definition init (dir : Directory) : Boot :=
  match dir with
  | None => Fatal "Failed to read payloads directory"
  | Some entries =>
      let names := sortStrings (payloadNames entries) in
      let st := fold_left (loadFile entries) names emptyLoader in
      if Go.len (payloads st) =? 0 then Fatal "No payloads loaded"
      else Booted (logLine (LoadedTotal (Go.len (payloads st))) st)
  end.

(** What the second loop leaves in the table, and what one file adds to
    an empty table. *)
Definition produced (entries : list DirEntry) : list Payload :=
  payloads (fold_left (loadFile entries) (sortStrings (payloadNames entries))
                      emptyLoader).

Definition variants (entries : list DirEntry) (name : string) : list Payload :=
  payloads (loadFile entries emptyLoader name).

(** The process: [main], and with it the listener, runs only after [init]
    returned. *)
Inductive Process : Type :=
| Exited (code : Z)
| Serving (table : list Payload).

Definition start (dir : Directory) : Process :=
  match init dir with
  | Fatal _ => Exited 1
  | Booted st => Serving (payloads st)
  end.

End Loading.

(** A decoded document with a top-level "payloads" array. *)
Definition hasPayloadsArray (v : json.value) : bool :=
  match v with
  | json.Object members =>
      match json.mapIndex members "payloads" with
      | Some (json.Array _) => true
      | _ => false
      end
  | _ => false
  end.

(** A table entry whose content json.Marshal accepts as a raw message. *)
Definition wellFormed (p : Payload) : Prop := json.Valid (Content p) = true.

(** ** pkg/model *)

Module model.

(** Modelled from the spec: the declaration of model.Request is not
    among the sources; the handler reads its field [UserID], which the
    wire format carries as "userId". *)
Record Request : Type := mkRequest { UserID : string }.

(** pkg/model/response.go: [Payload] is a json.RawMessage. *)
Record Response : Type := mkResponse {
  ExperimentID : string;
  SelectedPayloadName : string;
  Payload : string
}.

End model.

(** ** The request handlers *)

Module fiber.

Definition StatusOK : Z := 200.
Definition StatusBadRequest : Z := 400.
Definition StatusInternalServerError : Z := 500.

(** A member of a JSON object on the wire: a string literal, or the text
    of a json.RawMessage, which is written as the JSON value it denotes and
    not quoted. *)
Inductive Field : Type :=
| JString (s : string)
| JRaw (raw : string).

Inductive ResponseBody : Type :=
| JSONObject (members : list (string * Field))
| Text (s : string).

Record HTTPResponse : Type := mkHTTP {
  Status : Z;
  Body : ResponseBody
}.

(** The member [key] of a JSON object body. *)
Fixpoint lookupMember (key : string) (members : list (string * Field))
  : option Field :=
  match members with
  | [] => None
  | (k, f) :: rest => if String.eqb k key then Some f else lookupMember key rest
  end.

Definition member (key : string) (r : HTTPResponse) : option Field :=
  match Body r with
  | JSONObject members => lookupMember key members
  | Text _ => None
  end.

(** What the request body holds for the decoder: nothing it can decode
    into a model.Request, or a document in which "userId" is absent (or
    null) or carries a string. *)
Inductive RequestBody : Type :=
| Unparsable
| Decoded (userId : option string).

(** What a handler can read from its context. *)
Record Ctx : Type := mkCtx {
  reqBody : RequestBody;
  reqHeaders : list (string * string);
  reqRemoteAddr : string;
  reqClock : Z
}.

(** [c.BodyParser(&req)] with [req] a zero model.Request: an absent field
    leaves the zero value, the empty string. *)
Definition BodyParser (c : Ctx) : option model.Request :=
  match reqBody c with
  | Unparsable => None
  | Decoded None => Some {| model.UserID := "" |}
  | Decoded (Some s) => Some {| model.UserID := s |}
  end.

(** What a handler does: it sends a response or returns an error. *)
Inductive Handled : Type :=
| Sent (r : HTTPResponse)
| Failed (err : string).

(** [c.JSON(response)] for a model.Response: json.Marshal fails when the
    raw message is not a valid JSON text; otherwise the three members are
    written in declaration order with the default status. *)
Definition JSON (r : model.Response) : Handled :=
  if json.Valid (model.Payload r) then
    Sent {| Status := StatusOK;
            Body := JSONObject
                      [("experimentId", JString (model.ExperimentID r));
                       ("selectedPayloadName", JString (model.SelectedPayloadName r));
                       ("payload", JRaw (model.Payload r))] |}
  else Failed "json: error calling MarshalJSON for type json.RawMessage".

(** [c.Status(code).JSON(fiber.Map{"error": msg})] *)
Definition errorJSON (code : Z) (msg : string) : Handled :=
  Sent {| Status := code; Body := JSONObject [("error", JString msg)] |}.

End fiber.

(** The handler of POST /experiment over the table [payloads]. *)
Definition experiment (payloads : list Payload) (c : fiber.Ctx)
  : Go.result fiber.Handled :=
  match fiber.BodyParser c with
  | None => Go.Ok (fiber.errorJSON fiber.StatusBadRequest "Invalid request body")
  | Some req =>
      if String.eqb (model.UserID req) "" then
        Go.Ok (fiber.errorJSON fiber.StatusBadRequest "userId is required")
      else
        let! payload := getPayloadForUser payloads (model.UserID req) in
        let response :=
          {| model.ExperimentID := "exp-localization-v1";
             model.SelectedPayloadName := Name payload;
             model.Payload := Content payload |} in
        Go.Ok (fiber.JSON response)
  end.

(** A request the handler refuses: the body cannot be parsed, or "userId"
    is missing, or it is the empty string. *)
Definition badRequest (c : fiber.Ctx) : Prop :=
  fiber.reqBody c = fiber.Unparsable \/
  fiber.reqBody c = fiber.Decoded None \/
  fiber.reqBody c = fiber.Decoded (Some ""%string).

(** The handler of GET /health. *)
Definition healthCheck (c : fiber.Ctx) : Go.result fiber.Handled :=
  Go.Ok (fiber.Sent
           {| fiber.Status := fiber.StatusOK;
              fiber.Body := fiber.JSONObject
                              [("status", fiber.JString "ok");
                               ("message", fiber.JString "Server is running")] |}).

(** The application around a handler: the recover middleware turns a panic
    into an error, and the default error handler answers an error with
    status 500 and its text. *)
Definition serve (h : fiber.Ctx -> Go.result fiber.Handled) (c : fiber.Ctx)
  : fiber.HTTPResponse :=
  match h c with
  | Go.Ok (fiber.Sent r) => r
  | Go.Ok (fiber.Failed err) =>
      {| fiber.Status := fiber.StatusInternalServerError; fiber.Body := fiber.Text err |}
  | Go.Panic msg =>
      {| fiber.Status := fiber.StatusInternalServerError; fiber.Body := fiber.Text msg |}
  end.

(** ** float64 and time.Duration *)

Module float64.

Definition prec : Z := 53.
Definition emax : Z := 1024.

(** [float64(i)] for an integer [i]: the nearest double, ties to even. *)
Definition ofInt (i : Z) : spec_float := binary_normalize prec emax i 0 false.

Definition mul : spec_float -> spec_float -> spec_float := SFmul prec emax.
Definition div : spec_float -> spec_float -> spec_float := SFdiv prec emax.
Definition add : spec_float -> spec_float -> spec_float := SFadd prec emax.

(** The fraction is discarded (truncation towards zero); [None] when the
    result does not fit an int64 or the operand is an infinity or a NaN. *)
Definition truncate (f : spec_float) : option Z :=
  match f with
  | S754_zero _ => Some 0
  | S754_finite s m e =>
      let a := if 0 <=? e then Zpos m * 2 ^ e else Zpos m / 2 ^ (- e) in
      let v := if s then - a else a in
      if (- 2 ^ 63 <=? v) && (v <? 2 ^ 63) then Some v else None
  | _ => None
  end.

(** [int(f)]: where the value cannot be represented the language leaves
    the result to the implementation, here [unrepresentable f]. *)
Definition toInt (unrepresentable : spec_float -> Z) (f : spec_float) : Z :=
  match truncate f with
  | Some v => v
  | None => unrepresentable f
  end.

(** A zero or a finite number with a clear sign bit. *)
Definition nonneg (f : spec_float) : bool :=
  match f with
  | S754_zero _ => true
  | S754_finite s _ _ => negb s
  | _ => false
  end.

(** A zero, or a positive finite number below two: its magnitude (number
    of binary digits plus exponent) is at most one. *)
Definition belowTwo (f : spec_float) : Prop :=
  match f with
  | S754_zero _ => True
  | S754_finite false m e => Z.pos (digits2_pos m) + e <= 1
  | _ => False
  end.

(** The constant of a decimal literal [num / den] written with a decimal
    point: both are exact doubles and the division rounds correctly, so
    this is the double nearest to the decimal. *)
Definition decimal (num den : Z) : spec_float := div (ofInt num) (ofInt den).

End float64.

Module time.

Definition Millisecond : Z := 1000000.
Definition Second : Z := 1000000000.

(** [(d Duration).Seconds()]:
    [sec := d / Second; nsec := d % Second;
     return float64(sec) + float64(nsec)/1e9]. *)
Definition Seconds (d : Z) : spec_float :=
  let sec := Z.quot d Second in
  let nsec := Z.rem d Second in
  float64.add (float64.ofInt sec)
              (float64.div (float64.ofInt nsec) (float64.ofInt 1000000000)).

End time.

(** ** cmd/loadtest: the load generator *)

Module loadtest.

Record Stats : Type := mkStats {
  totalRequests : Z;
  successRequests : Z;
  failedRequests : Z;
  fastRequests : Z;
  slowRequests : Z;
  fastLatencies : list Z;
  slowLatencies : list Z
}.

(** What the network did with one POST: the call failed, or a response
    with [status] arrived, reading its body succeeded or not, and the
    clock showed [latency] milliseconds since the start. *)
Inductive Exchange : Type :=
| PostFailed
| Answered (status : Z) (bodyRead : bool) (latency : Z).

Definition StatusOK : Z := 200.

Definition zeroStats : Stats :=
  {| totalRequests := 0; successRequests := 0; failedRequests := 0;
     fastRequests := 0; slowRequests := 0;
     fastLatencies := []; slowLatencies := [] |}.

Definition countFailure (s : Stats) : Stats :=
  {| totalRequests := totalRequests s;
     successRequests := successRequests s;
     failedRequests := atomic.Add (failedRequests s) 1;
     fastRequests := fastRequests s; slowRequests := slowRequests s;
     fastLatencies := fastLatencies s; slowLatencies := slowLatencies s |}.

Definition countTotal (s : Stats) : Stats :=
  {| totalRequests := atomic.Add (totalRequests s) 1;
     successRequests := successRequests s;
     failedRequests := failedRequests s;
     fastRequests := fastRequests s; slowRequests := slowRequests s;
     fastLatencies := fastLatencies s; slowLatencies := slowLatencies s |}.

Definition makeFastRequest (stats : Stats) (x : Exchange) : Stats :=
  let stats := countTotal stats in
  match x with
  | PostFailed => countFailure stats
  | Answered status bodyRead latency =>
      if status =? StatusOK then
        if bodyRead then
          {| totalRequests := totalRequests stats;
             successRequests := atomic.Add (successRequests stats) 1;
             failedRequests := failedRequests stats;
             fastRequests := fastRequests stats;
             slowRequests := slowRequests stats;
             fastLatencies := fastLatencies stats ++ [latency];
             slowLatencies := slowLatencies stats |}
        else countFailure stats
      else countFailure stats
  end.

Definition makeSlowRequest (stats : Stats) (x : Exchange) : Stats :=
  let stats := countTotal stats in
  match x with
  | PostFailed => countFailure stats
  | Answered status bodyRead latency =>
      if status =? StatusOK then
        if bodyRead then
          {| totalRequests := totalRequests stats;
             successRequests := atomic.Add (successRequests stats) 1;
             failedRequests := failedRequests stats;
             fastRequests := fastRequests stats;
             slowRequests := slowRequests stats;
             fastLatencies := fastLatencies stats;
             slowLatencies := slowLatencies stats ++ [latency] |}
        else countFailure stats
      else countFailure stats
  end.

Inductive Class : Type := Fast | Slow.

(** One iteration of the loop of [runFastClient], respectively of
    [runSlowClient], taken when the run is not yet cancelled: the request,
    then the counter of the class. *)
Definition iteration (stats : Stats) (it : Class * Exchange) : Stats :=
  match it with
  | (Fast, x) =>
      let s := makeFastRequest stats x in
      {| totalRequests := totalRequests s;
         successRequests := successRequests s;
         failedRequests := failedRequests s;
         fastRequests := atomic.Add (fastRequests s) 1;
         slowRequests := slowRequests s;
         fastLatencies := fastLatencies s; slowLatencies := slowLatencies s |}
  | (Slow, x) =>
      let s := makeSlowRequest stats x in
      {| totalRequests := totalRequests s;
         successRequests := successRequests s;
         failedRequests := failedRequests s;
         fastRequests := fastRequests s;
         slowRequests := atomic.Add (slowRequests s) 1;
         fastLatencies := fastLatencies s; slowLatencies := slowLatencies s |}
  end.

(** A run: the iterations of all clients in the order in which their
    updates of the shared statistics took effect (the counters are atomic
    and the appends are made under the mutex), up to the point where all
    clients have returned. *)
Definition runLoadTest (iterations : list (Class * Exchange)) (stats : Stats)
  : Stats :=
  fold_left iteration iterations stats.

(** sort.Slice with the comparison [a < b] on [int64]. *)
Fixpoint insertInt64 (x : Z) (sorted : list Z) : list Z :=
  match sorted with
  | [] => [x]
  | y :: rest => if x <=? y then x :: sorted else y :: insertInt64 x rest
  end.

Definition sortInt64 (l : list Z) : list Z := fold_right insertInt64 [] l.

Record LatencyStats : Type := mkLatency {
  Minimum : Z; Average : Z; Maximum : Z;
  P50 : Z; P90 : Z; P99 : Z
}.

Record Report : Type := mkReport {
  Overall : LatencyStats;
  FastOnly : option LatencyStats;
  SlowOnly : option LatencyStats;
  OverallRps : spec_float;
  FastRps : option spec_float;
  SlowRps : option spec_float
}.

Section Platform.

(** The result of [int(f)] where the language leaves it open. *)
Variable unrepresentable : spec_float -> Z.

Definition calculatePercentile (sortedLatencies : list Z)
                               (percentile : spec_float) : Go.result Z :=
  if Go.len sortedLatencies =? 0 then Go.Ok 0
  else
    let index :=
      float64.toInt unrepresentable
        (float64.mul (float64.ofInt (Go.len sortedLatencies)) percentile) in
    let index :=
      if Go.len sortedLatencies <=? index then Go.len sortedLatencies - 1
      else index in
    Go.index sortedLatencies index.

(** The block computing minimum, maximum, mean and percentiles of one
    sorted collection; all zero for an empty one. *)
Definition latencyStats (sorted : list Z) : Go.result LatencyStats :=
  if 0 <? Go.len sorted then
    let! lo := Go.index sorted 0 in
    let! hi := Go.index sorted (Go.len sorted - 1) in
    let total := fold_left (fun acc lat => Go.wrapS 64 (acc + lat)) sorted 0 in
    let avg := Go.wrapS 64 (Z.quot total (Go.len sorted)) in
    let! p50 := calculatePercentile sorted (float64.decimal 50 100) in
    let! p90 := calculatePercentile sorted (float64.decimal 90 100) in
    let! p99 := calculatePercentile sorted (float64.decimal 99 100) in
    Go.Ok {| Minimum := lo; Average := avg; Maximum := hi;
             P50 := p50; P90 := p90; P99 := p99 |}
  else
    Go.Ok {| Minimum := 0; Average := 0; Maximum := 0;
             P50 := 0; P90 := 0; P99 := 0 |}.

(** [printResults]: the figures it prints, for a run that took
    [duration] nanoseconds.  The per-class blocks and throughput lines
    are printed only for a class with at least one latency sample.
    (The efficiency and assessment lines are left out.) *)
Definition printResults (stats : Stats) (duration : Z) : Go.result Report :=
  let successRequests := successRequests stats in
  let fastRequests := fastRequests stats in
  let slowRequests := slowRequests stats in
  let fastLatencies := sortInt64 (fastLatencies stats) in
  let slowLatencies := sortInt64 (slowLatencies stats) in
  let allLatencies := sortInt64 (fastLatencies ++ slowLatencies) in
  let! overall := latencyStats allLatencies in
  let! fast := latencyStats fastLatencies in
  let! slow := latencyStats slowLatencies in
  let rps := float64.div (float64.ofInt successRequests) (time.Seconds duration) in
  let fastRps := float64.div (float64.ofInt fastRequests) (time.Seconds duration) in
  let slowRps := float64.div (float64.ofInt slowRequests) (time.Seconds duration) in
  Go.Ok {| Overall := overall;
           FastOnly := if 0 <? Go.len fastLatencies then Some fast else None;
           SlowOnly := if 0 <? Go.len slowLatencies then Some slow else None;
           OverallRps := rps;
           FastRps := if 0 <? Go.len fastLatencies then Some fastRps else None;
           SlowRps := if 0 <? Go.len slowLatencies then Some slowRps else None |}.

End Platform.

(** The requests of a class that succeeded: answered with status 200 and
    a body read to its end. *)
Definition succeeded (x : Exchange) : bool :=
  match x with
  | Answered status true _ => status =? StatusOK
  | _ => false
  end.

Definition isClass (c : Class) (it : Class * Exchange) : bool :=
  match c, fst it with
  | Fast, Fast | Slow, Slow => true
  | _, _ => false
  end.

(** How many requests the clients of class [c] issued, and how many of
    those succeeded. *)
Definition issued (c : Class) (its : list (Class * Exchange)) : Z :=
  Go.len (List.filter (isClass c) its).

Definition successes (c : Class) (its : list (Class * Exchange)) : Z :=
  Go.len (List.filter (fun it => isClass c it && succeeded (snd it)) its).

Definition allSuccesses (its : list (Class * Exchange)) : Z :=
  Go.len (List.filter (fun it => succeeded (snd it)) its).

(** SlowReader.Read up to the call of the wrapped reader: the bound
    [chunkSize] of the window [p[:chunkSize]] it passes on, for a reader
    made with [bytesPerSec] and a buffer of [lenp] bytes. *)
Definition chunkSize (bytesPerSec lenp : Z) : Z :=
  let chunkSize := Z.quot bytesPerSec 10 in
  let chunkSize := if chunkSize =? 0 then 1 else chunkSize in
  if lenp <? chunkSize then lenp else chunkSize.

(** The slice expression [p[:chunkSize]]: its length, or the run-time
    panic for a bound that is negative or beyond the buffer. *)
Definition readWindow (bytesPerSec lenp : Z) : Go.result Z :=
  let chunkSize := chunkSize bytesPerSec lenp in
  if (chunkSize <? 0) || (lenp <? chunkSize)
  then Go.Panic "slice bounds out of range"
  else Go.Ok chunkSize.

(** The latencies of the successful requests of class [c], in the order
    of the run. *)
Definition samples (c : Class) (its : list (Class * Exchange)) : list Z :=
  flat_map (fun it =>
              match snd it with
              | Answered _ _ latency =>
                  if isClass c it && succeeded (snd it) then [latency] else []
              | PostFailed => []
              end) its.

(** A block of latency figures all of which are samples of [l], the
    minimum and the maximum bounding every sample. *)
Definition summarises (ls : LatencyStats) (l : list Z) : Prop :=
  In (Minimum ls) l /\ In (Maximum ls) l /\
  (forall x, In x l -> Minimum ls <= x <= Maximum ls) /\
  In (P50 ls) l /\ In (P90 ls) l /\ In (P99 ls) l.

End loadtest.

(** ** unicode/utf8 *)

Module utf8.

(** The table [first] of the package: for a leading byte, the length of
    the encoding it starts and the range accepted for the second byte;
    [None] for a byte that starts no encoding. *)
Definition first (b0 : Z) : option (nat * (Z * Z)) :=
  if b0 <? 0x80 then Some (1%nat, (0, 0))
  else if b0 <? 0xC2 then None
  else if b0 <? 0xE0 then Some (2%nat, (0x80, 0xBF))
  else if b0 =? 0xE0 then Some (3%nat, (0xA0, 0xBF))
  else if b0 <? 0xED then Some (3%nat, (0x80, 0xBF))
  else if b0 =? 0xED then Some (3%nat, (0x80, 0x9F))
  else if b0 <? 0xF0 then Some (3%nat, (0x80, 0xBF))
  else if b0 =? 0xF0 then Some (4%nat, (0x90, 0xBF))
  else if b0 <? 0xF4 then Some (4%nat, (0x80, 0xBF))
  else if b0 =? 0xF4 then Some (4%nat, (0x80, 0x8F))
  else None.

Definition continuation (b : Z) : bool := (0x80 <=? b) && (b <=? 0xBF).

(** The size DecodeRune reports for the bytes at the head of [s]; 0 stands
    for its answer (RuneError, 1) to an ill-formed or truncated encoding. *)
Definition runeSize (s : list ascii) : nat :=
  match s with
  | [] => 0%nat
  | b0 :: rest =>
      match first (Go.byteval b0) with
      | None => 0%nat
      | Some (size, (lo, hi)) =>
          if (size <=? 1)%nat then 1%nat
          else
            match rest with
            | [] => 0%nat
            | b1 :: rest1 =>
                if (lo <=? Go.byteval b1) && (Go.byteval b1 <=? hi) then
                  if (size <=? 2)%nat then 2%nat
                  else
                    match rest1 with
                    | [] => 0%nat
                    | b2 :: rest2 =>
                        if continuation (Go.byteval b2) then
                          if (size <=? 3)%nat then 3%nat
                          else
                            match rest2 with
                            | [] => 0%nat
                            | b3 :: _ =>
                                if continuation (Go.byteval b3) then 4%nat else 0%nat
                            end
                        else 0%nat
                    end
                else 0%nat
            end
      end
  end.

(** U+FFFD in UTF-8. *)
Definition replacement : list ascii :=
  [ascii_of_N 0xEF; ascii_of_N 0xBF; ascii_of_N 0xBD].

(** The coercion to valid UTF-8 that encoding/json applies to every string
    it writes or reads: each byte at which DecodeRune answers
    (RuneError, 1) is replaced by U+FFFD, every well-formed encoding is
    copied.  [pending] counts the bytes of the current encoding that are
    still to be copied. *)
Fixpoint coerceFrom (pending : nat) (s : list ascii) : list ascii :=
  match s with
  | [] => []
  | c :: rest =>
      match pending with
      | S k => c :: coerceFrom k rest
      | O =>
          match runeSize s with
          | O => replacement ++ coerceFrom 0 rest
          | S k => c :: coerceFrom k rest
          end
      end
  end.

Definition coerce (s : string) : string :=
  string_of_list_ascii (coerceFrom 0 (list_ascii_of_string s)).

End utf8.

(** ** cmd/allocationtest: the consistency verifier *)

Module allocationtest.

Record UserAllocation : Type := mkAllocation {
  UserID : string;
  PayloadName : string;
  RequestCount : Z;
  Consistent : bool
}.

Record TestResults : Type := mkResults {
  TotalUsers : Z;
  TotalRequests : Z;
  SuccessfulRequests : Z;
  FailedRequests : Z;
  ConsistentUsers : Z;
  InconsistentUsers : Z;
  PayloadDistribution : gmap string Z;
  UserAllocations : list UserAllocation;
  InconsistentDetails : list string;
  TestDuration : Z;
  RequestsPerSecond : spec_float;
  AllocationConsistency : spec_float
}.

(** [x++] on an [int]. *)
Definition incr (x : Z) : Z := Go.wrapS Go.intBits (x + 1).

(** What the workers share: the map under the mutex and the three atomic
    counters. *)
Record Shared : Type := mkShared {
  userPayloads : gmap string (gmap string Z);
  totalRequests : Z;
  successRequests : Z;
  failedRequests : Z
}.

Definition noWork : Shared :=
  {| userPayloads := ∅; totalRequests := 0; successRequests := 0;
     failedRequests := 0 |}.

(** The two statements under the mutex:
    the inner map is made on first use, then
    [userPayloads[w.userID][payload]++]. *)
Definition record (m : gmap string (gmap string Z)) (userID payload : string)
  : gmap string (gmap string Z) :=
  let inner := default ∅ (m !! userID) in
  <[userID := <[payload := incr (default 0 (inner !! payload))]> inner]> m.

(** The body of a worker's loop for one work item: [reply] is what
    [makeRequest] returned, [None] for an error (transport failure, a
    status other than 200, an unreadable or undecodable body) and the
    selectedPayloadName otherwise. *)
Definition work (s : Shared) (w : string * option string) : Shared :=
  let '(userID, reply) := w in
  let total := atomic.Add (totalRequests s) 1 in
  match reply with
  | None =>
      {| userPayloads := userPayloads s; totalRequests := total;
         successRequests := successRequests s;
         failedRequests := atomic.Add (failedRequests s) 1 |}
  | Some payload =>
      {| userPayloads := record (userPayloads s) userID payload;
         totalRequests := total;
         successRequests := atomic.Add (successRequests s) 1;
         failedRequests := failedRequests s |}
  end.

(** The worker pool: the work items in the order in which the workers'
    updates took effect, each with the reply it got. *)
Definition runWorkers (items : list (string * option string)) : Shared :=
  fold_left work items noWork.

(** The loop "Get the primary payload": the first entry, in iteration
    order, with the largest count. *)
Definition primary (entries : list (string * Z)) : string * Z :=
  fold_left (fun '(primaryPayload, maxCount) '(payload, count) =>
               if maxCount <? count then (payload, count)
               else (primaryPayload, maxCount))
            entries (""%string, 0).

Definition detailLine (userID : string) (entries : list (string * Z)) : string :=
  let payloadList :=
    List.map (fun '(payload, count) =>
                (payload ++ "(" ++ itoa (Z.to_nat count) ++ ")")%string) entries in
  ("User " ++ userID ++ " received multiple payloads: "
     ++ String.concat ", " payloadList)%string.

(** The body of the loop over [userPayloads] for one user. *)
Definition analyzeUser (results : TestResults)
                       (entry : string * gmap string Z) : TestResults :=
  let '(userID, payloads) := entry in
  let entries := map_to_list payloads in
  let totalForUser :=
    fold_left (fun acc '(_, count) => Go.wrapS Go.intBits (acc + count)) entries 0 in
  let consistent := Z.of_nat (size payloads) =? 1 in
  let primaryPayload := fst (primary entries) in
  let allocation :=
    {| UserID := userID; PayloadName := primaryPayload;
       RequestCount := totalForUser; Consistent := consistent |} in
  {| TotalUsers := TotalUsers results;
     TotalRequests := TotalRequests results;
     SuccessfulRequests := SuccessfulRequests results;
     FailedRequests := FailedRequests results;
     ConsistentUsers :=
       if consistent then incr (ConsistentUsers results)
       else ConsistentUsers results;
     InconsistentUsers :=
       if consistent then InconsistentUsers results
       else incr (InconsistentUsers results);
     PayloadDistribution :=
       <[primaryPayload :=
           incr (default 0 (PayloadDistribution results !! primaryPayload))]>
         (PayloadDistribution results);
     UserAllocations := UserAllocations results ++ [allocation];
     InconsistentDetails :=
       if consistent then InconsistentDetails results
       else InconsistentDetails results ++ [detailLine userID entries];
     TestDuration := TestDuration results;
     RequestsPerSecond := RequestsPerSecond results;
     AllocationConsistency := AllocationConsistency results |}.

Definition zero : spec_float := S754_zero false.

(** [analyzeResults].  Go leaves the order of a [range] over a map
    unspecified; [map_to_list] stands for the order of one execution.  Only
    the order of the slices and the choice among equally frequent payloads
    depend on it. *)
Definition analyzeResults (userPayloads : gmap string (gmap string Z))
                          (requestsPerUser : Z) (duration : Z)
                          (totalReqs successReqs failedReqs : Z) : TestResults :=
  let results :=
    {| TotalUsers := Z.of_nat (size userPayloads);
       TotalRequests := totalReqs;
       SuccessfulRequests := successReqs;
       FailedRequests := failedReqs;
       ConsistentUsers := 0;
       InconsistentUsers := 0;
       PayloadDistribution := ∅;
       UserAllocations := [];
       InconsistentDetails := [];
       TestDuration := duration;
       RequestsPerSecond :=
         if SFltb zero (time.Seconds duration)
         then float64.div (float64.ofInt successReqs) (time.Seconds duration)
         else zero;
       AllocationConsistency := zero |} in
  let results := fold_left analyzeUser (map_to_list userPayloads) results in
  {| TotalUsers := TotalUsers results;
     TotalRequests := TotalRequests results;
     SuccessfulRequests := SuccessfulRequests results;
     FailedRequests := FailedRequests results;
     ConsistentUsers := ConsistentUsers results;
     InconsistentUsers := InconsistentUsers results;
     PayloadDistribution := PayloadDistribution results;
     UserAllocations := UserAllocations results;
     InconsistentDetails := InconsistentDetails results;
     TestDuration := TestDuration results;
     RequestsPerSecond := RequestsPerSecond results;
     AllocationConsistency :=
       if 0 <? TotalUsers results then
         float64.mul
           (float64.div (float64.ofInt (ConsistentUsers results))
                        (float64.ofInt (TotalUsers results)))
           (float64.ofInt 100)
       else AllocationConsistency results |}.

(** [runAllocationTest] from the point where the work items are queued:
    the pool runs, then the results are analysed. *)
Definition runAllocationTest (items : list (string * option string))
                             (requestsPerUser duration : Z) : TestResults :=
  let s := runWorkers items in
  analyzeResults (userPayloads s) requestsPerUser duration
                 (totalRequests s) (successRequests s) (failedRequests s).

(** What the results say about users: the user count, the verdict counts,
    the distribution, the per-user records, the detail lines and the
    consistency rate. *)
Definition userView (r : TestResults)
  : Z * Z * Z * gmap string Z * list UserAllocation * list string * spec_float :=
  (TotalUsers r, ConsistentUsers r, InconsistentUsers r, PayloadDistribution r,
   UserAllocations r, InconsistentDetails r, AllocationConsistency r).

(** The work items of one user, and whether any of them succeeded. *)
Definition ofUser (u : string) (w : string * option string) : bool :=
  String.eqb (fst w) u.

Definition succeeded (w : string * option string) : bool :=
  match snd w with Some _ => true | None => false end.

(** A work item of user [v] that was answered with the payload name [p]. *)
Definition observed (v p : string) (w : string * option string) : bool :=
  String.eqb (fst w) v &&
  match snd w with Some q => String.eqb q p | None => false end.

(** The counts of a list of map entries added up as unbounded integers. *)
Definition sumCounts (entries : list (string * Z)) : Z :=
  fold_right Z.add 0 (List.map snd entries).

(** The verdict counters, the detail lines and the distribution agree with
    the per-user records. *)
Definition tallied (r : TestResults) : Prop :=
  ConsistentUsers r = Go.len (List.filter Consistent (UserAllocations r)) /\
  InconsistentUsers r =
    Go.len (List.filter (fun a => negb (Consistent a)) (UserAllocations r)) /\
  Go.len (InconsistentDetails r) = InconsistentUsers r /\
  forall p : string,
    default 0 (PayloadDistribution r !! p) =
    Go.len (List.filter (fun a => String.eqb (PayloadName a) p) (UserAllocations r)).

(** The struct the verifier decodes a response into: all three fields
    are strings. *)
Record Response : Type := mkResponse {
  ExperimentID : string;
  SelectedPayloadName : string;
  Payload : string
}.

Inductive ResponseField : Type :=
| FExperimentID
| FSelectedPayloadName
| FPayload.

Definition fieldNames : list (string * ResponseField) :=
  [("experimentId"%string, FExperimentID);
   ("selectedPayloadName"%string, FSelectedPayloadName);
   ("payload"%string, FPayload)].

(** foldName of encoding/json, as far as the comparison with the folded
    name of a field with an ASCII name goes: ASCII letters are put in upper
    case, and the two other letters whose case orbit holds an ASCII letter,
    U+017F and U+212A, become S and K.  (Any other rune stays outside
    ASCII under foldRune, here it is left as it is.) *)
Fixpoint foldName (s : list ascii) : list ascii :=
  match s with
  | [] => []
  | c :: rest =>
      let n := Go.byteval c in
      if (97 <=? n) && (n <=? 122) then json.chr (n - 32) :: foldName rest
      else if n =? 0xC5 then
        match rest with
        | b :: rest' =>
            if Go.byteval b =? 0xBF then json.chr 83 :: foldName rest'
            else c :: foldName rest
        | [] => c :: foldName rest
        end
      else if n =? 0xE2 then
        match rest with
        | b1 :: b2 :: rest' =>
            if (Go.byteval b1 =? 0x84) && (Go.byteval b2 =? 0xAA)
            then json.chr 75 :: foldName rest'
            else c :: foldName rest
        | _ => c :: foldName rest
        end
      else c :: foldName rest
  end.

Definition folded (s : string) : string :=
  string_of_list_ascii (foldName (list_ascii_of_string s)).

(** The field a key is stored into: the field with exactly that name,
    else the field with the same folded name; [None] for a key that is
    ignored. *)
Definition fieldOf (key : string) : option ResponseField :=
  match List.find (fun nf => String.eqb (fst nf) key) fieldNames with
  | Some nf => Some (snd nf)
  | None =>
      match List.find (fun nf => String.eqb (folded (fst nf)) (folded key))
                      fieldNames with
      | Some nf => Some (snd nf)
      | None => None
      end
  end.

(** Storing a value into a field of type string: a string is stored, a
    [null] leaves the field as it is, anything else is an
    UnmarshalTypeError ([None]). *)
Definition storeString (v : json.value) (old : string) : option string :=
  match v with
  | json.Str s => Some (utf8.coerce s)
  | json.Null => Some old
  | _ => None
  end.

(** The values a field of type string accepts. *)
Definition textual (v : json.value) : bool :=
  match v with
  | json.Str _ | json.Null => true
  | _ => false
  end.

(** One member of the document: the struct so far and whether no error
    has been saved.  After a type error the decoder goes on with the
    next member. *)
Definition decodeMember (st : Response * bool) (kv : string * json.value)
  : Response * bool :=
  let '(r, ok) := st in
  match fieldOf (utf8.coerce (fst kv)) with
  | None => st
  | Some FExperimentID =>
      match storeString (snd kv) (ExperimentID r) with
      | Some s =>
          ({| ExperimentID := s;
              SelectedPayloadName := SelectedPayloadName r;
              Payload := Payload r |}, ok)
      | None => (r, false)
      end
  | Some FSelectedPayloadName =>
      match storeString (snd kv) (SelectedPayloadName r) with
      | Some s =>
          ({| ExperimentID := ExperimentID r;
              SelectedPayloadName := s;
              Payload := Payload r |}, ok)
      | None => (r, false)
      end
  | Some FPayload =>
      match storeString (snd kv) (Payload r) with
      | Some s =>
          ({| ExperimentID := ExperimentID r;
              SelectedPayloadName := SelectedPayloadName r;
              Payload := s |}, ok)
      | None => (r, false)
      end
  end.

Definition zeroResponse : Response :=
  {| ExperimentID := ""; SelectedPayloadName := ""; Payload := "" |}.

(** [json.Unmarshal(body, &response)] on a well-formed document: [None]
    when it returns an error, which it does for a top-level value that is
    neither an object nor [null] and when a type error was saved. *)
Definition Unmarshal (doc : json.value) : option Response :=
  match doc with
  | json.Null => Some zeroResponse
  | json.Object members =>
      let '(r, ok) := fold_left decodeMember members (zeroResponse, true) in
      if ok then Some r else None
  | _ => None
  end.

(** The document the decoder finds in a response body: a string member
    was written as a string literal, a raw message as the value it denotes;
    [None] when the body is not well-formed JSON. *)
Fixpoint documentMembers (members : list (string * fiber.Field))
  : option (list (string * json.value)) :=
  match members with
  | [] => Some []
  | (k, f) :: rest =>
      let v :=
        match f with
        | fiber.JString s => Some (json.Str s)
        | fiber.JRaw raw => json.parse raw
        end in
      match v, documentMembers rest with
      | Some v, Some ms => Some ((k, v) :: ms)
      | _, _ => None
      end
  end.

Definition document (b : fiber.ResponseBody) : option json.value :=
  match b with
  | fiber.Text s => json.parse s
  | fiber.JSONObject members => option_map json.Object (documentMembers members)
  end.

(** What became of one POST: [client.Post] returned an error, or a
    response arrived and io.ReadAll of its body succeeded or not. *)
Inductive Transport : Type :=
| Unreachable
| Delivered (r : fiber.HTTPResponse) (bodyRead : bool).

(** [makeRequest]: the selectedPayloadName of the decoded response, or
    [None] for each of its four error returns. *)
Definition makeRequest (t : Transport) : option string :=
  match t with
  | Unreachable => None
  | Delivered r bodyRead =>
      if negb (fiber.Status r =? 200) then None
      else if negb bodyRead then None
      else
        match document (fiber.Body r) with
        | None => None
        | Some doc => option_map SelectedPayloadName (Unmarshal doc)
        end
  end.

(** The verdict of printSummary and writeResults, the test
    [results.AllocationConsistency == 100] on a float64. *)
Definition passed (results : TestResults) : bool :=
  SFeqb (AllocationConsistency results) (float64.ofInt 100).

End allocationtest.

(** * Properties *)

(** ** Assignment engine *)

Example hash_a : fnv.Sum32 (fnv.Write fnv.New32a (Go.bytes "a")) = 0xe40c292c.
Proof. reflexivity. Qed.

Example hash_foobar :
  fnv.Sum32 (fnv.Write fnv.New32a (Go.bytes "foobar")) = 0xbf9cf968.
Proof. reflexivity. Qed.

Example spec_words_a : SpecWords.hash "a" = 0x050c5d7e.
Proof. reflexivity. Qed.

Lemma wrapU32_range (x : Z) : 0 <= Go.wrapU 32 x < 2 ^ 32.
Proof. unfold Go.wrapU. apply Z.mod_pos_bound. lia. Qed.

Lemma Write_range (data : list ascii) (h : Z) :
  0 <= h < 2 ^ 32 -> 0 <= fnv.Write h data < 2 ^ 32.
Proof.
  revert h. induction data as [|c data IH]; intros h Hh; simpl.
  - exact Hh.
  - apply IH. unfold fnv.step32a. apply wrapU32_range.
Qed.

Lemma Sum32_range (userID : string) :
  0 <= fnv.Sum32 (fnv.Write fnv.New32a (Go.bytes userID)) < 2 ^ 32.
Proof.
  unfold fnv.Sum32. apply Write_range.
  unfold fnv.New32a, fnv.offset32. lia.
Qed.

(** On a 64-bit [int] the conversion of a [uint32] keeps its value. *)
Lemma wrapS_uint32 (x : Z) : 0 <= x < 2 ^ 32 -> Go.wrapS Go.intBits x = x.
Proof.
  intros Hx. unfold Go.wrapS, Go.intBits.
  rewrite Z.mod_small; lia.
Qed.

Lemma assignIndex_eq (userID : string) (n : Z) :
  0 < n ->
  assignIndex userID n =
    Go.Ok (fnv.Sum32 (fnv.Write fnv.New32a (Go.bytes userID)) mod n).
Proof.
  intros Hn. unfold assignIndex, assignIndexW.
  pose proof (Sum32_range userID) as Hr.
  rewrite wrapS_uint32 by exact Hr.
  unfold Go.rem. destruct (Z.eqb_spec n 0) as [->|_]; [lia|].
  f_equal. apply Z.rem_mod_nonneg; lia.
Qed.

Lemma index_in_bounds {T} (s : list T) (i : Z) :
  0 <= i < Go.len s -> exists v, Go.index s i = Go.Ok v /\ In v s.
Proof.
  intros [H0 H1]. unfold Go.index, Go.len in *.
  destruct (Z.ltb_spec i 0) as [?|_]; [lia|].
  destruct (nth_error s (Z.to_nat i)) as [v|] eqn:E.
  - exists v. split; [reflexivity|]. eapply nth_error_In; eassumption.
  - apply nth_error_None in E. lia.
Qed.

(** C1.  For every key and every variant count [n > 0] the index computed
    by getPayloadForUser is an integer [i] with [0 <= i < n], and the lookup
    in a table of [n] payloads succeeds with that entry. *)
Theorem assignment_in_range (k : string) (n : Z) :
  0 < n ->
  exists i,
    assignIndex k n = Go.Ok i /\ 0 <= i < n /\
    forall payloads : list Payload,
      Go.len payloads = n ->
      exists p, Go.index payloads i = Go.Ok p /\
                getPayloadForUser payloads k = Go.Ok p /\ In p payloads.
Proof.
  intros Hn.
  exists (fnv.Sum32 (fnv.Write fnv.New32a (Go.bytes k)) mod n).
  pose proof (Z.mod_pos_bound (fnv.Sum32 (fnv.Write fnv.New32a (Go.bytes k))) n Hn) as Hb.
  split; [apply assignIndex_eq; exact Hn|].
  split; [exact Hb|].
  intros payloads Hlen.
  destruct (index_in_bounds payloads
              (fnv.Sum32 (fnv.Write fnv.New32a (Go.bytes k)) mod n)) as (p & Hp & Hin).
  { rewrite Hlen. exact Hb. }
  exists p. split; [exact Hp|]. split; [|exact Hin].
  unfold getPayloadForUser. rewrite Hlen, assignIndex_eq by exact Hn.
  simpl. exact Hp.
Qed.

Lemma assignment_in_range_witness :
  0 < 6 /\
  exists i,
    assignIndex "user-123" 6 = Go.Ok i /\ 0 <= i < 6 /\
    forall payloads : list Payload,
      Go.len payloads = 6 ->
      exists p, Go.index payloads i = Go.Ok p /\
                getPayloadForUser payloads "user-123" = Go.Ok p /\ In p payloads.
Proof. split; [lia | apply (assignment_in_range "user-123" 6); lia]. Defined.

(** With a 32-bit [int] the conversion of the hash can be negative, and so
    can the index: the range above is a property of the 64-bit [int]. *)
Remark assignIndexW_32_negative : assignIndexW 32 "" 7 = Go.Ok (-2).
Proof. reflexivity. Qed.

Lemma Write_hashFrom (key : string) (h : Z) :
  fnv.Write h (Go.bytes key) = Fnv1a.hashFrom h key.
Proof.
  revert h. induction key as [|c key IH]; intros h; simpl.
  - reflexivity.
  - apply IH.
Qed.

(** C2, as stated, fails: for the key "a" the hash of the server is
    0xe40c292c while multiplying before xor-ing gives 0x050c5d7e, and the
    two indices among 7 variants differ. *)
Lemma multiply_then_xor_differs :
  fnv.Sum32 (fnv.Write fnv.New32a (Go.bytes "a")) <> SpecWords.hash "a" /\
  assignIndex "a" 7 <> Go.Ok (SpecWords.assign "a" 7).
Proof. split; vm_compute; congruence. Qed.

(** C2, amended.  For every key the hash used for assignment is the 32-bit
    hash that starts at the offset basis 0x811c9dc5 and performs, for each
    byte of the key in order, one xor-then-multiply step with the prime
    0x01000193; the index is that hash modulo the variant count on unsigned
    numbers. *)
Theorem hash_is_xor_then_multiply (k : string) (n : Z) :
  0 < n ->
  fnv.Sum32 (fnv.Write fnv.New32a (Go.bytes k)) = Fnv1a.hash k /\
  0 <= Fnv1a.hash k < 2 ^ 32 /\
  assignIndex k n = Go.Ok (Fnv1a.assign k n).
Proof.
  intros Hn.
  assert (E : fnv.Sum32 (fnv.Write fnv.New32a (Go.bytes k)) = Fnv1a.hash k).
  { unfold fnv.Sum32, Fnv1a.hash, fnv.New32a. apply Write_hashFrom. }
  split; [exact E|]. split.
  - rewrite <- E. apply Sum32_range.
  - rewrite assignIndex_eq by exact Hn. unfold Fnv1a.assign. now rewrite E.
Qed.

Lemma hash_is_xor_then_multiply_witness :
  0 < 7 /\
  (fnv.Sum32 (fnv.Write fnv.New32a (Go.bytes "a")) = Fnv1a.hash "a" /\
   0 <= Fnv1a.hash "a" < 2 ^ 32 /\
   assignIndex "a" 7 = Go.Ok (Fnv1a.assign "a" 7)).
Proof. split; [lia | apply (hash_is_xor_then_multiply "a" 7); lia]. Defined.

(** C8.  For every variant count [n > 0] the empty key is assigned without
    error, to the offset basis 0x811c9dc5 reduced modulo [n]; hashing no
    byte leaves the hash at the offset basis. *)
Theorem empty_key_assignment (n : Z) :
  0 < n ->
  fnv.Sum32 (fnv.Write fnv.New32a (Go.bytes "")) = 0x811c9dc5 /\
  assignIndex "" n = Go.Ok (0x811c9dc5 mod n) /\
  0 <= 0x811c9dc5 mod n < n.
Proof.
  intros Hn. split; [reflexivity|]. split.
  - rewrite assignIndex_eq by exact Hn. reflexivity.
  - apply Z.mod_pos_bound. exact Hn.
Qed.

Lemma empty_key_assignment_witness :
  0 < 6 /\
  (fnv.Sum32 (fnv.Write fnv.New32a (Go.bytes "")) = 0x811c9dc5 /\
   assignIndex "" 6 = Go.Ok (0x811c9dc5 mod 6) /\
   0 <= 0x811c9dc5 mod 6 < 6).
Proof. split; [lia | apply (empty_key_assignment 6); lia]. Defined.

(** ** Payload store *)

Lemma In_insertString (x y : string) (l : list string) :
  In y (insertString x l) <-> y = x \/ In y l.
Proof.
  induction l as [|z l IH]; simpl.
  - intuition.
  - destruct (String.leb x z); simpl; [intuition|].
    rewrite IH. intuition.
Qed.

Lemma In_sortStrings (y : string) (l : list string) :
  In y (sortStrings l) <-> In y l.
Proof.
  induction l as [|x l IH]; simpl; [tauto|].
  rewrite In_insertString, IH. intuition.
Qed.

Lemma UnmarshalMap_Valid (content : string) (parsed : list (string * json.value)) :
  json.UnmarshalMap content = Some parsed -> json.Valid content = true.
Proof.
  unfold json.UnmarshalMap, json.Valid.
  destruct (json.parse content); [reflexivity|discriminate].
Qed.

(** When the decoding into a string-keyed map succeeds: the text is an
    object whose numbers all fit a float64, or it is [null]. *)
Lemma UnmarshalMap_Some (content : string) (parsed : list (string * json.value)) :
  json.UnmarshalMap content = Some parsed <->
  (json.parse content = Some (json.Object parsed) /\
   json.storable (json.Object parsed) = true) \/
  (json.parse content = Some json.Null /\ parsed = []).
Proof.
  unfold json.UnmarshalMap.
  destruct (json.parse content) as [v|]; [|split; [discriminate|intros [[? _]|[? _]]; discriminate]].
  destruct v as [|b|neg m e|s|items|members].
  - split; [intros [= <-]; right; auto|intros [[? _]|[_ ->]]; [discriminate|reflexivity]].
  - split; [discriminate|intros [[? _]|[? _]]; discriminate].
  - split; [discriminate|intros [[? _]|[? _]]; discriminate].
  - split; [discriminate|intros [[? _]|[? _]]; discriminate].
  - split; [discriminate|intros [[? _]|[? _]]; discriminate].
  - destruct (json.storable (json.Object members)) eqn:E.
    + split; [intros [= <-]; left; auto|intros [[[= <-] _]|[? _]]; [reflexivity|discriminate]].
    + split; [discriminate|intros [[[= <-] H]|[? _]]; [congruence|discriminate]].
Qed.

Example parse_array :
  json.parse "[1, 2.5e1 ,null]" =
  Some (json.Array [json.Number false 1 0; json.Number false 25 0; json.Null]).
Proof. vm_compute. reflexivity. Qed.

Example parse_object :
  json.parse ("{" ++ json.quote "a" ++ ": {}, " ++ json.quote "b\u0041" ++ ":true}") =
  Some (json.Object [("a"%string, json.Object []); ("bA"%string, json.Bool true)]).
Proof. vm_compute. reflexivity. Qed.

Example parse_rejects :
  json.parse "[1,]" = None /\ json.parse "01" = None /\ json.parse "{} x" = None /\
  json.parse "" = None /\ json.parse (json.quote "\x") = None.
Proof. vm_compute. repeat split. Qed.

Example unmarshal_map :
  json.UnmarshalMap "null" = Some [] /\
  json.UnmarshalMap "{}" = Some [] /\
  json.UnmarshalMap "[]" = None /\
  json.UnmarshalMap "7" = None /\
  json.UnmarshalMap (json.quote "text") = None /\
  json.UnmarshalMap ("{" ++ json.quote "n" ++ ":1e999}") = None /\
  json.UnmarshalMap ("{" ++ json.quote "n" ++ ":1e308}") =
    Some [("n"%string, json.Number false 1 308)].
Proof. vm_compute. repeat split. Qed.

(** A directory with a sub-directory, a file of another kind, a file that
    does not decode, a plain payload and a file with a "payloads" array (the
    marshaller here writes every element as [null]). *)
Example init_mixed_directory :
  init (fun _ => Some "null"%string)
       (Some [mkEntry "z.json" false
                (Some ("{" ++ json.quote "payloads" ++ ":[1,{}]}")%string);
              mkEntry "notes.txt" false (Some "{}"%string);
              mkEntry "sub.json" true None;
              mkEntry "b.json" false (Some "{oops"%string);
              mkEntry "a.json" false (Some "{}"%string)]) =
  Booted {| payloads := [{| Name := "a.json"; Content := "{}" |};
                         {| Name := "z.json[0]"; Content := "null" |};
                         {| Name := "z.json[1]"; Content := "null" |}];
            logged := [LoadedPayload "a.json" 2;
                       WarnInvalidJSON "payloads/b.json";
                       FoundPayloadsArray "z.json" 2;
                       LoadedFromArray 2 "z.json";
                       LoadedTotal 3] |}.
Proof. vm_compute. reflexivity. Qed.

Section LoadingFacts.

Variable Marshal : json.value -> option string.

Lemma explode_payloads (name : string) (items : list json.value) :
  forall (i : nat) (st : Loader),
    payloads (explode Marshal name i items st) =
    payloads st ++ payloads (explode Marshal name i items emptyLoader).
Proof.
  induction items as [|item items IH]; intros i st; simpl.
  - now rewrite app_nil_r.
  - destruct (Marshal item) as [itemBytes|].
    + rewrite IH. rewrite (IH _ (appendPayload _ emptyLoader)).
      simpl. now rewrite <- app_assoc.
    + rewrite IH. rewrite (IH _ (logLine _ emptyLoader)). reflexivity.
Qed.

Lemma loadFile_payloads (entries : list DirEntry) (st : Loader) (name : string) :
  payloads (loadFile Marshal entries st name) =
  payloads st ++ variants Marshal entries name.
Proof.
  unfold variants, loadFile.
  destruct (ReadFile entries name) as [content|]; simpl;
    [|now rewrite app_nil_r].
  destruct (json.UnmarshalMap content) as [parsed|]; simpl;
    [|now rewrite app_nil_r].
  destruct (json.mapIndex parsed "payloads") as [[| | | |items|]|]; simpl;
    try reflexivity.
  rewrite explode_payloads.
  rewrite (explode_payloads _ _ _ (logLine _ emptyLoader)). reflexivity.
Qed.

Lemma fold_loadFile_payloads (entries : list DirEntry) (names : list string) :
  forall st : Loader,
    payloads (fold_left (loadFile Marshal entries) names st) =
    payloads st ++ concat (List.map (variants Marshal entries) names).
Proof.
  induction names as [|name names IH]; intros st; simpl.
  - now rewrite app_nil_r.
  - rewrite IH, loadFile_payloads. now rewrite <- app_assoc.
Qed.

(** The table is the concatenation, in sorted order of the names, of what
    each file contributes: a file that contributes nothing does not stop
    the files after it. *)
Lemma produced_concat (entries : list DirEntry) :
  produced Marshal entries =
  concat (List.map (variants Marshal entries) (sortStrings (payloadNames entries))).
Proof. unfold produced. now rewrite fold_loadFile_payloads. Qed.

Lemma payloadNames_In (entries : list DirEntry) (e : DirEntry) :
  In e entries -> isPayloadFile e = true ->
  In (EntryName e) (sortStrings (payloadNames entries)).
Proof.
  intros Hin Hp. apply In_sortStrings. unfold payloadNames.
  apply in_map. apply filter_In. split; [exact Hin|exact Hp].
Qed.

(** C5, amended.  For every directory entry that is not a directory, has
    a .json name and readable content: if the content does not decode into a
    string-keyed map (it is not well-formed JSON, or its top-level value
    is neither an object nor null, or one of its numbers does not fit a
    float64), the file is skipped with a warning and the build goes on
    with the remaining files; otherwise, when the decoded map has no
    "payloads" array, the entire raw content becomes exactly one variant
    named after the file. *)
Theorem file_skipped_or_whole (entries : list DirEntry) (e : DirEntry)
        (content : string) (st : Loader) :
  In e entries ->
  isPayloadFile e = true ->
  ReadFile entries (EntryName e) = Some content ->
  In (EntryName e) (sortStrings (payloadNames entries)) /\
  produced Marshal entries =
    concat (List.map (variants Marshal entries) (sortStrings (payloadNames entries))) /\
  (json.UnmarshalMap content = None ->
     loadFile Marshal entries st (EntryName e) =
       logLine (WarnInvalidJSON (Join payloadDir (EntryName e))) st /\
     variants Marshal entries (EntryName e) = []) /\
  (forall parsed,
     json.UnmarshalMap content = Some parsed ->
     hasPayloadsArray (json.Object parsed) = false ->
     loadFile Marshal entries st (EntryName e) =
       logLine (LoadedPayload (EntryName e) (Z.of_nat (String.length content)))
               (appendPayload {| Name := EntryName e; Content := content |} st) /\
     variants Marshal entries (EntryName e) =
       [{| Name := EntryName e; Content := content |}]).
Proof.
  intros Hin Hfile Hread.
  split; [now apply payloadNames_In|].
  split; [apply produced_concat|].
  split.
  - intros Herr. unfold variants, loadFile. rewrite Hread, Herr. split; reflexivity.
  - intros parsed Hok Hno. unfold variants, loadFile. rewrite Hread, Hok.
    unfold hasPayloadsArray in Hno.
    destruct (json.mapIndex parsed "payloads") as [[| | | |items|]|];
      try discriminate; split; reflexivity.
Qed.

Lemma init_Some (entries : list DirEntry) :
  init Marshal (Some entries) =
  if Go.len (produced Marshal entries) =? 0 then Fatal "No payloads loaded"
  else Booted (logLine (LoadedTotal (Go.len (produced Marshal entries)))
                 (fold_left (loadFile Marshal entries)
                    (sortStrings (payloadNames entries)) emptyLoader)).
Proof. reflexivity. Qed.

Lemma start_Some (entries : list DirEntry) :
  start Marshal (Some entries) =
  if Go.len (produced Marshal entries) =? 0 then Exited 1
  else Serving (produced Marshal entries).
Proof.
  unfold start. rewrite init_Some.
  destruct (Go.len (produced Marshal entries) =? 0); reflexivity.
Qed.

Lemma start_Serving (dir : Directory) (table : list Payload) :
  start Marshal dir = Serving table ->
  table <> [] /\ 0 < Go.len table /\
  exists entries, dir = Some entries /\ table = produced Marshal entries.
Proof.
  destruct dir as [entries|]; [|discriminate].
  rewrite start_Some.
  destruct (Z.eqb_spec (Go.len (produced Marshal entries)) 0) as [?|Hne];
    [discriminate|].
  intros [= <-]. unfold Go.len in *.
  destruct (produced Marshal entries) as [|p l] eqn:E; simpl in Hne; [lia|].
  split; [intros ?; discriminate|]. split; [simpl; lia|].
  exists entries. auto.
Qed.

(** C6.  When the loop over the files produced no variant, and in
    particular for an empty directory, initialisation ends in [log.Fatal]
    and the process exits without serving; a process that serves has a
    non-empty table. *)
Theorem no_payloads_no_service (dir : Directory) :
  (forall entries,
     dir = Some entries -> produced Marshal entries = [] ->
     init Marshal dir = Fatal "No payloads loaded" /\
     start Marshal dir = Exited 1) /\
  start Marshal (Some []) = Exited 1 /\
  (forall table, start Marshal dir = Serving table ->
     table <> [] /\ 0 < Go.len table /\
     exists entries, dir = Some entries /\ table = produced Marshal entries).
Proof.
  split; [|split].
  - intros entries -> Hnone.
    rewrite start_Some, init_Some, Hnone. split; reflexivity.
  - reflexivity.
  - intros table. apply start_Serving.
Qed.

End LoadingFacts.

(** C5, as stated, fails: the text [[1,2]] is a well-formed JSON document
    without a "payloads" array, yet a file holding it is skipped (the decoder
    targets a string-keyed map) instead of becoming one variant; alone in the
    directory it makes the boot fail. *)
Lemma valid_array_document_is_skipped :
  isPayloadFile (mkEntry "a.json" false (Some "[1,2]")) = true /\
  json.parse "[1,2]" =
    Some (json.Array [json.Number false 1 0; json.Number false 2 0]) /\
  hasPayloadsArray (json.Array [json.Number false 1 0; json.Number false 2 0]) = false /\
  variants (fun _ => None) [mkEntry "a.json" false (Some "[1,2]")] "a.json" = [] /\
  variants (fun _ => None) [mkEntry "a.json" false (Some "[1,2]")] "a.json" <>
    [{| Name := "a.json"; Content := "[1,2]" |}] /\
  loadFile (fun _ => None) [mkEntry "a.json" false (Some "[1,2]")] emptyLoader "a.json" =
    logLine (WarnInvalidJSON "payloads/a.json") emptyLoader /\
  init (fun _ => None) (Some [mkEntry "a.json" false (Some "[1,2]")]) =
    Fatal "No payloads loaded".
Proof.
  split; [vm_compute; reflexivity|].
  split; [vm_compute; reflexivity|].
  split; [vm_compute; reflexivity|].
  split; [vm_compute; reflexivity|].
  split; [vm_compute; intros ?; discriminate|].
  split; vm_compute; reflexivity.
Qed.

Lemma file_skipped_or_whole_witness :
  In (mkEntry "b.json" false (Some "{}"))
     [mkEntry "a.json" false (Some "{oops"); mkEntry "b.json" false (Some "{}")] /\
  isPayloadFile (mkEntry "b.json" false (Some "{}")) = true /\
  ReadFile [mkEntry "a.json" false (Some "{oops"); mkEntry "b.json" false (Some "{}")]
           "b.json" = Some "{}" /\
  variants (fun _ => None)
           [mkEntry "a.json" false (Some "{oops"); mkEntry "b.json" false (Some "{}")]
           "b.json" = [{| Name := "b.json"; Content := "{}" |}].
Proof.
  assert (H1 : In (mkEntry "b.json" false (Some "{}"))
                  [mkEntry "a.json" false (Some "{oops");
                   mkEntry "b.json" false (Some "{}")])
    by (simpl; auto).
  assert (H2 : isPayloadFile (mkEntry "b.json" false (Some "{}")) = true)
    by (vm_compute; reflexivity).
  assert (H3 : ReadFile [mkEntry "a.json" false (Some "{oops");
                         mkEntry "b.json" false (Some "{}")] "b.json" = Some "{}")
    by (vm_compute; reflexivity).
  split; [exact H1|]. split; [exact H2|]. split; [exact H3|].
  destruct (file_skipped_or_whole (fun _ => None) _ _ _ emptyLoader H1 H2 H3)
    as (_ & _ & _ & Hwhole).
  apply (Hwhole []); vm_compute; reflexivity.
Defined.

Lemma no_payloads_no_service_witness :
  produced (fun _ => None) [mkEntry "a.json" false (Some "{oops")] = [] /\
  start (fun _ => None) (Some [mkEntry "a.json" false (Some "{oops")]) = Exited 1 /\
  start (fun _ => None) (Some [mkEntry "b.json" false (Some "{}")]) =
    Serving [{| Name := "b.json"; Content := "{}" |}] /\
  [{| Name := "b.json"; Content := "{}" |}] <> [].
Proof.
  assert (H0 : produced (fun _ => None) [mkEntry "a.json" false (Some "{oops")] = [])
    by (vm_compute; reflexivity).
  assert (H1 : start (fun _ => None) (Some [mkEntry "b.json" false (Some "{}")]) =
               Serving [{| Name := "b.json"; Content := "{}" |}])
    by (vm_compute; reflexivity).
  split; [exact H0|].
  split.
  - apply (proj1 (no_payloads_no_service (fun _ => None)
                    (Some [mkEntry "a.json" false (Some "{oops")])) _ eq_refl H0).
  - split; [exact H1|].
    apply (proj2 (proj2 (no_payloads_no_service (fun _ => None)
                           (Some [mkEntry "b.json" false (Some "{}")]))) _ H1).
Defined.

(** ** Request handler *)

Section Serving.

Variable Marshal : json.value -> option string.

(** json.Marshal writes a well-formed JSON text. *)
Hypothesis Marshal_valid :
  forall v s, Marshal v = Some s -> json.Valid s = true.

Lemma explode_wellFormed (name : string) (items : list json.value) :
  forall (i : nat) (st : Loader),
    Forall wellFormed (payloads st) ->
    Forall wellFormed (payloads (explode Marshal name i items st)).
Proof.
  induction items as [|item items IH]; intros i st Hst; simpl; [exact Hst|].
  destruct (Marshal item) as [itemBytes|] eqn:E; apply IH; simpl; [|exact Hst].
  apply Forall_app. split; [exact Hst|].
  constructor; [|constructor]. unfold wellFormed; simpl. eapply Marshal_valid, E.
Qed.

Lemma loadFile_wellFormed (entries : list DirEntry) (st : Loader) (name : string) :
  Forall wellFormed (payloads st) ->
  Forall wellFormed (payloads (loadFile Marshal entries st name)).
Proof.
  intros Hst. unfold loadFile.
  destruct (ReadFile entries name) as [content|]; [|exact Hst].
  destruct (json.UnmarshalMap content) as [parsed|] eqn:E; [|exact Hst].
  assert (Hwhole : Forall wellFormed
                     (payloads (appendPayload {| Name := name; Content := content |} st))).
  { simpl. apply Forall_app. split; [exact Hst|].
    constructor; [|constructor]. unfold wellFormed; simpl.
    eapply UnmarshalMap_Valid, E. }
  destruct (json.mapIndex parsed "payloads") as [[| | | |items|]|];
    try exact Hwhole.
  simpl. apply explode_wellFormed. exact Hst.
Qed.

Lemma produced_wellFormed (entries : list DirEntry) :
  Forall wellFormed (produced Marshal entries).
Proof.
  unfold produced.
  assert (H : forall names st, Forall wellFormed (payloads st) ->
              Forall wellFormed (payloads (fold_left (loadFile Marshal entries) names st))).
  { induction names as [|n names IH]; intros st Hst; simpl; [exact Hst|].
    apply IH, loadFile_wellFormed, Hst. }
  apply H. constructor.
Qed.

(** The table of a serving process is non-empty and holds well-formed
    JSON texts only. *)
Lemma serving_table (dir : Directory) (table : list Payload) :
  start Marshal dir = Serving table ->
  0 < Go.len table /\ Forall wellFormed table.
Proof.
  intros Hs.
  destruct (start_Serving Marshal dir table Hs) as (_ & Hlen & entries & _ & ->).
  split; [exact Hlen|apply produced_wellFormed].
Qed.

End Serving.

Lemma getPayloadForUser_ok (table : list Payload) (k : string) :
  0 < Go.len table ->
  exists p, getPayloadForUser table k = Go.Ok p /\ In p table.
Proof.
  intros Hlen. unfold getPayloadForUser.
  rewrite assignIndex_eq by exact Hlen. simpl.
  apply index_in_bounds. apply Z.mod_pos_bound. exact Hlen.
Qed.

(** The handler reads nothing of its context but the body. *)
Lemma experiment_body (table : list Payload) (c1 c2 : fiber.Ctx) :
  fiber.reqBody c1 = fiber.reqBody c2 ->
  experiment table c1 = experiment table c2.
Proof.
  intros E. unfold experiment, fiber.BodyParser. now rewrite E.
Qed.

Lemma experiment_accepts (table : list Payload) (c : fiber.Ctx)
      (userId : string) (p : Payload) :
  fiber.reqBody c = fiber.Decoded (Some userId) ->
  userId <> ""%string ->
  getPayloadForUser table userId = Go.Ok p ->
  wellFormed p ->
  serve (experiment table) c =
    {| fiber.Status := 200;
       fiber.Body :=
         fiber.JSONObject
           [("experimentId"%string, fiber.JString "exp-localization-v1");
            ("selectedPayloadName"%string, fiber.JString (Name p));
            ("payload"%string, fiber.JRaw (Content p))] |}.
Proof.
  intros Hb Hne Hp Hw. unfold serve, experiment, fiber.BodyParser.
  rewrite Hb. simpl.
  destruct (String.eqb_spec userId "") as [->|_]; [congruence|].
  rewrite Hp. simpl. unfold fiber.JSON. simpl.
  unfold wellFormed in Hw. rewrite Hw. reflexivity.
Qed.

Lemma experiment_refuses (table : list Payload) (c : fiber.Ctx) :
  badRequest c ->
  fiber.Status (serve (experiment table) c) = 400 /\
  exists msg, fiber.Body (serve (experiment table) c) =
              fiber.JSONObject [("error"%string, fiber.JString msg)].
Proof.
  unfold badRequest, serve, experiment, fiber.BodyParser.
  intros [-> | [-> | ->]]; simpl; split; eauto.
Qed.

Lemma badRequest_dec (c : fiber.Ctx) :
  badRequest c \/
  exists userId, fiber.reqBody c = fiber.Decoded (Some userId) /\ userId <> ""%string.
Proof.
  unfold badRequest. destruct (fiber.reqBody c) as [|[userId|]]; auto.
  destruct (String.eqb_spec userId "") as [->|Hne]; auto.
  right. eauto.
Qed.

Section Handler.

Variable Marshal : json.value -> option string.

Hypothesis Marshal_valid :
  forall v s, Marshal v = Some s -> json.Valid s = true.

(** C4.  With the table of a process that serves, POST /experiment
    answers with status 400 exactly when the body is unparsable or userId
    is missing or empty, and then the body is an object with an "error"
    string; otherwise it answers with status 200 and an object holding
    experimentId "exp-localization-v1", the selected variant's name, and
    under "payload" the variant's content spliced in as a JSON value, not
    as a string. *)
Theorem experiment_responses (dir : Directory) (table : list Payload)
        (c : fiber.Ctx) :
  start Marshal dir = Serving table ->
  (fiber.Status (serve (experiment table) c) = 400 <-> badRequest c) /\
  (badRequest c ->
     exists msg, fiber.Body (serve (experiment table) c) =
                 fiber.JSONObject [("error"%string, fiber.JString msg)]) /\
  (~ badRequest c ->
     exists userId p,
       fiber.reqBody c = fiber.Decoded (Some userId) /\
       getPayloadForUser table userId = Go.Ok p /\ In p table /\
       json.Valid (Content p) = true /\
       serve (experiment table) c =
         {| fiber.Status := 200;
            fiber.Body :=
              fiber.JSONObject
                [("experimentId"%string, fiber.JString "exp-localization-v1");
                 ("selectedPayloadName"%string, fiber.JString (Name p));
                 ("payload"%string, fiber.JRaw (Content p))] |}).
Proof.
  intros Hs.
  destruct (serving_table Marshal Marshal_valid dir table Hs) as [Hlen Hwf].
  assert (Hgood : forall userId,
            fiber.reqBody c = fiber.Decoded (Some userId) -> userId <> ""%string ->
            exists p, getPayloadForUser table userId = Go.Ok p /\ In p table /\
                      json.Valid (Content p) = true /\
                      serve (experiment table) c =
                        {| fiber.Status := 200;
                           fiber.Body :=
                             fiber.JSONObject
                               [("experimentId"%string, fiber.JString "exp-localization-v1");
                                ("selectedPayloadName"%string, fiber.JString (Name p));
                                ("payload"%string, fiber.JRaw (Content p))] |}).
  { intros userId Hb Hne.
    destruct (getPayloadForUser_ok table userId Hlen) as (p & Hp & Hin).
    assert (Hw : wellFormed p) by (apply (proj1 (List.Forall_forall _ _) Hwf p Hin)).
    exists p. repeat split; try assumption.
    eapply experiment_accepts; eassumption. }
  split; [split|split].
  - intros H400. destruct (badRequest_dec c) as [Hbad|(userId & Hb & Hne)];
      [exact Hbad|].
    destruct (Hgood userId Hb Hne) as (p & _ & _ & _ & Hr).
    rewrite Hr in H400. simpl in H400. discriminate.
  - intros Hbad. apply (experiment_refuses table c Hbad).
  - intros Hbad. apply (experiment_refuses table c Hbad).
  - intros Hnot. destruct (badRequest_dec c) as [Hbad|(userId & Hb & Hne)];
      [contradiction|].
    destruct (Hgood userId Hb Hne) as (p & Hp).
    exists userId, p. tauto.
Qed.

End Handler.

Lemma experiment_responses_witness :
  (forall v s, (fun _ : json.value => Some "null"%string) v = Some s ->
               json.Valid s = true) /\
  start (fun _ => Some "null"%string)
        (Some [mkEntry "a.json" false (Some "{}")]) =
    Serving [{| Name := "a.json"; Content := "{}" |}] /\
  serve (experiment [{| Name := "a.json"; Content := "{}" |}])
        (fiber.mkCtx (fiber.Decoded (Some "user-123"%string)) [] "" 0) =
    {| fiber.Status := 200;
       fiber.Body :=
         fiber.JSONObject
           [("experimentId"%string, fiber.JString "exp-localization-v1");
            ("selectedPayloadName"%string, fiber.JString "a.json");
            ("payload"%string, fiber.JRaw "{}")] |} /\
  fiber.Status (serve (experiment [{| Name := "a.json"; Content := "{}" |}])
                      (fiber.mkCtx (fiber.Decoded None) [] "" 0)) = 400.
Proof.
  assert (HM : forall v s, (fun _ : json.value => Some "null"%string) v = Some s ->
                           json.Valid s = true)
    by (intros v s [= <-]; vm_compute; reflexivity).
  assert (Hs : start (fun _ => Some "null"%string)
                     (Some [mkEntry "a.json" false (Some "{}")]) =
               Serving [{| Name := "a.json"; Content := "{}" |}])
    by (vm_compute; reflexivity).
  split; [exact HM|]. split; [exact Hs|]. split.
  - vm_compute; reflexivity.
  - apply (proj1 (experiment_responses _ HM _ _
                    (fiber.mkCtx (fiber.Decoded None) [] "" 0) Hs)).
    right; left; reflexivity.
Defined.

(** C3.  Against a fixed table, all invocations of the handler whose
    userId is the same non-empty string give the same response, whatever
    else their contexts hold; when the table is non-empty and well formed,
    this response names the variant the assignment selects. *)
Theorem same_user_same_payload (table : list Payload) (userId : string)
        (cs : list fiber.Ctx) :
  userId <> ""%string ->
  Forall (fun c => fiber.reqBody c = fiber.Decoded (Some userId)) cs ->
  exists r,
    Forall (fun c => serve (experiment table) c = r) cs /\
    (0 < Go.len table -> Forall wellFormed table ->
     exists p, getPayloadForUser table userId = Go.Ok p /\
               fiber.Status r = 200 /\
               fiber.member "selectedPayloadName" r = Some (fiber.JString (Name p))).
Proof.
  intros Hne Hcs.
  set (c0 := fiber.mkCtx (fiber.Decoded (Some userId)) [] "" 0).
  exists (serve (experiment table) c0). split.
  - eapply List.Forall_impl; [|exact Hcs]. intros c Hc. simpl in Hc.
    unfold serve. rewrite (experiment_body table c c0); [reflexivity|].
    rewrite Hc. reflexivity.
  - intros Hlen Hwf.
    destruct (getPayloadForUser_ok table userId Hlen) as (p & Hp & Hin).
    assert (Hw : wellFormed p) by (apply (proj1 (List.Forall_forall _ _) Hwf p Hin)).
    exists p. split; [exact Hp|].
    rewrite (experiment_accepts table c0 userId p eq_refl Hne Hp Hw).
    split; reflexivity.
Qed.

Lemma same_user_same_payload_witness :
  "user-123"%string <> ""%string /\
  Forall (fun c => fiber.reqBody c = fiber.Decoded (Some "user-123"%string))
         [fiber.mkCtx (fiber.Decoded (Some "user-123"%string)) [] "10.0.0.1" 1;
          fiber.mkCtx (fiber.Decoded (Some "user-123"%string)) [] "10.0.0.2" 2;
          fiber.mkCtx (fiber.Decoded (Some "user-123"%string))
                      [("X-Trace"%string, "t"%string)] "10.0.0.1" 3;
          fiber.mkCtx (fiber.Decoded (Some "user-123"%string)) [] "10.0.0.3" 4;
          fiber.mkCtx (fiber.Decoded (Some "user-123"%string)) [] "10.0.0.1" 5] /\
  exists r,
    Forall (fun c => serve (experiment [{| Name := "a.json"; Content := "{}" |};
                                        {| Name := "b.json"; Content := "{}" |}]) c = r)
         [fiber.mkCtx (fiber.Decoded (Some "user-123"%string)) [] "10.0.0.1" 1;
          fiber.mkCtx (fiber.Decoded (Some "user-123"%string)) [] "10.0.0.2" 2;
          fiber.mkCtx (fiber.Decoded (Some "user-123"%string))
                      [("X-Trace"%string, "t"%string)] "10.0.0.1" 3;
          fiber.mkCtx (fiber.Decoded (Some "user-123"%string)) [] "10.0.0.3" 4;
          fiber.mkCtx (fiber.Decoded (Some "user-123"%string)) [] "10.0.0.1" 5].
Proof.
  assert (H1 : "user-123"%string <> ""%string) by (intros ?; discriminate).
  assert (H2 : Forall (fun c => fiber.reqBody c = fiber.Decoded (Some "user-123"%string))
         [fiber.mkCtx (fiber.Decoded (Some "user-123"%string)) [] "10.0.0.1" 1;
          fiber.mkCtx (fiber.Decoded (Some "user-123"%string)) [] "10.0.0.2" 2;
          fiber.mkCtx (fiber.Decoded (Some "user-123"%string))
                      [("X-Trace"%string, "t"%string)] "10.0.0.1" 3;
          fiber.mkCtx (fiber.Decoded (Some "user-123"%string)) [] "10.0.0.3" 4;
          fiber.mkCtx (fiber.Decoded (Some "user-123"%string)) [] "10.0.0.1" 5])
    by (repeat constructor).
  split; [exact H1|]. split; [exact H2|].
  destruct (same_user_same_payload
              [{| Name := "a.json"; Content := "{}" |};
               {| Name := "b.json"; Content := "{}" |}] _ _ H1 H2) as (r & Hr & _).
  exists r. exact Hr.
Defined.

(** ** Load generator: percentiles *)

Lemma shr_1_nonneg (mrs : shr_record) :
  0 <= shr_m mrs -> 0 <= shr_m (shr_1 mrs).
Proof.
  destruct mrs as [m r s]. destruct m as [|[q|q|]|[q|q|]]; simpl; lia.
Qed.

Lemma iter_shr_1_nonneg (n : positive) :
  forall mrs, 0 <= shr_m mrs -> 0 <= shr_m (SpecFloat.iter_pos shr_1 n mrs).
Proof.
  induction n as [n IH|n IH|]; intros mrs H; simpl.
  - apply IH, IH, shr_1_nonneg, H.
  - apply IH, IH, H.
  - apply shr_1_nonneg, H.
Qed.

Lemma shr_fexp_nonneg (m e : Z) (l : location) :
  0 <= m -> 0 <= shr_m (fst (shr_fexp float64.prec float64.emax m e l)).
Proof.
  intros Hm. unfold shr_fexp, shr.
  assert (H0 : 0 <= shr_m (shr_record_of_loc m l))
    by (destruct l as [|[]]; simpl; exact Hm).
  destruct (fexp float64.prec float64.emax (Zdigits2 m + e) - e) as [|n|n];
    simpl; try exact H0.
  apply iter_shr_1_nonneg, H0.
Qed.

Lemma round_nearest_even_nonneg (m : Z) (l : location) :
  0 <= m -> 0 <= round_nearest_even m l.
Proof.
  intros Hm. destruct l as [|[]]; simpl; try lia.
  destruct (Z.even m); lia.
Qed.

(** Rounding a non-negative mantissa keeps the sign it is given and never
    yields a NaN. *)
Lemma binary_round_aux_sign (sx : bool) (mx ex : Z) (lx : location) :
  0 <= mx ->
  match binary_round_aux float64.prec float64.emax sx mx ex lx with
  | S754_zero s | S754_infinity s | S754_finite s _ _ => s = sx
  | S754_nan => False
  end.
Proof.
  intros Hm. unfold binary_round_aux.
  pose proof (shr_fexp_nonneg mx ex lx Hm) as H1.
  destruct (shr_fexp float64.prec float64.emax mx ex lx) as [mrs' e'].
  simpl in H1.
  pose proof (shr_fexp_nonneg
                (round_nearest_even (shr_m mrs') (loc_of_shr_record mrs')) e'
                loc_Exact (round_nearest_even_nonneg _ _ H1)) as H2.
  destruct (shr_fexp float64.prec float64.emax
              (round_nearest_even (shr_m mrs') (loc_of_shr_record mrs')) e' loc_Exact)
    as [mrs'' e''].
  simpl in H2.
  destruct (shr_m mrs'') as [|q|q]; [reflexivity| |lia].
  destruct (e'' <=? float64.emax - float64.prec); reflexivity.
Qed.

Lemma ofInt_sign (n : Z) :
  0 < n ->
  match float64.ofInt n with
  | S754_zero s | S754_infinity s | S754_finite s _ _ => s = false
  | S754_nan => False
  end.
Proof.
  intros Hn. unfold float64.ofInt, binary_normalize.
  destruct n as [|q|q]; try lia.
  unfold binary_round.
  destruct (shl_align q 0 (fexp float64.prec float64.emax (Z.pos (digits2_pos q) + 0)))
    as [mz ez].
  apply binary_round_aux_sign. lia.
Qed.

Lemma truncate_nonneg (s : bool) (m : positive) (e v : Z) :
  s = false -> float64.truncate (S754_finite s m e) = Some v -> 0 <= v.
Proof.
  intros -> H. unfold float64.truncate in H.
  assert (Ha : 0 <= (if 0 <=? e then Z.pos m * 2 ^ e else Z.pos m / 2 ^ (- e))).
  { destruct (Z.leb_spec 0 e).
    - apply Z.mul_nonneg_nonneg; [lia|]. apply Z.pow_nonneg. lia.
    - apply Z.div_pos; [lia|]. apply Z.pow_pos_nonneg; lia. }
  destruct (_ && _) in H; [|discriminate].
  injection H as <-. exact Ha.
Qed.

(** The index of a non-negative percentile is not negative. *)
Lemma percentile_index_nonneg (n : Z) (p : spec_float) (idx : Z) :
  0 < n -> float64.nonneg p = true ->
  float64.truncate (float64.mul (float64.ofInt n) p) = Some idx ->
  0 <= idx.
Proof.
  intros Hn Hp Ht.
  pose proof (ofInt_sign n Hn) as Hs.
  destruct (float64.ofInt n) as [sx|sx| |sx mx ex]; try contradiction; subst sx;
    destruct p as [sy|sy| |sy my ey]; try discriminate;
    unfold float64.mul, SFmul in Ht; simpl in Hp.
  - simpl in Ht. injection Ht as <-. lia.
  - simpl in Ht. injection Ht as <-. lia.
  - simpl in Ht. injection Ht as <-. lia.
  - apply negb_true_iff in Hp. subst sy. simpl in Ht.
    pose proof (binary_round_aux_sign false (Z.pos (mx * my)) (ex + ey) loc_Exact
                  ltac:(lia)) as Hr.
    destruct (binary_round_aux float64.prec float64.emax false
                (Z.pos (mx * my)) (ex + ey) loc_Exact) as [s|s| |s m e];
      try contradiction; try discriminate.
    + simpl in Ht. injection Ht as <-. lia.
    + eapply truncate_nonneg; eassumption.
Qed.

Lemma digits2_pos_bounds (q : positive) :
  2 ^ (Z.pos (digits2_pos q) - 1) <= Z.pos q < 2 ^ Z.pos (digits2_pos q).
Proof.
  induction q as [q IH|q IH|]; simpl digits2_pos.
  - rewrite Pos2Z.inj_succ.
    replace (Z.succ (Z.pos (digits2_pos q)) - 1) with (Z.succ (Z.pos (digits2_pos q) - 1)) by lia.
    rewrite !Z.pow_succ_r by lia. lia.
  - rewrite Pos2Z.inj_succ.
    replace (Z.succ (Z.pos (digits2_pos q)) - 1) with (Z.succ (Z.pos (digits2_pos q) - 1)) by lia.
    rewrite !Z.pow_succ_r by lia. lia.
  - simpl. lia.
Qed.

Lemma Zdigits2_bounds (z : Z) :
  0 < z -> 1 <= Zdigits2 z /\ 2 ^ (Zdigits2 z - 1) <= z < 2 ^ Zdigits2 z.
Proof.
  destruct z as [|q|q]; try lia. intros _. simpl.
  split; [lia|apply digits2_pos_bounds].
Qed.

Lemma Zdigits2_le (z t : Z) : 0 < z -> z < 2 ^ t -> Zdigits2 z <= t.
Proof.
  intros Hz Ht. destruct (Zdigits2_bounds z Hz) as (H1 & H2 & _).
  destruct (Z.le_gt_cases (Zdigits2 z) t) as [?|Hgt]; [assumption|].
  assert (0 <= t).
  { destruct (Z.le_gt_cases 0 t); [assumption|]. rewrite Z.pow_neg_r in Ht by lia. lia. }
  assert (2 ^ t <= 2 ^ (Zdigits2 z - 1)) by (apply Z.pow_le_mono_r; lia).
  lia.
Qed.

Lemma shr_1_m (mrs : shr_record) :
  0 <= shr_m mrs -> shr_m (shr_1 mrs) = shr_m mrs / 2.
Proof.
  destruct mrs as [m r s]. destruct m as [|[q|q|]|q]; cbn [shr_1 shr_m]; intros H.
  - reflexivity.
  - apply Z.div_unique with 1; [lia|]. rewrite Pos2Z.inj_xI. lia.
  - apply Z.div_unique with 0; [lia|]. rewrite Pos2Z.inj_xO. lia.
  - reflexivity.
  - lia.
Qed.

Lemma pow2_xI (k : positive) : 2 ^ Z.pos k~1 = 2 * (2 ^ Z.pos k * 2 ^ Z.pos k).
Proof.
  rewrite (Pos2Z.inj_xI k).
  replace (2 * Z.pos k + 1) with (Z.succ (Z.pos k + Z.pos k)) by lia.
  rewrite Z.pow_succ_r by lia. rewrite Z.pow_add_r by lia. reflexivity.
Qed.

Lemma pow2_xO (k : positive) : 2 ^ Z.pos k~0 = 2 ^ Z.pos k * 2 ^ Z.pos k.
Proof.
  rewrite (Pos2Z.inj_xO k).
  replace (2 * Z.pos k) with (Z.pos k + Z.pos k) by lia.
  rewrite Z.pow_add_r by lia. reflexivity.
Qed.

Lemma iter_shr_1_m (k : positive) :
  forall mrs, 0 <= shr_m mrs ->
    shr_m (SpecFloat.iter_pos shr_1 k mrs) = shr_m mrs / 2 ^ Z.pos k.
Proof.
  assert (Hpos : forall j : positive, 0 < 2 ^ Z.pos j)
    by (intros j; apply Z.pow_pos_nonneg; lia).
  induction k as [k IH|k IH|]; intros mrs H; cbn [SpecFloat.iter_pos].
  - rewrite IH, IH, shr_1_m; try assumption.
    + pose proof (Hpos k). rewrite !Z.div_div by lia. now rewrite pow2_xI.
    + apply shr_1_nonneg, H.
    + apply iter_shr_1_nonneg, shr_1_nonneg, H.
  - rewrite IH, IH; try assumption.
    + pose proof (Hpos k). rewrite !Z.div_div by lia. now rewrite pow2_xO.
    + apply iter_shr_1_nonneg, H.
  - rewrite shr_1_m by assumption. reflexivity.
Qed.

(** Shifting an exact mantissa to the exponent of its format. *)
Lemma shr_fexp_exact (M E : Z) :
  0 <= M ->
  let k := fexp float64.prec float64.emax (Zdigits2 M + E) - E in
  let r := shr_fexp float64.prec float64.emax M E loc_Exact in
  (k <= 0 -> shr_m (fst r) = M /\ snd r = E /\ loc_of_shr_record (fst r) = loc_Exact) /\
  (0 < k -> shr_m (fst r) = M / 2 ^ k /\ snd r = E + k).
Proof.
  intros HM k r. subst r. unfold shr_fexp. fold k. unfold shr.
  destruct k as [|q|q] eqn:Ek; simpl; split; intros Hk; try lia; auto.
  split; [|reflexivity]. rewrite iter_shr_1_m; simpl; auto.
Qed.

Lemma round_nearest_even_bounds (m : Z) (l : location) :
  m <= round_nearest_even m l <= m + 1.
Proof.
  destruct l as [|[]]; simpl; try lia. destruct (Z.even m); lia.
Qed.

Lemma Zdigits2_quotient (z k : Z) :
  0 < z -> 0 < k -> 0 < z / 2 ^ k -> Zdigits2 (z / 2 ^ k) + k <= Zdigits2 z.
Proof.
  intros Hz Hk Hq.
  destruct (Zdigits2_bounds z Hz) as (Hd & _ & Hlt).
  assert (Hp : 0 < 2 ^ k) by (apply Z.pow_pos_nonneg; lia).
  assert (Hge : 2 ^ k <= z).
  { destruct (Z.le_gt_cases (2 ^ k) z); [assumption|].
    rewrite Z.div_small in Hq by lia. lia. }
  assert (Hkd : k < Zdigits2 z).
  { apply (Z.pow_lt_mono_r_iff 2); lia. }
  assert (z / 2 ^ k < 2 ^ (Zdigits2 z - k)).
  { apply Z.div_lt_upper_bound; [assumption|].
    rewrite <- Z.pow_add_r by lia.
    replace (k + (Zdigits2 z - k)) with (Zdigits2 z) by lia. assumption. }
  pose proof (Zdigits2_le _ _ Hq H). lia.
Qed.

Lemma fexp64 (x : Z) : fexp float64.prec float64.emax x = Z.max (x - 53) (-1074).
Proof. reflexivity. Qed.

(** The first shift and the rounding raise the magnitude (number of binary
    digits plus exponent) of a positive mantissa by at most one, and never
    above that of the smallest subnormal plus one. *)
Lemma round_step_mag (M E : Z) :
  0 < M ->
  let r := shr_fexp float64.prec float64.emax M E loc_Exact in
  let m := round_nearest_even (shr_m (fst r)) (loc_of_shr_record (fst r)) in
  0 <= m /\
  (0 < m -> Zdigits2 m + snd r <= Z.max (Zdigits2 M + E) (-1074) + 1).
Proof.
  intros HM r m.
  destruct (shr_fexp_exact M E ltac:(lia)) as [Hle Hgt]. fold r in Hle, Hgt.
  rewrite fexp64 in Hle, Hgt.
  pose proof (round_nearest_even_bounds (shr_m (fst r)) (loc_of_shr_record (fst r))) as Hb.
  fold m in Hb.
  destruct (Z.le_gt_cases (Z.max (Zdigits2 M + E - 53) (-1074) - E) 0) as [Hk|Hk].
  - destruct (Hle Hk) as (Hm & He & Hl).
    assert (m = M) by (unfold m; rewrite Hl, Hm; reflexivity).
    subst m. rewrite H, He. split; lia.
  - destruct (Hgt Hk) as (Hm & He). rewrite Hm in Hb. rewrite He.
    set (k := Z.max (Zdigits2 M + E - 53) (-1074) - E) in *.
    assert (Hq : 0 <= M / 2 ^ k) by (apply Z.div_pos; [lia|apply Z.pow_pos_nonneg; lia]).
    split; [lia|]. intros Hpos.
    destruct (Z.eq_dec (M / 2 ^ k) 0) as [Hz|Hnz].
    + assert (m = 1) by lia. rewrite H. simpl Zdigits2. lia.
    + pose proof (Zdigits2_quotient M k HM Hk ltac:(lia)) as Hd.
      destruct (Zdigits2_bounds (M / 2 ^ k) ltac:(lia)) as (Hd1 & _ & Hlt).
      assert (m < 2 ^ (Zdigits2 (M / 2 ^ k) + 1)).
      { rewrite Z.pow_add_r by lia. lia. }
      pose proof (Zdigits2_le m _ Hpos H). lia.
Qed.

Lemma binary_round_aux_mag (sx : bool) (M E : Z) :
  0 < M ->
  match binary_round_aux float64.prec float64.emax sx M E loc_Exact with
  | S754_finite _ m e =>
      Z.pos (digits2_pos m) + e <= Z.max (Zdigits2 M + E) (-1074) + 1
  | S754_infinity _ => 972 < Z.max (Zdigits2 M + E) (-1074) + 1
  | _ => True
  end.
Proof.
  intros HM. unfold binary_round_aux.
  pose proof (round_step_mag M E HM) as H1. cbv zeta in H1.
  destruct (shr_fexp float64.prec float64.emax M E loc_Exact) as [mrs' e'].
  cbn [fst snd] in H1.
  set (m1 := round_nearest_even (shr_m mrs') (loc_of_shr_record mrs')) in *.
  destruct H1 as [H0 Hmag].
  destruct (shr_fexp_exact m1 e' H0) as [Hle Hgt].
  destruct (shr_fexp float64.prec float64.emax m1 e' loc_Exact) as [mrs'' e''].
  cbn [fst snd] in Hle, Hgt. rewrite fexp64 in Hle, Hgt.
  assert (H2 : 0 < shr_m mrs'' ->
               Zdigits2 (shr_m mrs'') + e'' <= Z.max (Zdigits2 M + E) (-1074) + 1).
  { intros Hpos.
    destruct (Z.le_gt_cases (Z.max (Zdigits2 m1 + e' - 53) (-1074) - e') 0) as [Hk|Hk].
    - destruct (Hle Hk) as (Hm & He & _). rewrite Hm, He. apply Hmag.
      rewrite <- Hm. exact Hpos.
    - destruct (Hgt Hk) as (Hm & He). rewrite Hm in Hpos. rewrite Hm, He.
      assert (H : 0 < m1).
      { destruct (Z.le_gt_cases m1 0) as [Hz|?]; [|assumption].
        assert (Hz' : m1 = 0) by lia. rewrite Hz', Zdiv_0_l in Hpos. lia. }
      pose proof (Zdigits2_quotient m1 _ H Hk Hpos). specialize (Hmag H). lia. }
  destruct (shr_m mrs'') as [|m|m]; [exact I| |exact I].
  specialize (H2 ltac:(lia)). simpl Zdigits2 in H2.
  destruct (Z.leb_spec e'' (float64.emax - float64.prec)) as [?|Hov]; [exact H2|].
  unfold float64.emax, float64.prec in Hov. lia.
Qed.

Lemma digits2_pos_shift (q d : positive) :
  Z.pos (digits2_pos (Pos.iter xO q d)) = Z.pos (digits2_pos q) + Z.pos d.
Proof.
  induction d as [|d IH] using Pos.peano_ind.
  - simpl. lia.
  - rewrite Pos.iter_succ. simpl digits2_pos.
    rewrite Pos2Z.inj_succ, IH. lia.
Qed.

Lemma ofInt_mag (n : Z) :
  0 < n ->
  match float64.ofInt n with
  | S754_finite _ m e => Z.pos (digits2_pos m) + e <= Zdigits2 n + 1
  | S754_infinity _ => 972 < Zdigits2 n + 1
  | _ => True
  end.
Proof.
  intros Hn. destruct n as [|q|q]; try lia.
  unfold float64.ofInt, binary_normalize, binary_round, shl_align.
  rewrite fexp64.
  assert (Hd : 1 <= Z.pos (digits2_pos q)) by lia.
  destruct (Z.max (Z.pos (digits2_pos q) + 0 - 53) (-1074) - 0) as [|k|k] eqn:Ek.
  - pose proof (binary_round_aux_mag false (Z.pos q) 0 ltac:(lia)) as H.
    destruct (binary_round_aux _ _ false (Z.pos q) 0 loc_Exact);
      simpl Zdigits2 in *; try exact I; lia.
  - pose proof (binary_round_aux_mag false (Z.pos q) 0 ltac:(lia)) as H.
    destruct (binary_round_aux _ _ false (Z.pos q) 0 loc_Exact);
      simpl Zdigits2 in *; try exact I; lia.
  - pose proof (binary_round_aux_mag false (Z.pos (Pos.iter xO q k))
                  (Z.max (Z.pos (digits2_pos q) + 0 - 53) (-1074)) ltac:(lia)) as H.
    simpl Zdigits2 in H. rewrite digits2_pos_shift in H.
    destruct (binary_round_aux _ _ false (Z.pos (Pos.iter xO q k)) _ loc_Exact);
      simpl Zdigits2 in *; try exact I; lia.
Qed.

Lemma Zdigits2_mul (a b : positive) :
  Z.pos (digits2_pos (a * b)) <= Z.pos (digits2_pos a) + Z.pos (digits2_pos b).
Proof.
  pose proof (digits2_pos_bounds a) as [_ Ha].
  pose proof (digits2_pos_bounds b) as [_ Hb].
  apply (Zdigits2_le (Z.pos (a * b))); [lia|].
  rewrite Z.pow_add_r by lia. rewrite Pos2Z.inj_mul.
  apply Z.mul_lt_mono_nonneg; lia.
Qed.

(** A finite number of magnitude at most 63 converts to an [int]. *)
Lemma truncate_fits (s : bool) (m : positive) (e : Z) :
  Z.pos (digits2_pos m) + e <= 63 ->
  s = false ->
  exists v, float64.truncate (S754_finite s m e) = Some v.
Proof.
  intros Hmag ->. unfold float64.truncate.
  pose proof (digits2_pos_bounds m) as [_ Hm].
  assert (Hd : 1 <= Z.pos (digits2_pos m)) by lia.
  set (a := if 0 <=? e then Z.pos m * 2 ^ e else Z.pos m / 2 ^ (- e)).
  assert (Ha : 0 <= a < 2 ^ 63).
  { unfold a. destruct (Z.leb_spec 0 e) as [He|He].
    - assert (0 < 2 ^ e) by (apply Z.pow_pos_nonneg; lia).
      split; [lia|].
      apply Z.lt_le_trans with (2 ^ Z.pos (digits2_pos m) * 2 ^ e).
      + apply Z.mul_lt_mono_pos_r; lia.
      + rewrite <- Z.pow_add_r by lia. apply Z.pow_le_mono_r; lia.
    - assert (0 < 2 ^ (- e)) by (apply Z.pow_pos_nonneg; lia).
      split; [apply Z.div_pos; lia|].
      apply Z.div_lt_upper_bound; [lia|].
      rewrite <- Z.pow_add_r by lia.
      apply Z.lt_le_trans with (2 ^ Z.pos (digits2_pos m)); [lia|].
      apply Z.pow_le_mono_r; lia. }
  exists a.
  destruct (Z.leb_spec (- 2 ^ 63) a); [|lia].
  destruct (Z.ltb_spec a (2 ^ 63)); [reflexivity|lia].
Qed.

(** For fewer than 2^60 samples the index of such a percentile fits an
    [int]. *)
Lemma percentile_index_fits (n : Z) (p : spec_float) :
  0 < n < 2 ^ 60 -> float64.belowTwo p ->
  exists idx, float64.truncate (float64.mul (float64.ofInt n) p) = Some idx.
Proof.
  intros [Hn Hlt] Hp.
  pose proof (Zdigits2_le n 60 Hn Hlt) as Hd.
  pose proof (ofInt_sign n Hn) as Hs.
  pose proof (ofInt_mag n Hn) as Hm.
  destruct (float64.ofInt n) as [sx|sx| |sx mx ex]; try contradiction; subst sx;
    destruct p as [sy|sy| |[|] my ey]; try contradiction;
    unfold float64.mul, SFmul; try (exists 0; reflexivity); try lia.
  simpl in Hp. cbn [xorb].
  pose proof (binary_round_aux_sign false (Z.pos (mx * my)) (ex + ey) loc_Exact
                ltac:(lia)) as Hr.
  pose proof (binary_round_aux_mag false (Z.pos (mx * my)) (ex + ey) ltac:(lia)) as Hg.
  pose proof (Zdigits2_mul mx my) as Hmul. simpl Zdigits2 in Hg.
  destruct (binary_round_aux float64.prec float64.emax false
              (Z.pos (mx * my)) (ex + ey) loc_Exact) as [s|s| |s m e];
    try contradiction.
  - exists 0. reflexivity.
  - lia.
  - apply truncate_fits; [lia|exact Hr].
Qed.

(** A valid double that is not negative and at most one is below two. *)
Lemma at_most_one_belowTwo (p : spec_float) :
  valid_binary float64.prec float64.emax p = true ->
  float64.nonneg p = true ->
  SFleb p (float64.ofInt 1) = true ->
  float64.belowTwo p.
Proof.
  intros Hv Hn Hle. destruct p as [s|s| |s m e]; try discriminate; [exact I|].
  simpl in Hn. apply negb_true_iff in Hn. subst s. simpl.
  unfold valid_binary, bounded, canonical_mantissa in Hv.
  apply andb_true_iff in Hv. destruct Hv as [Hc _].
  apply Z.eqb_eq in Hc. rewrite fexp64 in Hc.
  assert (He : e <= -52).
  { change (float64.ofInt 1) with (S754_finite false 4503599627370496 (-52)) in Hle.
    unfold SFleb, SFcompare in Hle.
    destruct (Z.compare_spec e (-52)); [lia|lia|discriminate]. }
  lia.
Qed.

Lemma calculatePercentile_index (unrepresentable : spec_float -> Z)
      (sorted : list Z) (p : spec_float) (idx : Z) :
  0 < Go.len sorted -> 0 <= idx ->
  float64.truncate (float64.mul (float64.ofInt (Go.len sorted)) p) = Some idx ->
  loadtest.calculatePercentile unrepresentable sorted p =
    Go.Ok (nth (Z.to_nat (Z.min idx (Go.len sorted - 1))) sorted 0).
Proof.
  intros Hlen Hidx Ht.
  unfold loadtest.calculatePercentile, float64.toInt. rewrite Ht.
  destruct (Z.eqb_spec (Go.len sorted) 0) as [?|_]; [lia|].
  assert (E : (if Go.len sorted <=? idx then Go.len sorted - 1 else idx) =
              Z.min idx (Go.len sorted - 1)).
  { destruct (Z.leb_spec (Go.len sorted) idx); lia. }
  rewrite E. clear E.
  set (i := Z.min idx (Go.len sorted - 1)).
  assert (Hi : 0 <= i < Go.len sorted) by (unfold i; lia).
  unfold Go.index. destruct (Z.ltb_spec i 0) as [?|_]; [lia|].
  destruct (nth_error sorted (Z.to_nat i)) as [v|] eqn:Ev.
  - f_equal. symmetry. apply nth_error_nth. exact Ev.
  - apply nth_error_None in Ev. unfold Go.len in Hi. lia.
Qed.

Lemma calculatePercentile_total (unrepresentable : spec_float -> Z)
      (sorted : list Z) (p : spec_float) :
  Go.len sorted < 2 ^ 60 ->
  float64.nonneg p = true -> float64.belowTwo p ->
  exists v, loadtest.calculatePercentile unrepresentable sorted p = Go.Ok v.
Proof.
  intros Hlt Hn Hb.
  destruct (Z.eq_dec (Go.len sorted) 0) as [Hz|Hnz].
  - exists 0. unfold loadtest.calculatePercentile. rewrite Hz. reflexivity.
  - assert (Hlen : 0 < Go.len sorted) by (unfold Go.len in *; lia).
    destruct (percentile_index_fits (Go.len sorted) p (conj Hlen Hlt) Hb) as [idx Ht].
    pose proof (percentile_index_nonneg _ _ _ Hlen Hn Ht) as Hidx.
    eexists. apply (calculatePercentile_index _ _ _ idx Hlen Hidx Ht).
Qed.

(** C7.  For every non-empty sample list (of fewer than 2^60 samples) and
    every percentile [p], a double with 0 <= p <= 1, calculatePercentile
    returns the element at index floor(p * count), the product being the
    float64 product the code computes, clamped to the last index; for the
    samples 10, 20, 30, 40, 50 the percentiles 0.50, 0.90 and 0.99 select
    30, 50 and 50. *)
Theorem percentile_nearest_rank (unrepresentable : spec_float -> Z)
        (sorted : list Z) (p : spec_float) :
  sorted <> [] ->
  Go.len sorted < 2 ^ 60 ->
  valid_binary float64.prec float64.emax p = true ->
  float64.nonneg p = true ->
  SFleb p (float64.ofInt 1) = true ->
  (exists idx,
     float64.truncate (float64.mul (float64.ofInt (Go.len sorted)) p) = Some idx /\
     0 <= Z.min idx (Go.len sorted - 1) < Go.len sorted /\
     loadtest.calculatePercentile unrepresentable sorted p =
       Go.Ok (nth (Z.to_nat (Z.min idx (Go.len sorted - 1))) sorted 0)) /\
  loadtest.calculatePercentile unrepresentable [10; 20; 30; 40; 50]
    (float64.decimal 50 100) = Go.Ok 30 /\
  loadtest.calculatePercentile unrepresentable [10; 20; 30; 40; 50]
    (float64.decimal 90 100) = Go.Ok 50 /\
  loadtest.calculatePercentile unrepresentable [10; 20; 30; 40; 50]
    (float64.decimal 99 100) = Go.Ok 50.
Proof.
  intros Hne Hlt Hv Hn Hle.
  split; [|repeat split; vm_compute; reflexivity].
  assert (Hlen : 0 < Go.len sorted).
  { unfold Go.len. destruct sorted; [contradiction|simpl; lia]. }
  pose proof (at_most_one_belowTwo p Hv Hn Hle) as Hb.
  destruct (percentile_index_fits (Go.len sorted) p (conj Hlen Hlt) Hb) as [idx Ht].
  pose proof (percentile_index_nonneg _ _ _ Hlen Hn Ht) as Hidx.
  exists idx. split; [exact Ht|]. split; [lia|].
  apply (calculatePercentile_index _ _ _ idx Hlen Hidx Ht).
Qed.

Lemma percentile_nearest_rank_witness :
  [10; 20; 30; 40; 50] <> [] /\
  Go.len [10; 20; 30; 40; 50] < 2 ^ 60 /\
  valid_binary float64.prec float64.emax (float64.decimal 90 100) = true /\
  float64.nonneg (float64.decimal 90 100) = true /\
  SFleb (float64.decimal 90 100) (float64.ofInt 1) = true /\
  exists idx,
    float64.truncate
      (float64.mul (float64.ofInt (Go.len [10; 20; 30; 40; 50]))
                   (float64.decimal 90 100)) = Some idx /\
    0 <= Z.min idx (Go.len [10; 20; 30; 40; 50] - 1) < Go.len [10; 20; 30; 40; 50] /\
    loadtest.calculatePercentile (fun _ => - 2 ^ 63) [10; 20; 30; 40; 50]
      (float64.decimal 90 100) =
      Go.Ok (nth (Z.to_nat (Z.min idx (Go.len [10; 20; 30; 40; 50] - 1)))
                 [10; 20; 30; 40; 50] 0).
Proof.
  assert (H1 : [10; 20; 30; 40; 50] <> []) by (intros ?; discriminate).
  assert (H2 : Go.len [10; 20; 30; 40; 50] < 2 ^ 60) by (vm_compute; reflexivity).
  assert (H3 : valid_binary float64.prec float64.emax (float64.decimal 90 100) = true)
    by (vm_compute; reflexivity).
  assert (H4 : float64.nonneg (float64.decimal 90 100) = true)
    by (vm_compute; reflexivity).
  assert (H5 : SFleb (float64.decimal 90 100) (float64.ofInt 1) = true)
    by (vm_compute; reflexivity).
  split; [exact H1|]. split; [exact H2|]. split; [exact H3|].
  split; [exact H4|]. split; [exact H5|].
  apply (proj1 (percentile_nearest_rank (fun _ => - 2 ^ 63) _ _ H1 H2 H3 H4 H5)).
Defined.

(** For the three percentiles in use and every count up to 2000 the
    float64 product is in range and its truncation is the exact
    floor(count * percent / 100). *)
Lemma used_percentiles_exact :
  forallb (fun n =>
             let n := Z.of_nat n in
             forallb (fun pc =>
                        match float64.truncate
                                (float64.mul (float64.ofInt n) (float64.decimal pc 100)) with
                        | Some i => i =? n * pc / 100
                        | None => false
                        end) [50; 90; 99])
          (seq 1 2000) = true.
Proof. vm_compute. reflexivity. Qed.

(** ** Load generator: throughput *)

Lemma Add_one_small (x : Z) : 0 <= x -> x + 1 < 2 ^ 63 -> atomic.Add x 1 = x + 1.
Proof.
  intros H0 H1. unfold atomic.Add, Go.wrapS.
  rewrite Z.mod_small; lia.
Qed.

Lemma len_filter_le {A} (f : A -> bool) (l : list A) :
  0 <= Go.len (List.filter f l) <= Go.len l.
Proof.
  unfold Go.len. pose proof (List.filter_length_le f l). lia.
Qed.

(** A counter that a step increments exactly for the items satisfying
    [counted] ends at the number of those items. *)
Lemma counter_fold {S A} (step : S -> A -> S) (counter : S -> Z)
      (counted : A -> bool) :
  (forall s a, counter (step s a) =
               if counted a then atomic.Add (counter s) 1 else counter s) ->
  forall (l : list A) (s : S),
    0 <= counter s -> counter s + Go.len l < 2 ^ 63 ->
    counter (fold_left step l s) = counter s + Go.len (List.filter counted l).
Proof.
  intros Hstep. induction l as [|a l IH]; intros s H0 Hb.
  - simpl. unfold Go.len. simpl. lia.
  - unfold Go.len in *. cbn [fold_left List.filter length] in *.
    assert (Ha : counter (step s a) =
                 counter s + (if counted a then 1 else 0)).
    { rewrite Hstep. destruct (counted a); [apply Add_one_small; lia|lia]. }
    rewrite IH; rewrite Ha; destruct (counted a); cbn [length]; lia.
Qed.

(** A slice to which a step appends exactly for the items satisfying
    [kept] grows by the number of those items. *)
Lemma append_fold {S A} (step : S -> A -> S) (slice : S -> list Z)
      (kept : A -> bool) :
  (forall s a, Go.len (slice (step s a)) =
               Go.len (slice s) + (if kept a then 1 else 0)) ->
  forall (l : list A) (s : S),
    Go.len (slice (fold_left step l s)) =
    Go.len (slice s) + Go.len (List.filter kept l).
Proof.
  intros Hstep. induction l as [|a l IH]; intros s.
  - simpl. unfold Go.len. simpl. lia.
  - cbn [fold_left List.filter]. rewrite IH, Hstep.
    destruct (kept a); unfold Go.len; cbn [length]; lia.
Qed.

Lemma iteration_success (s : loadtest.Stats) (it : loadtest.Class * loadtest.Exchange) :
  loadtest.successRequests (loadtest.iteration s it) =
  if loadtest.succeeded (snd it) then atomic.Add (loadtest.successRequests s) 1
  else loadtest.successRequests s.
Proof.
  destruct it as [[|] [|status [|] latency]]; simpl; try reflexivity;
    unfold loadtest.makeFastRequest, loadtest.makeSlowRequest;
    destruct (status =? loadtest.StatusOK); reflexivity.
Qed.

Lemma iteration_fast (s : loadtest.Stats) (it : loadtest.Class * loadtest.Exchange) :
  loadtest.fastRequests (loadtest.iteration s it) =
  if loadtest.isClass loadtest.Fast it then atomic.Add (loadtest.fastRequests s) 1
  else loadtest.fastRequests s.
Proof.
  destruct it as [[|] [|status [|] latency]]; simpl; try reflexivity;
    unfold loadtest.makeFastRequest, loadtest.makeSlowRequest;
    destruct (status =? loadtest.StatusOK); reflexivity.
Qed.

Lemma iteration_slow (s : loadtest.Stats) (it : loadtest.Class * loadtest.Exchange) :
  loadtest.slowRequests (loadtest.iteration s it) =
  if loadtest.isClass loadtest.Slow it then atomic.Add (loadtest.slowRequests s) 1
  else loadtest.slowRequests s.
Proof.
  destruct it as [[|] [|status [|] latency]]; simpl; try reflexivity;
    unfold loadtest.makeFastRequest, loadtest.makeSlowRequest;
    destruct (status =? loadtest.StatusOK); reflexivity.
Qed.

Lemma iteration_fastLatencies (s : loadtest.Stats)
      (it : loadtest.Class * loadtest.Exchange) :
  Go.len (loadtest.fastLatencies (loadtest.iteration s it)) =
  Go.len (loadtest.fastLatencies s) +
  (if loadtest.isClass loadtest.Fast it && loadtest.succeeded (snd it) then 1 else 0).
Proof.
  destruct it as [[|] [|status [|] latency]]; simpl; try lia;
    unfold loadtest.makeFastRequest, loadtest.makeSlowRequest;
    destruct (status =? loadtest.StatusOK); simpl; try lia.
  unfold Go.len. rewrite length_app. simpl. lia.
Qed.

Lemma iteration_slowLatencies (s : loadtest.Stats)
      (it : loadtest.Class * loadtest.Exchange) :
  Go.len (loadtest.slowLatencies (loadtest.iteration s it)) =
  Go.len (loadtest.slowLatencies s) +
  (if loadtest.isClass loadtest.Slow it && loadtest.succeeded (snd it) then 1 else 0).
Proof.
  destruct it as [[|] [|status [|] latency]]; simpl; try lia;
    unfold loadtest.makeFastRequest, loadtest.makeSlowRequest;
    destruct (status =? loadtest.StatusOK); simpl; try lia.
  unfold Go.len. rewrite length_app. simpl. lia.
Qed.

(** The state of the statistics when all clients have returned. *)
Lemma runLoadTest_counts (its : list (loadtest.Class * loadtest.Exchange)) :
  Go.len its < 2 ^ 63 ->
  let s := loadtest.runLoadTest its loadtest.zeroStats in
  loadtest.successRequests s = loadtest.allSuccesses its /\
  loadtest.fastRequests s = loadtest.issued loadtest.Fast its /\
  loadtest.slowRequests s = loadtest.issued loadtest.Slow its /\
  Go.len (loadtest.fastLatencies s) = loadtest.successes loadtest.Fast its /\
  Go.len (loadtest.slowLatencies s) = loadtest.successes loadtest.Slow its.
Proof.
  intros Hb s. subst s. unfold loadtest.runLoadTest.
  repeat split.
  - rewrite (counter_fold _ _ (fun it => loadtest.succeeded (snd it)) iteration_success);
      simpl; try lia. reflexivity.
  - rewrite (counter_fold _ _ (loadtest.isClass loadtest.Fast) iteration_fast);
      simpl; try lia. reflexivity.
  - rewrite (counter_fold _ _ (loadtest.isClass loadtest.Slow) iteration_slow);
      simpl; try lia. reflexivity.
  - rewrite (append_fold _ _ (fun it => loadtest.isClass loadtest.Fast it &&
                                        loadtest.succeeded (snd it))
               iteration_fastLatencies). reflexivity.
  - rewrite (append_fold _ _ (fun it => loadtest.isClass loadtest.Slow it &&
                                        loadtest.succeeded (snd it))
               iteration_slowLatencies). reflexivity.
Qed.

Lemma len_insertInt64 (x : Z) (l : list Z) :
  Go.len (loadtest.insertInt64 x l) = Go.len l + 1.
Proof.
  unfold Go.len. induction l as [|y l IH]; simpl; [lia|].
  destruct (x <=? y); simpl; lia.
Qed.

Lemma len_sortInt64 (l : list Z) : Go.len (loadtest.sortInt64 l) = Go.len l.
Proof.
  induction l as [|x l IH]; [reflexivity|].
  simpl. rewrite len_insertInt64, IH. unfold Go.len. simpl. lia.
Qed.

Lemma latencyStats_total (unrepresentable : spec_float -> Z) (sorted : list Z) :
  Go.len sorted < 2 ^ 60 ->
  exists ls, loadtest.latencyStats unrepresentable sorted = Go.Ok ls.
Proof.
  intros Hlt. unfold loadtest.latencyStats.
  destruct (Z.ltb_spec 0 (Go.len sorted)) as [Hpos|_]; [|eauto].
  destruct (index_in_bounds sorted 0 ltac:(lia)) as (lo & Hlo & _).
  destruct (index_in_bounds sorted (Go.len sorted - 1) ltac:(lia)) as (hi & Hhi & _).
  destruct (calculatePercentile_total unrepresentable sorted (float64.decimal 50 100) Hlt)
    as [p50 H50]; [reflexivity|vm_compute; intros ?; discriminate|].
  destruct (calculatePercentile_total unrepresentable sorted (float64.decimal 90 100) Hlt)
    as [p90 H90]; [reflexivity|vm_compute; intros ?; discriminate|].
  destruct (calculatePercentile_total unrepresentable sorted (float64.decimal 99 100) Hlt)
    as [p99 H99]; [reflexivity|vm_compute; intros ?; discriminate|].
  rewrite Hlo, Hhi. simpl. rewrite H50. simpl. rewrite H90. simpl. rewrite H99. simpl.
  eauto.
Qed.

(** C9, as stated, fails for the per-class figures: with one successful and
    one failed fast request in a run of one second, the fast-client
    throughput printed is 2 requests per second, not the 1 that the
    successful requests of the class give. *)
Lemma class_throughput_counts_failures :
  loadtest.successes loadtest.Fast
    [(loadtest.Fast, loadtest.Answered 200 true 10);
     (loadtest.Fast, loadtest.PostFailed)] = 1 /\
  float64.div (float64.ofInt 1) (time.Seconds 1000000000) = float64.ofInt 1 /\
  match loadtest.printResults (fun _ => - 2 ^ 63)
          (loadtest.runLoadTest
             [(loadtest.Fast, loadtest.Answered 200 true 10);
              (loadtest.Fast, loadtest.PostFailed)] loadtest.zeroStats)
          1000000000 with
  | Go.Ok report =>
      loadtest.FastRps report = Some (float64.ofInt 2) /\
      loadtest.FastRps report <>
        Some (float64.div
                (float64.ofInt
                   (loadtest.successes loadtest.Fast
                      [(loadtest.Fast, loadtest.Answered 200 true 10);
                       (loadtest.Fast, loadtest.PostFailed)]))
                (time.Seconds 1000000000))
  | Go.Panic _ => False
  end.
Proof.
  split; [vm_compute; reflexivity|].
  split; [vm_compute; reflexivity|].
  vm_compute. split; [reflexivity|intros ?; discriminate].
Qed.

(** C9, amended.  For a run of fewer than 2^60 requests, the overall
    throughput printed is the number of successful requests divided by the
    elapsed duration in seconds; the throughput printed for a class is the
    number of requests the clients of that class issued, successful or not,
    divided by the elapsed duration, and it is printed only when the class
    has at least one successful request. *)
Theorem throughput_reported (unrepresentable : spec_float -> Z)
        (its : list (loadtest.Class * loadtest.Exchange)) (duration : Z) :
  Go.len its < 2 ^ 60 ->
  exists report,
    loadtest.printResults unrepresentable
      (loadtest.runLoadTest its loadtest.zeroStats) duration = Go.Ok report /\
    loadtest.OverallRps report =
      float64.div (float64.ofInt (loadtest.allSuccesses its)) (time.Seconds duration) /\
    loadtest.FastRps report =
      (if 0 <? loadtest.successes loadtest.Fast its
       then Some (float64.div (float64.ofInt (loadtest.issued loadtest.Fast its))
                              (time.Seconds duration))
       else None) /\
    loadtest.SlowRps report =
      (if 0 <? loadtest.successes loadtest.Slow its
       then Some (float64.div (float64.ofInt (loadtest.issued loadtest.Slow its))
                              (time.Seconds duration))
       else None).
Proof.
  intros Hlt.
  destruct (runLoadTest_counts its ltac:(lia)) as (Hs & Hf & Hsl & Hfl & Hsll).
  set (s := loadtest.runLoadTest its loadtest.zeroStats) in *.
  pose proof (len_filter_le
                (fun it => loadtest.isClass loadtest.Fast it && loadtest.succeeded (snd it))
                its) as Hle1.
  pose proof (len_filter_le
                (fun it => loadtest.isClass loadtest.Slow it && loadtest.succeeded (snd it))
                its) as Hle2.
  fold (loadtest.successes loadtest.Fast its) in Hle1.
  fold (loadtest.successes loadtest.Slow its) in Hle2.
  assert (Hall : loadtest.successes loadtest.Fast its +
                 loadtest.successes loadtest.Slow its <= Go.len its).
  { clear. unfold loadtest.successes, Go.len.
    assert (H : (length (List.filter
                           (fun it => loadtest.isClass loadtest.Fast it &&
                                      loadtest.succeeded (snd it)) its) +
                 length (List.filter
                           (fun it => loadtest.isClass loadtest.Slow it &&
                                      loadtest.succeeded (snd it)) its)
                 <= length its)%nat).
    { induction its as [|[[|] x] its IH]; simpl in *; [lia| |];
        destruct (loadtest.succeeded x); simpl; lia. }
    lia. }
  assert (Hb1 : Go.len (loadtest.sortInt64 (loadtest.fastLatencies s)) < 2 ^ 60)
    by (rewrite len_sortInt64; lia).
  assert (Hb2 : Go.len (loadtest.sortInt64 (loadtest.slowLatencies s)) < 2 ^ 60)
    by (rewrite len_sortInt64; lia).
  assert (Hb3 : Go.len (loadtest.sortInt64
                          (loadtest.sortInt64 (loadtest.fastLatencies s) ++
                           loadtest.sortInt64 (loadtest.slowLatencies s))) < 2 ^ 60).
  { rewrite len_sortInt64. unfold Go.len. rewrite length_app, Nat2Z.inj_add.
    fold (Go.len (loadtest.sortInt64 (loadtest.fastLatencies s))).
    fold (Go.len (loadtest.sortInt64 (loadtest.slowLatencies s))).
    rewrite !len_sortInt64. lia. }
  unfold loadtest.printResults.
  destruct (latencyStats_total unrepresentable _ Hb3) as [overall Ho].
  destruct (latencyStats_total unrepresentable _ Hb1) as [fast Hfa].
  destruct (latencyStats_total unrepresentable _ Hb2) as [slow Hsa].
  rewrite Ho. cbn [Go.bind]. rewrite Hfa. cbn [Go.bind]. rewrite Hsa. cbn [Go.bind].
  eexists. split; [reflexivity|]. cbn [loadtest.OverallRps loadtest.FastRps loadtest.SlowRps].
  rewrite !len_sortInt64, Hs, Hf, Hsl, Hfl, Hsll. repeat split.
Qed.

Lemma throughput_reported_witness :
  Go.len [(loadtest.Fast, loadtest.Answered 200 true 10);
          (loadtest.Fast, loadtest.PostFailed);
          (loadtest.Slow, loadtest.Answered 200 true 30)] < 2 ^ 60 /\
  exists report,
    loadtest.printResults (fun _ => - 2 ^ 63)
      (loadtest.runLoadTest
         [(loadtest.Fast, loadtest.Answered 200 true 10);
          (loadtest.Fast, loadtest.PostFailed);
          (loadtest.Slow, loadtest.Answered 200 true 30)] loadtest.zeroStats)
      2000000000 = Go.Ok report /\
    loadtest.OverallRps report = float64.ofInt 1.
Proof.
  assert (H : Go.len [(loadtest.Fast, loadtest.Answered 200 true 10);
                      (loadtest.Fast, loadtest.PostFailed);
                      (loadtest.Slow, loadtest.Answered 200 true 30)] < 2 ^ 60)
    by (vm_compute; reflexivity).
  split; [exact H|].
  destruct (throughput_reported (fun _ => - 2 ^ 63) _ 2000000000 H)
    as (report & Hr & Ho & _).
  exists report. split; [exact Hr|]. rewrite Ho. vm_compute. reflexivity.
Defined.

(** ** Consistency verifier *)

Lemma work_userPayloads (s : allocationtest.Shared) (w : string * option string) :
  allocationtest.userPayloads (allocationtest.work s w) =
  match snd w with
  | Some payload => allocationtest.record (allocationtest.userPayloads s) (fst w) payload
  | None => allocationtest.userPayloads s
  end.
Proof. destruct w as [userID [payload|]]; reflexivity. Qed.

Lemma record_is_Some (m : gmap string (gmap string Z)) (v payload x : string) :
  is_Some (allocationtest.record m v payload !! x) <-> x = v \/ is_Some (m !! x).
Proof.
  unfold allocationtest.record.
  destruct (decide (v = x)) as [->|Hne].
  - rewrite lookup_insert_eq. split; [auto|intros _; eauto].
  - rewrite lookup_insert_ne by exact Hne. split; [auto|intros [->|H]; [congruence|exact H]].
Qed.

(** The users in the map are those with at least one successful request. *)
Lemma workers_record_successes (items : list (string * option string)) (v : string) :
  forall s : allocationtest.Shared,
    is_Some (allocationtest.userPayloads (fold_left allocationtest.work items s) !! v) <->
    is_Some (allocationtest.userPayloads s !! v) \/
    exists payload, In (v, Some payload) items.
Proof.
  induction items as [|[x [payload|]] items IH]; intros s; cbn [fold_left].
  - split; [auto|intros [H|[? []]]; exact H].
  - rewrite IH, work_userPayloads. simpl. rewrite record_is_Some. split.
    + intros [[->|H]|[q Hq]].
      * right. exists payload. left. reflexivity.
      * left. exact H.
      * right. exists q. right. exact Hq.
    + intros [H|[q [E|Hq]]].
      * left. right. exact H.
      * injection E as -> ->. left. left. reflexivity.
      * right. exists q. exact Hq.
  - rewrite IH, work_userPayloads. simpl. split.
    + intros [H|[q Hq]].
      * left. exact H.
      * right. exists q. right. exact Hq.
    + intros [H|[q [E|Hq]]].
      * left. exact H.
      * discriminate E.
      * right. exists q. exact Hq.
Qed.

(** Removing the work items of a user whose requests all failed leaves the
    map as it is. *)
Lemma workers_skip_failed (u : string) (items : list (string * option string)) :
  (forall reply, In (u, reply) items -> reply = None) ->
  forall s s' : allocationtest.Shared,
    allocationtest.userPayloads s = allocationtest.userPayloads s' ->
    allocationtest.userPayloads (fold_left allocationtest.work items s) =
    allocationtest.userPayloads
      (fold_left allocationtest.work
         (List.filter (fun w => negb (allocationtest.ofUser u w)) items) s').
Proof.
  induction items as [|[x reply] items IH]; intros Hu s s' E; [exact E|].
  cbn [fold_left List.filter]. unfold allocationtest.ofUser at 1. cbn [fst].
  destruct (String.eqb_spec x u) as [->|Hne]; cbn [negb].
  - rewrite (Hu reply (or_introl eq_refl)).
    apply IH; [intros r Hr; apply Hu; right; exact Hr|].
    rewrite work_userPayloads. exact E.
  - cbn [fold_left]. apply IH; [intros r Hr; apply Hu; right; exact Hr|].
    rewrite !work_userPayloads, E. reflexivity.
Qed.

Lemma analyzeUser_view (r1 r2 : allocationtest.TestResults)
      (entry : string * gmap string Z) :
  allocationtest.userView r1 = allocationtest.userView r2 ->
  allocationtest.userView (allocationtest.analyzeUser r1 entry) =
  allocationtest.userView (allocationtest.analyzeUser r2 entry).
Proof.
  unfold allocationtest.userView. intros [= E1 E2 E3 E4 E5 E6 E7].
  destruct entry as [userID payloads]. simpl.
  rewrite E1, E2, E3, E4, E5, E6, E7. reflexivity.
Qed.

Lemma analyzeUsers_view (l : list (string * gmap string Z)) :
  forall r1 r2 : allocationtest.TestResults,
    allocationtest.userView r1 = allocationtest.userView r2 ->
    allocationtest.userView (fold_left allocationtest.analyzeUser l r1) =
    allocationtest.userView (fold_left allocationtest.analyzeUser l r2).
Proof.
  induction l as [|e l IH]; intros r1 r2 E; [exact E|].
  simpl. apply IH, analyzeUser_view, E.
Qed.

(** What the results say about users depends on the map alone. *)
Lemma analyzeResults_view (m : gmap string (gmap string Z))
      (rpu d t1 s1 f1 rpu' d' t2 s2 f2 : Z) :
  allocationtest.userView (allocationtest.analyzeResults m rpu d t1 s1 f1) =
  allocationtest.userView (allocationtest.analyzeResults m rpu' d' t2 s2 f2).
Proof.
  unfold allocationtest.analyzeResults.
  match goal with
  | |- context [fold_left allocationtest.analyzeUser ?l ?r1] =>
      match goal with
      | |- _ = allocationtest.userView ?rhs =>
          match rhs with
          | context [fold_left allocationtest.analyzeUser l ?r2] =>
              pose proof (analyzeUsers_view l r1 r2 eq_refl) as E
          end
      end
  end.
  unfold allocationtest.userView in *. simpl.
  injection E as E1 E2 E3 E4 E5 E6 E7.
  rewrite E1, E2, E3, E4, E5, E6, E7. reflexivity.
Qed.

Lemma analyzeUsers_ids (l : list (string * gmap string Z)) :
  forall r : allocationtest.TestResults,
    List.map allocationtest.UserID
      (allocationtest.UserAllocations (fold_left allocationtest.analyzeUser l r)) =
    List.map allocationtest.UserID (allocationtest.UserAllocations r) ++ List.map fst l.
Proof.
  induction l as [|[userID payloads] l IH]; intros r; simpl.
  - now rewrite app_nil_r.
  - rewrite IH. simpl. rewrite List.map_app, <- app_assoc. reflexivity.
Qed.

(** The per-user records are those of the users in the map. *)
Lemma analyzeResults_ids (m : gmap string (gmap string Z)) (rpu d t s f : Z)
      (a : allocationtest.UserAllocation) :
  In a (allocationtest.UserAllocations (allocationtest.analyzeResults m rpu d t s f)) ->
  is_Some (m !! allocationtest.UserID a).
Proof.
  intros Hin. apply (in_map allocationtest.UserID) in Hin.
  unfold allocationtest.analyzeResults in Hin. cbn [allocationtest.UserAllocations] in Hin.
  rewrite analyzeUsers_ids in Hin. simpl in Hin.
  apply in_map_iff in Hin. destruct Hin as ([k v] & Hk & Hkv). simpl in Hk. subst k.
  apply list_elem_of_In, elem_of_map_to_list in Hkv. eauto.
Qed.

Lemma work_total (s : allocationtest.Shared) (w : string * option string) :
  allocationtest.totalRequests (allocationtest.work s w) =
  if (fun _ : string * option string => true) w
  then atomic.Add (allocationtest.totalRequests s) 1
  else allocationtest.totalRequests s.
Proof. destruct w as [x [p|]]; reflexivity. Qed.

Lemma work_success (s : allocationtest.Shared) (w : string * option string) :
  allocationtest.successRequests (allocationtest.work s w) =
  if allocationtest.succeeded w
  then atomic.Add (allocationtest.successRequests s) 1
  else allocationtest.successRequests s.
Proof. destruct w as [x [p|]]; reflexivity. Qed.

Lemma work_failed (s : allocationtest.Shared) (w : string * option string) :
  allocationtest.failedRequests (allocationtest.work s w) =
  if negb (allocationtest.succeeded w)
  then atomic.Add (allocationtest.failedRequests s) 1
  else allocationtest.failedRequests s.
Proof. destruct w as [x [p|]]; reflexivity. Qed.

(** The three counters when the pool has drained. *)
Lemma runWorkers_counts (items : list (string * option string)) :
  Go.len items < 2 ^ 63 ->
  allocationtest.totalRequests (allocationtest.runWorkers items) = Go.len items /\
  allocationtest.successRequests (allocationtest.runWorkers items) =
    Go.len (List.filter allocationtest.succeeded items) /\
  allocationtest.failedRequests (allocationtest.runWorkers items) =
    Go.len (List.filter (fun w => negb (allocationtest.succeeded w)) items).
Proof.
  intros Hb. unfold allocationtest.runWorkers. repeat split.
  - assert (E : List.filter (fun _ : string * option string => true) items = items)
      by (clear; induction items as [|w items IH]; simpl; congruence).
    rewrite (counter_fold _ _ (fun _ => true) work_total); rewrite ?E; simpl; lia.
  - rewrite (counter_fold _ _ allocationtest.succeeded work_success); simpl; lia.
  - rewrite (counter_fold _ _ (fun w => negb (allocationtest.succeeded w)) work_failed);
      simpl; lia.
Qed.

(** Splitting the work items into those of a user whose requests all failed
    and the others. *)
Lemma failed_user_split (u : string) (items : list (string * option string)) :
  (forall reply, In (u, reply) items -> reply = None) ->
  let others := List.filter (fun w => negb (allocationtest.ofUser u w)) items in
  let own := List.filter (allocationtest.ofUser u) items in
  Go.len items = Go.len others + Go.len own /\
  Go.len (List.filter allocationtest.succeeded items) =
    Go.len (List.filter allocationtest.succeeded others) /\
  Go.len (List.filter (fun w => negb (allocationtest.succeeded w)) items) =
    Go.len (List.filter (fun w => negb (allocationtest.succeeded w)) others) + Go.len own.
Proof.
  intros Hu others own. subst others own. unfold Go.len.
  induction items as [|[x reply] items IH]; [simpl; lia|].
  specialize (IH (fun r Hr => Hu r (or_intror Hr))).
  cbn [List.filter].
  change (allocationtest.ofUser u (x, reply)) with (String.eqb x u).
  destruct (String.eqb_spec x u) as [->|Hne]; cbn [negb List.filter].
  - pose proof (Hu reply (or_introl eq_refl)) as ->.
    change (allocationtest.succeeded (u, None)) with false.
    cbn [negb length]. rewrite !Nat2Z.inj_succ. lia.
  - destruct (allocationtest.succeeded (x, reply));
      cbn [negb length]; rewrite ?Nat2Z.inj_succ; lia.
Qed.

(** The loop over the users leaves the user count and the request counters
    as they are. *)
Lemma analyzeUsers_keep (l : list (string * gmap string Z)) :
  forall r : allocationtest.TestResults,
    allocationtest.TotalUsers (fold_left allocationtest.analyzeUser l r) =
      allocationtest.TotalUsers r /\
    allocationtest.SuccessfulRequests (fold_left allocationtest.analyzeUser l r) =
      allocationtest.SuccessfulRequests r /\
    allocationtest.FailedRequests (fold_left allocationtest.analyzeUser l r) =
      allocationtest.FailedRequests r /\
    allocationtest.TotalRequests (fold_left allocationtest.analyzeUser l r) =
      allocationtest.TotalRequests r.
Proof.
  induction l as [|[k v] l IH]; intros r; [auto|].
  cbn [fold_left]. destruct (IH (allocationtest.analyzeUser r (k, v))) as (-> & -> & -> & ->).
  auto.
Qed.

Lemma analyzeResults_counts (m : gmap string (gmap string Z)) (rpu d t s f : Z) :
  allocationtest.TotalUsers (allocationtest.analyzeResults m rpu d t s f) =
    Z.of_nat (size m) /\
  allocationtest.SuccessfulRequests (allocationtest.analyzeResults m rpu d t s f) = s /\
  allocationtest.FailedRequests (allocationtest.analyzeResults m rpu d t s f) = f /\
  allocationtest.TotalRequests (allocationtest.analyzeResults m rpu d t s f) = t.
Proof.
  unfold allocationtest.analyzeResults.
  cbn [allocationtest.TotalUsers allocationtest.SuccessfulRequests
       allocationtest.FailedRequests allocationtest.TotalRequests].
  match goal with
  | |- context [fold_left allocationtest.analyzeUser ?l ?r] =>
      destruct (analyzeUsers_keep l r) as (-> & -> & -> & ->)
  end.
  auto.
Qed.

(** C10.  A user for whom no request succeeded has no entry in the map of
    observed payloads and no per-user record; the user count is the number
    of users in the map, which are exactly the users with a successful
    request; everything the results say about users (user count, consistent
    and inconsistent counts, consistency rate, distribution, records,
    details) and the successful-request count are as in a run without that
    user's requests, which add only to the total and failed counts. *)
Theorem failed_user_unrecorded (items : list (string * option string))
        (u : string) (requestsPerUser duration : Z) :
  Go.len items < 2 ^ 63 ->
  (forall reply, In (u, reply) items -> reply = None) ->
  let shared := allocationtest.runWorkers items in
  let others := List.filter (fun w => negb (allocationtest.ofUser u w)) items in
  let res := allocationtest.runAllocationTest items requestsPerUser duration in
  let res' := allocationtest.runAllocationTest others requestsPerUser duration in
  allocationtest.userPayloads shared !! u = None /\
  (forall v, is_Some (allocationtest.userPayloads shared !! v) <->
             exists payload, In (v, Some payload) items) /\
  allocationtest.TotalUsers res = Z.of_nat (size (allocationtest.userPayloads shared)) /\
  (forall a, In a (allocationtest.UserAllocations res) -> allocationtest.UserID a <> u) /\
  allocationtest.userView res = allocationtest.userView res' /\
  allocationtest.SuccessfulRequests res = allocationtest.SuccessfulRequests res' /\
  allocationtest.FailedRequests res =
    allocationtest.FailedRequests res' + Go.len (List.filter (allocationtest.ofUser u) items) /\
  allocationtest.TotalRequests res =
    allocationtest.TotalRequests res' + Go.len (List.filter (allocationtest.ofUser u) items).
Proof.
  intros Hb Hu shared others res res'.
  assert (Hdom : forall v, is_Some (allocationtest.userPayloads shared !! v) <->
                           exists payload, In (v, Some payload) items).
  { intros v. unfold shared, allocationtest.runWorkers.
    rewrite workers_record_successes. simpl. rewrite lookup_empty. split.
    - intros [[? H]|H]; [discriminate|exact H].
    - auto. }
  assert (Hnone : allocationtest.userPayloads shared !! u = None).
  { apply eq_None_not_Some. rewrite Hdom. intros [payload Hin].
    specialize (Hu _ Hin). discriminate. }
  assert (Hmap : allocationtest.userPayloads shared =
                 allocationtest.userPayloads (allocationtest.runWorkers others)).
  { apply (workers_skip_failed u items Hu). reflexivity. }
  destruct (failed_user_split u items Hu) as (Hlen & Hsucc & Hfail).
  fold others in Hlen, Hsucc, Hfail.
  pose proof (len_filter_le (allocationtest.ofUser u) items) as Hown.
  destruct (runWorkers_counts items Hb) as (Ht & Hs & Hf).
  destruct (runWorkers_counts others ltac:(lia)) as (Ht' & Hs' & Hf').
  unfold res, res', allocationtest.runAllocationTest. fold shared.
  destruct (analyzeResults_counts (allocationtest.userPayloads shared)
              requestsPerUser duration
              (allocationtest.totalRequests shared)
              (allocationtest.successRequests shared)
              (allocationtest.failedRequests shared)) as (E1 & E2 & E3 & E4).
  destruct (analyzeResults_counts
              (allocationtest.userPayloads (allocationtest.runWorkers others))
              requestsPerUser duration
              (allocationtest.totalRequests (allocationtest.runWorkers others))
              (allocationtest.successRequests (allocationtest.runWorkers others))
              (allocationtest.failedRequests (allocationtest.runWorkers others)))
    as (_ & E2' & E3' & E4').
  split; [exact Hnone|]. split; [exact Hdom|]. split; [exact E1|].
  split.
  { intros a Hin E. apply analyzeResults_ids in Hin.
    rewrite E, Hnone in Hin. destruct Hin; discriminate. }
  split.
  { rewrite <- Hmap. apply analyzeResults_view. }
  rewrite E2, E3, E4, E2', E3', E4'. unfold shared. lia.
Qed.

Lemma failed_user_unrecorded_witness :
  Go.len [("alice"%string, Some "a.json"%string); ("bob"%string, None);
          ("alice"%string, Some "a.json"%string); ("bob"%string, None)] < 2 ^ 63 /\
  (forall reply,
     In ("bob"%string, reply)
        [("alice"%string, Some "a.json"%string); ("bob"%string, None);
         ("alice"%string, Some "a.json"%string); ("bob"%string, None)] ->
     reply = None) /\
  allocationtest.userPayloads
    (allocationtest.runWorkers
       [("alice"%string, Some "a.json"%string); ("bob"%string, None);
        ("alice"%string, Some "a.json"%string); ("bob"%string, None)])
    !! "bob"%string = None /\
  allocationtest.FailedRequests
    (allocationtest.runAllocationTest
       [("alice"%string, Some "a.json"%string); ("bob"%string, None);
        ("alice"%string, Some "a.json"%string); ("bob"%string, None)] 2 1000000000) =
  allocationtest.FailedRequests
    (allocationtest.runAllocationTest
       (List.filter (fun w => negb (allocationtest.ofUser "bob" w))
          [("alice"%string, Some "a.json"%string); ("bob"%string, None);
           ("alice"%string, Some "a.json"%string); ("bob"%string, None)])
       2 1000000000) +
  Go.len (List.filter (allocationtest.ofUser "bob")
            [("alice"%string, Some "a.json"%string); ("bob"%string, None);
             ("alice"%string, Some "a.json"%string); ("bob"%string, None)]).
Proof.
  assert (H1 : Go.len [("alice"%string, Some "a.json"%string); ("bob"%string, None);
                       ("alice"%string, Some "a.json"%string); ("bob"%string, None)]
               < 2 ^ 63) by (vm_compute; reflexivity).
  assert (H2 : forall reply,
             In ("bob"%string, reply)
                [("alice"%string, Some "a.json"%string); ("bob"%string, None);
                 ("alice"%string, Some "a.json"%string); ("bob"%string, None)] ->
             reply = None).
  { intros reply [E|[E|[E|[E|[]]]]]; congruence. }
  split; [exact H1|]. split; [exact H2|].
  destruct (failed_user_unrecorded _ "bob" 2 1000000000 H1 H2)
    as (Hnone & _ & _ & _ & _ & _ & Hfailed & _).
  split; [exact Hnone|exact Hfailed].
Defined.

Example allocation_run :
  let res :=
    allocationtest.runAllocationTest
      [("alice"%string, Some "a.json"%string); ("bob"%string, None);
       ("carol"%string, Some "a.json"%string); ("carol"%string, Some "b.json"%string);
       ("alice"%string, Some "a.json"%string); ("bob"%string, None)] 2 1000000000 in
  allocationtest.TotalUsers res = 2 /\
  allocationtest.ConsistentUsers res = 1 /\
  allocationtest.InconsistentUsers res = 1 /\
  allocationtest.FailedRequests res = 2 /\
  allocationtest.TotalRequests res = 6 /\
  List.map allocationtest.UserID (allocationtest.UserAllocations res) =
    ["carol"%string; "alice"%string] /\
  allocationtest.AllocationConsistency res = float64.ofInt 50.
Proof. vm_compute. repeat split. Qed.

(** * Further properties *)

(** ** Doubles: exact conversions and the consistency rate *)

Lemma Zdigits2_eq (z j : Z) : 0 < j -> 2 ^ (j - 1) <= z < 2 ^ j -> Zdigits2 z = j.
Proof.
  intros Hj [Hlo Hhi].
  assert (Hz : 0 < z).
  { assert (0 < 2 ^ (j - 1)) by (apply Z.pow_pos_nonneg; lia). lia. }
  pose proof (Zdigits2_le z j Hz Hhi) as Hle.
  destruct (Zdigits2_bounds z Hz) as (Hd & _ & Hlt).
  destruct (Z.le_gt_cases j (Zdigits2 z)) as [?|Hgt]; [lia|].
  assert (2 ^ Zdigits2 z <= 2 ^ (j - 1)) by (apply Z.pow_le_mono_r; lia).
  lia.
Qed.

Lemma shr_record_of_loc_m (m : Z) (l : location) : shr_m (shr_record_of_loc m l) = m.
Proof. destruct l as [|[]]; reflexivity. Qed.

(** The mantissa after the shift to the format's exponent, whatever the
    location. *)
Lemma shr_fexp_m (M E : Z) (l : location) :
  0 <= M ->
  let k := fexp float64.prec float64.emax (Zdigits2 M + E) - E in
  let r := shr_fexp float64.prec float64.emax M E l in
  (k <= 0 -> shr_m (fst r) = M /\ snd r = E) /\
  (0 < k -> shr_m (fst r) = M / 2 ^ k /\ snd r = E + k).
Proof.
  intros HM k r. subst r. unfold shr_fexp. fold k. unfold shr.
  destruct k as [|q|q] eqn:Ek; cbn [fst snd]; split; intros Hk; try lia;
    rewrite ?shr_record_of_loc_m; auto.
  split; [|reflexivity]. rewrite iter_shr_1_m; rewrite shr_record_of_loc_m; auto.
Qed.

(** Rounding a mantissa of at least 53 digits in the normal range: the
    mantissa is cut to 53 digits and rounded, and a carry to 2^53 is
    renormalised. *)
Lemma binary_round_aux_normal (s : bool) (M E : Z) (l : location) :
  0 < M -> 53 <= Zdigits2 M ->
  -1074 <= Zdigits2 M + E - 53 -> Zdigits2 M + E - 53 + 1 <= 971 ->
  let k := Zdigits2 M - 53 in
  let mrs := fst (shr_fexp float64.prec float64.emax M E l) in
  let R := round_nearest_even (shr_m mrs) (loc_of_shr_record mrs) in
  shr_m mrs = M / 2 ^ k /\ M / 2 ^ k <= R <= M / 2 ^ k + 1 /\
  2 ^ 52 <= M / 2 ^ k < 2 ^ 53 /\
  ((R < 2 ^ 53 /\
    exists m, Z.pos m = R /\
              binary_round_aux float64.prec float64.emax s M E l = S754_finite s m (E + k)) \/
   (R = 2 ^ 53 /\
    binary_round_aux float64.prec float64.emax s M E l =
      S754_finite s (2 ^ 52)%positive (E + k + 1))).
Proof.
  intros HM Hd Hlo Hhi k mrs R.
  destruct (Zdigits2_bounds M HM) as (_ & HMlo & HMhi).
  assert (Hk : 0 <= k) by (unfold k; lia).
  assert (Hq : 2 ^ 52 <= M / 2 ^ k < 2 ^ 53).
  { assert (Hp : 0 < 2 ^ k) by (apply Z.pow_pos_nonneg; lia).
    split.
    - apply Z.div_le_lower_bound; [exact Hp|].
      rewrite <- Z.pow_add_r by lia.
      replace (k + 52) with (Zdigits2 M - 1) by (unfold k; lia). exact HMlo.
    - apply Z.div_lt_upper_bound; [exact Hp|].
      rewrite <- Z.pow_add_r by lia.
      replace (k + 53) with (Zdigits2 M) by (unfold k; lia). exact HMhi. }
  destruct (shr_fexp_m M E l ltac:(lia)) as [Hle Hgt].
  rewrite fexp64 in Hle, Hgt.
  replace (Z.max (Zdigits2 M + E - 53) (-1074) - E) with k in Hle, Hgt by (unfold k; lia).
  assert (Hm : shr_m mrs = M / 2 ^ k /\
               snd (shr_fexp float64.prec float64.emax M E l) = E + k).
  { destruct (Z.eq_dec k 0) as [Hz|Hnz].
    - destruct (Hle ltac:(lia)) as [H1 H2]. fold mrs in H1.
      rewrite H1, H2, Hz. simpl. rewrite Z.div_1_r. split; [reflexivity|lia].
    - destruct (Hgt ltac:(lia)) as [H1 H2]. fold mrs in H1. auto. }
  destruct Hm as [Hm He].
  pose proof (round_nearest_even_bounds (shr_m mrs) (loc_of_shr_record mrs)) as HR.
  fold R in HR. rewrite Hm in HR.
  split; [exact Hm|]. split; [exact HR|]. split; [exact Hq|].
  unfold binary_round_aux.
  destruct (shr_fexp float64.prec float64.emax M E l) as [mrs' e'] eqn:Es.
  cbn [fst snd] in *. subst mrs. fold R.
  destruct (shr_fexp_exact R e' ltac:(lia)) as [Hle2 Hgt2].
  rewrite fexp64 in Hle2, Hgt2.
  destruct (Z.eq_dec R (2 ^ 53)) as [HR53|HRlt].
  - right. split; [exact HR53|].
    assert (HdR : Zdigits2 R = 54) by (apply Zdigits2_eq; [lia|rewrite HR53; simpl; lia]).
    rewrite HdR in Hgt2.
    destruct (Hgt2 ltac:(lia)) as [H1 H2].
    destruct (shr_fexp float64.prec float64.emax R e' loc_Exact) as [mrs'' e''].
    cbn [fst snd] in *.
    replace (Z.max (54 + e' - 53) (-1074) - e') with 1 in H1, H2 by lia.
    rewrite H1, HR53. change (2 ^ 53 / 2 ^ 1) with (Z.pos (2 ^ 52)).
    cbn iota. subst e'' e'.
    destruct (Z.leb_spec (E + k + 1) (float64.emax - float64.prec)) as [_|Hov];
      [reflexivity|].
    unfold float64.emax, float64.prec, k in Hov. lia.
  - left. split; [lia|].
    assert (HdR : Zdigits2 R = 53) by (apply Zdigits2_eq; lia).
    rewrite HdR in Hle2.
    destruct (Hle2 ltac:(lia)) as (H1 & H2 & _).
    destruct (shr_fexp float64.prec float64.emax R e' loc_Exact) as [mrs'' e''].
    cbn [fst snd] in *. rewrite H1.
    destruct R as [|m|m] eqn:ER; try lia.
    exists m. split; [reflexivity|]. subst e'' e'.
    destruct (Z.leb_spec (E + k) (float64.emax - float64.prec)) as [_|Hov];
      [reflexivity|].
    unfold float64.emax, float64.prec, k in Hov. lia.
Qed.

Lemma binary_round_aux_exact (s : bool) (m : positive) (E : Z) :
  Z.pos (digits2_pos m) = 53 -> -1074 <= E <= 970 ->
  binary_round_aux float64.prec float64.emax s (Z.pos m) E loc_Exact = S754_finite s m E.
Proof.
  intros Hd HE.
  assert (Hd' : Zdigits2 (Z.pos m) = 53) by exact Hd.
  assert (A1 : 0 < Z.pos m) by lia.
  assert (A2 : 53 <= Zdigits2 (Z.pos m)) by (rewrite Hd'; lia).
  assert (A3 : -1074 <= Zdigits2 (Z.pos m) + E - 53) by (rewrite Hd'; lia).
  assert (A4 : Zdigits2 (Z.pos m) + E - 53 + 1 <= 971) by (rewrite Hd'; lia).
  destruct (binary_round_aux_normal s (Z.pos m) E loc_Exact A1 A2 A3 A4)
    as (_ & _ & Hq & Hcases).
  cbv zeta in Hcases, Hq. rewrite Hd' in Hcases, Hq.
  change (2 ^ (53 - 53)) with 1 in Hq. rewrite Z.div_1_r in Hq.
  destruct (shr_fexp_exact (Z.pos m) E ltac:(lia)) as [Hle _].
  rewrite fexp64, Hd' in Hle. cbv zeta in Hle.
  destruct (Hle ltac:(lia)) as (H1 & _ & H3).
  rewrite H1, H3 in Hcases. cbn [round_nearest_even] in Hcases.
  destruct Hcases as [(_ & m' & Em & ->)|(HR & _)]; [|lia].
  injection Em as ->. f_equal. lia.
Qed.

(** An integer below 2^53 converts exactly: the double is the integer
    with its mantissa normalised to 53 digits. *)
Lemma ofInt_exact (n : Z) :
  0 < n < 2 ^ 53 ->
  exists m, float64.ofInt n = S754_finite false m (Zdigits2 n - 53) /\
            Z.pos m = n * 2 ^ (53 - Zdigits2 n) /\
            Z.pos (digits2_pos m) = 53.
Proof.
  intros [Hn Hlt]. destruct n as [|q|q]; try lia.
  pose proof (Zdigits2_le (Z.pos q) 53 ltac:(lia) Hlt) as Hd. simpl Zdigits2 in *.
  assert (Hd1 : 1 <= Z.pos (digits2_pos q)) by lia.
  unfold float64.ofInt, binary_normalize, binary_round, shl_align.
  rewrite fexp64.
  destruct (Z.max (Z.pos (digits2_pos q) + 0 - 53) (-1074) - 0) as [|k|k] eqn:Ek; try lia.
  - assert (E53 : Z.pos (digits2_pos q) = 53) by lia.
    exists q. rewrite binary_round_aux_exact by (try exact E53; lia).
    rewrite E53. simpl. split; [reflexivity|]. split; lia.
  - assert (Hk : Z.pos k = 53 - Z.pos (digits2_pos q)) by lia.
    replace (Z.max (Z.pos (digits2_pos q) + 0 - 53) (-1074))
      with (Z.pos (digits2_pos q) - 53) by lia.
    assert (Hdig : Z.pos (digits2_pos (Pos.iter xO q k)) = 53)
      by (rewrite digits2_pos_shift; lia).
    exists (Pos.iter xO q k).
    rewrite binary_round_aux_exact by (try exact Hdig; lia).
    split; [reflexivity|]. split; [|exact Hdig].
    pose proof (shift_pos_correct k q) as Hs. unfold shift_pos in Hs.
    rewrite Hs, Z.pow_pos_fold, <- Hk. lia.
Qed.

Example ofInt_100 :
  float64.ofInt 100 = S754_finite false 7036874417766400 (-46).
Proof. reflexivity. Qed.

(** A finite double divided by itself is one. *)
Lemma div_self (m : positive) (e : Z) :
  float64.div (S754_finite false m e) (S754_finite false m e) =
  S754_finite false 4503599627370496 (-52).
Proof.
  unfold float64.div, SFdiv, SFdiv_core_binary.
  replace (Zdigits2 (Z.pos m) + e - (Zdigits2 (Z.pos m) + e)) with 0 by lia.
  rewrite Z.sub_diag. rewrite fexp64.
  change (Z.min (Z.max (0 - 53) (-1074)) 0) with (-53).
  change (0 - -53) with 53.
  cbv beta iota zeta.
  rewrite Z.shiftl_mul_pow2 by lia.
  assert (Hq : Z.pos m * 2 ^ 53 / Z.pos m = 2 ^ 53).
  { rewrite Z.mul_comm. apply Z.div_mul. lia. }
  assert (Hr : (Z.pos m * 2 ^ 53) mod Z.pos m = 0).
  { rewrite Z.mul_comm. apply Z.mod_mul. lia. }
  unfold Z.div in Hq. unfold Z.modulo in Hr.
  destruct (Z.div_eucl (Z.pos m * 2 ^ 53) (Z.pos m)) as [q r].
  subst q r.
  assert (Hl : new_location (Z.pos m) 0 = loc_Exact).
  { unfold new_location, new_location_even, new_location_odd.
    destruct (Z.even (Z.pos m)); reflexivity. }
  rewrite Hl. reflexivity.
Qed.

Lemma digits_of_range (m : positive) :
  2 ^ 52 <= Z.pos m < 2 ^ 53 -> Z.pos (digits2_pos m) = 53.
Proof. intros H. apply (Zdigits2_eq (Z.pos m) 53); lia. Qed.

Lemma range_of_digits (m : positive) :
  Z.pos (digits2_pos m) = 53 -> 2 ^ 52 <= Z.pos m < 2 ^ 53.
Proof. intros H. pose proof (digits2_pos_bounds m) as B. rewrite H in B. exact B. Qed.

(** The quotient of two positive integers below 2^53, the smaller divided
    by the larger, is a normal double below one. *)
Lemma div_below_one (c t : Z) :
  0 < c -> c < t -> t < 2 ^ 53 ->
  exists m e,
    float64.div (float64.ofInt c) (float64.ofInt t) = S754_finite false m e /\
    Z.pos (digits2_pos m) = 53 /\ -106 <= e <= -53.
Proof.
  intros Hc Hct Ht.
  destruct (ofInt_exact c ltac:(lia)) as (mc & Ec & Vc & Dc).
  destruct (ofInt_exact t ltac:(lia)) as (mt & Et & Vt & Dt).
  destruct (Zdigits2_bounds c Hc) as (Hdc1 & Hclo & Hchi).
  destruct (Zdigits2_bounds t ltac:(lia)) as (Hdt1 & Htlo & Hthi).
  pose proof (Zdigits2_le t 53 ltac:(lia) Ht) as Hdt53.
  pose proof (Zdigits2_le c (Zdigits2 t) Hc ltac:(lia)) as Hdct.
  pose proof (range_of_digits mc Dc) as Rc.
  pose proof (range_of_digits mt Dt) as Rt.
  set (dc := Zdigits2 c) in *. set (dt := Zdigits2 t) in *.
  rewrite Ec, Et. unfold float64.div, SFdiv, SFdiv_core_binary. cbn [xorb].
  cbv zeta. simpl Zdigits2. rewrite Dc, Dt, fexp64.
  replace (Z.min (Z.max (53 + (dc - 53) - (53 + (dt - 53)) - 53) (-1074))
                 (dc - 53 - (dt - 53))) with (dc - dt - 53) by lia.
  replace (dc - 53 - (dt - 53) - (dc - dt - 53)) with 53 by lia.
  cbv iota. rewrite Z.shiftl_mul_pow2 by lia.
  pose proof (Z.div_mod (Z.pos mc * 2 ^ 53) (Z.pos mt) ltac:(lia)) as Hdm.
  pose proof (Z.mod_pos_bound (Z.pos mc * 2 ^ 53) (Z.pos mt) ltac:(lia)) as Hmod.
  unfold Z.div, Z.modulo in Hdm, Hmod.
  destruct (Z.div_eucl (Z.pos mc * 2 ^ 53) (Z.pos mt)) as [q r].
  set (l := new_location (Z.pos mt) r). clearbody l.
  (* the quotient has 53 or 54 digits *)
  assert (Hq : 2 ^ 52 <= q < 2 ^ 54) by nia.
  assert (Hdq : 53 <= Zdigits2 q <= 54).
  { destruct (Zdigits2_bounds q ltac:(lia)) as (_ & Hqlo & Hqhi).
    split.
    - destruct (Z.le_gt_cases 53 (Zdigits2 q)) as [?|Hlt]; [assumption|].
      assert (2 ^ Zdigits2 q <= 2 ^ 52) by (apply Z.pow_le_mono_r; lia). lia.
    - apply Zdigits2_le; lia. }
  destruct (binary_round_aux_normal false q (dc - dt - 53) l ltac:(lia) ltac:(lia)
              ltac:(lia) ltac:(lia)) as (_ & HR & HQ & Hcases).
  cbv zeta in HR, HQ, Hcases.
  set (R := round_nearest_even _ _) in *. clearbody R.
  (* the two facts that exclude a carry to one *)
  assert (Hsame : dc = dt -> q <= 2 ^ 53 - 2).
  { intros Ed. rewrite Ed in Vc.
    assert (Hp : 0 < 2 ^ (53 - dt)) by (apply Z.pow_pos_nonneg; lia).
    assert (Z.pos mc + 1 <= Z.pos mt) by nia. nia. }
  assert (Hnext : dc = dt - 1 -> q <= 2 ^ 54 - 3).
  { intros Ed. rewrite Ed in Vc.
    replace (53 - (dt - 1)) with (Z.succ (53 - dt)) in Vc by lia.
    rewrite Z.pow_succ_r in Vc by lia.
    assert (Hp : 0 < 2 ^ (53 - dt)) by (apply Z.pow_pos_nonneg; lia).
    set (P := 2 ^ (53 - dt)) in *.
    assert (Hle : Z.pos mc + 2 * P <= 2 * Z.pos mt) by nia.
    assert (HP53 : Z.pos mt < 2 ^ 53 * P) by nia.
    destruct (Z.le_gt_cases q (2 ^ 54 - 3)) as [?|Hgt]; [assumption|].
    exfalso. nia. }
  destruct (Z.eq_dec (Zdigits2 q) 53) as [E53|E54].
  - (* 53 digits: the dividend's mantissa is the smaller one *)
    rewrite E53 in *. change (2 ^ (53 - 53)) with 1 in *. rewrite Z.div_1_r in *.
    destruct Hcases as [(HRlt & m & Em & ->)|(HR53 & ->)].
    + exists m, (dc - dt - 53 + (53 - 53)). split; [reflexivity|].
      split; [apply digits_of_range; lia|lia].
    + exists (2 ^ 52)%positive, (dc - dt - 53 + (53 - 53) + 1).
      split; [reflexivity|]. split; [reflexivity|].
      destruct (Z.eq_dec dc dt) as [Ed|Hne]; [specialize (Hsame Ed); lia|lia].
  - assert (E : Zdigits2 q = 54) by lia. rewrite E in *.
    change (2 ^ (54 - 53)) with 2 in *.
    assert (Hq53 : 2 ^ 53 <= q).
    { destruct (Zdigits2_bounds q ltac:(lia)) as (_ & Hqlo & _). rewrite E in Hqlo.
      exact Hqlo. }
    assert (Hne : dc <> dt) by (intros Ed; specialize (Hsame Ed); lia).
    destruct Hcases as [(HRlt & m & Em & ->)|(HR53 & ->)].
    + exists m, (dc - dt - 53 + (54 - 53)). split; [reflexivity|].
      split; [apply digits_of_range; lia|lia].
    + exists (2 ^ 52)%positive, (dc - dt - 53 + (54 - 53) + 1).
      split; [reflexivity|]. split; [reflexivity|].
      destruct (Z.eq_dec dc (dt - 1)) as [Ed|Hne2]; [|lia].
      specialize (Hnext Ed).
      assert (q / 2 < 2 ^ 53 - 1) by (apply Z.div_lt_upper_bound; lia). lia.
Qed.

Lemma shr_1_r (mrs : shr_record) :
  0 <= shr_m mrs -> shr_r (shr_1 mrs) = Z.odd (shr_m mrs).
Proof.
  destruct mrs as [m r s]. destruct m as [|[q|q|]|q]; cbn [shr_1 shr_m shr_r]; intros H;
    try reflexivity. lia.
Qed.

(** The round bit after a shift by [k] digits is digit [k - 1] of the
    mantissa. *)
Lemma iter_shr_1_r (k : positive) :
  forall mrs, 0 <= shr_m mrs ->
    shr_r (SpecFloat.iter_pos shr_1 k mrs) = Z.odd (shr_m mrs / 2 ^ (Z.pos k - 1)).
Proof.
  assert (Hpos : forall j : Z, 0 <= j -> 0 < 2 ^ j)
    by (intros j Hj; apply Z.pow_pos_nonneg; lia).
  induction k as [k IH|k IH|]; intros mrs H; cbn [SpecFloat.iter_pos].
  - rewrite IH by (apply iter_shr_1_nonneg, shr_1_nonneg, H).
    rewrite iter_shr_1_m by (apply shr_1_nonneg, H).
    rewrite shr_1_m by exact H.
    pose proof (Hpos (Z.pos k) ltac:(lia)). pose proof (Hpos (Z.pos k - 1) ltac:(lia)).
    rewrite !Z.div_div by lia. f_equal. f_equal.
    rewrite <- Z.pow_add_r by lia.
    replace (2 * 2 ^ (Z.pos k + (Z.pos k - 1))) with (2 ^ (Z.succ (Z.pos k + (Z.pos k - 1))))
      by (rewrite Z.pow_succ_r by lia; reflexivity).
    f_equal. rewrite (Pos2Z.inj_xI k). lia.
  - rewrite IH by (apply iter_shr_1_nonneg, H).
    rewrite iter_shr_1_m by exact H.
    pose proof (Hpos (Z.pos k) ltac:(lia)). pose proof (Hpos (Z.pos k - 1) ltac:(lia)).
    rewrite !Z.div_div by lia. f_equal. f_equal.
    rewrite <- Z.pow_add_r by lia.
    f_equal. rewrite (Pos2Z.inj_xO k). lia.
  - rewrite shr_1_r by exact H. simpl. now rewrite Z.div_1_r.
Qed.

Lemma round_up_r (mrs : shr_record) :
  round_nearest_even (shr_m mrs) (loc_of_shr_record mrs) <> shr_m mrs ->
  shr_r mrs = true.
Proof. destruct mrs as [m [|] [|]]; simpl; congruence. Qed.

Lemma odd_div_bound (M k : Z) :
  0 <= M -> 0 < k -> Z.odd (M / 2 ^ (k - 1)) = true ->
  2 ^ k * (M / 2 ^ k) + 2 ^ (k - 1) <= M.
Proof.
  intros HM Hk Hodd.
  assert (Hp : 0 < 2 ^ (k - 1)) by (apply Z.pow_pos_nonneg; lia).
  assert (Ek : 2 ^ k = 2 ^ (k - 1) * 2).
  { replace k with (Z.succ (k - 1)) at 1 by lia. rewrite Z.pow_succ_r by lia. lia. }
  set (h := M / 2 ^ (k - 1)) in *.
  assert (Hh : M / 2 ^ k = h / 2) by (rewrite Ek, <- Z.div_div by lia; reflexivity).
  pose proof (Z.mul_div_le M (2 ^ (k - 1)) Hp) as Hle. fold h in Hle.
  pose proof (Z.div_mod h 2 ltac:(lia)) as Hdm.
  rewrite Zmod_odd, Hodd in Hdm.
  rewrite Hh, Ek. nia.
Qed.

(** When rounding an exact mantissa of more than 53 digits goes up, the
    discarded digits are at least half a unit of the last kept digit. *)
Lemma round_up_half (M E : Z) :
  0 < M -> 53 < Zdigits2 M -> -1074 <= Zdigits2 M + E - 53 ->
  let k := Zdigits2 M - 53 in
  let mrs := fst (shr_fexp float64.prec float64.emax M E loc_Exact) in
  round_nearest_even (shr_m mrs) (loc_of_shr_record mrs) <> shr_m mrs ->
  2 ^ k * (M / 2 ^ k) + 2 ^ (k - 1) <= M.
Proof.
  intros HM Hd Hlo k mrs Hup.
  apply round_up_r in Hup. apply odd_div_bound; [lia|unfold k; lia|].
  rewrite <- Hup. unfold mrs, shr_fexp. rewrite fexp64.
  replace (Z.max (Zdigits2 M + E - 53) (-1074) - E) with k by (unfold k; lia).
  unfold shr. destruct k as [|q|q] eqn:Ek; try (unfold k in Ek; lia).
  cbn [fst]. rewrite iter_shr_1_r by (simpl; lia). reflexivity.
Qed.

(** A normal double below one times 100 is not 100. *)
Lemma mul_100_below (mx : positive) (ex : Z) :
  Z.pos (digits2_pos mx) = 53 -> -106 <= ex <= -53 ->
  SFeqb (float64.mul (S754_finite false mx ex) (float64.ofInt 100)) (float64.ofInt 100)
  = false.
Proof.
  intros Hd Hex. rewrite ofInt_100. unfold float64.mul, SFmul. cbn [xorb].
  pose proof (range_of_digits mx Hd) as Rx.
  set (m100 := 7036874417766400%positive).
  assert (Hm100 : Z.pos m100 = 7036874417766400) by reflexivity.
  assert (HM : Z.pos (mx * m100) = Z.pos mx * 7036874417766400)
    by (rewrite Pos2Z.inj_mul, Hm100; reflexivity).
  set (M := Z.pos (mx * m100)) in *.
  assert (HMr : 2 ^ 104 <= M < 2 ^ 106) by (rewrite HM; lia).
  assert (HdM : 105 <= Zdigits2 M <= 106).
  { destruct (Zdigits2_bounds M ltac:(lia)) as (_ & Hlo & Hhi).
    split.
    - destruct (Z.le_gt_cases 105 (Zdigits2 M)) as [?|Hlt]; [assumption|].
      assert (2 ^ Zdigits2 M <= 2 ^ 104) by (apply Z.pow_le_mono_r; lia). lia.
    - apply Zdigits2_le; lia. }
  destruct (binary_round_aux_normal false M (ex + -46) loc_Exact ltac:(lia) ltac:(lia)
              ltac:(lia) ltac:(lia)) as (Hm & HR & HQ & Hcases).
  pose proof (round_up_half M (ex + -46) ltac:(lia) ltac:(lia) ltac:(lia)) as Hhalf.
  cbv zeta in Hm, HR, HQ, Hcases, Hhalf.
  set (mrs := fst (shr_fexp float64.prec float64.emax M (ex + -46) loc_Exact)) in *.
  set (R := round_nearest_even (shr_m mrs) (loc_of_shr_record mrs)) in *.
  unfold SFeqb, SFcompare.
  destruct Hcases as [(HRlt & m & Em & ->)|(HR53 & ->)].
  - destruct (Z.compare_spec (ex + -46 + (Zdigits2 M - 53)) (-46)) as [Ee|_|_];
      try reflexivity.
    destruct (Pos.compare_cont Eq m m100) eqn:Ec; try reflexivity.
    exfalso. apply Pos.compare_eq in Ec. subst m.
    assert (E106 : Zdigits2 M = 106) by lia. rewrite E106 in *.
    change (106 - 53) with 53 in *. change (53 - 1) with 52 in *.
    assert (Hlt : M / 2 ^ 53 < Z.pos m100).
    { apply Z.div_lt_upper_bound; [lia|]. rewrite HM, Hm100. lia. }
    assert (Hup : R <> shr_m mrs) by (rewrite Hm; lia).
    specialize (Hhalf Hup). rewrite HM, Hm100 in *. lia.
  - destruct (Z.compare_spec (ex + -46 + (Zdigits2 M - 53) + 1) (-46)) as [Ee|_|_];
      reflexivity.
Qed.

(** The consistency rate of [c] consistent users among [t]: exactly 100
    when all are consistent, and not 100 otherwise. *)
Lemma rate_is_100 (c t : Z) :
  0 <= c <= t -> 0 < t < 2 ^ 53 ->
  SFeqb (float64.mul (float64.div (float64.ofInt c) (float64.ofInt t)) (float64.ofInt 100))
        (float64.ofInt 100) = (c =? t).
Proof.
  intros Hc Ht. destruct (Z.eqb_spec c t) as [->|Hne].
  - destruct (ofInt_exact t Ht) as (m & -> & _). rewrite div_self. reflexivity.
  - destruct (Z.eq_dec c 0) as [->|Hc0].
    + destruct (ofInt_exact t Ht) as (m & -> & _). reflexivity.
    + destruct (div_below_one c t ltac:(lia) ltac:(lia) ltac:(lia)) as (m & e & -> & Hd & He).
      apply mul_100_below; assumption.
Qed.

(** ** The verifier: order of the workers' updates *)






(** ** The verifier: what the map holds *)

Lemma wrapS_small (x : Z) : - 2 ^ 63 <= x < 2 ^ 63 -> Go.wrapS 64 x = x.
Proof. intros H. unfold Go.wrapS. rewrite Z.mod_small; lia. Qed.

Lemma incr_small (x : Z) : 0 <= x -> x + 1 < 2 ^ 63 -> allocationtest.incr x = x + 1.
Proof. intros H0 H1. unfold allocationtest.incr, Go.intBits. apply wrapS_small. lia. Qed.

Lemma record_lookup (m : gmap string (gmap string Z)) (u q v p : string) :
  default ∅ (allocationtest.record m u q !! v) !! p =
  if decide (u = v /\ q = p)
  then Some (allocationtest.incr (default 0 (default ∅ (m !! v) !! p)))
  else default ∅ (m !! v) !! p.
Proof.
  unfold allocationtest.record.
  destruct (decide (u = v)) as [->|Hne].
  - rewrite lookup_insert_eq. cbn [default from_option id].
    destruct (decide (q = p)) as [->|Hqp].
    + rewrite lookup_insert_eq, decide_True by auto. reflexivity.
    + rewrite lookup_insert_ne by exact Hqp. rewrite decide_False by tauto. reflexivity.
  - rewrite lookup_insert_ne by exact Hne. rewrite decide_False by tauto. reflexivity.
Qed.

Lemma runWorkers_snoc (items : list (string * option string)) (w : string * option string) :
  allocationtest.runWorkers (items ++ [w]) =
  allocationtest.work (allocationtest.runWorkers items) w.
Proof. unfold allocationtest.runWorkers. now rewrite fold_left_app. Qed.

Lemma len_snoc {A} (l : list A) (a : A) : Go.len (l ++ [a]) = Go.len l + 1.
Proof. unfold Go.len. rewrite length_app. simpl. lia. Qed.

Lemma filter_snoc {A} (f : A -> bool) (l : list A) (a : A) :
  Go.len (List.filter f (l ++ [a])) = Go.len (List.filter f l) + (if f a then 1 else 0).
Proof.
  rewrite List.filter_app. unfold Go.len. rewrite length_app. simpl.
  destruct (f a); simpl; lia.
Qed.

Lemma observed_true (v p u : string) (reply : option string) :
  allocationtest.observed v p (u, reply) = true <-> u = v /\ reply = Some p.
Proof.
  unfold allocationtest.observed. cbn [fst snd].
  destruct (String.eqb_spec u v) as [->|Hne]; cbn [andb].
  - destruct reply as [q|].
    + destruct (String.eqb_spec q p) as [->|Hqp]; split; auto; try discriminate.
      intros [_ E]. congruence.
    + split; [discriminate|intros [_ E]; discriminate].
  - split; [discriminate|intros [E _]; congruence].
Qed.

(** The inner map of user [v] holds for each payload name the number of
    successful requests of [v] that were answered with it, and nothing for a
    name that was never observed. *)
Lemma workers_inner (v p : string) (items : list (string * option string)) :
  Go.len items < 2 ^ 63 ->
  default ∅ (allocationtest.userPayloads (allocationtest.runWorkers items) !! v) !! p =
  let c := Go.len (List.filter (allocationtest.observed v p) items) in
  if 0 <? c then Some c else None.
Proof.
  induction items as [|[u reply] items IH] using rev_ind; intros Hb.
  - reflexivity.
  - rewrite len_snoc in Hb. specialize (IH ltac:(unfold Go.len in *; lia)).
    cbv zeta in *. rewrite runWorkers_snoc, work_userPayloads, filter_snoc.
    pose proof (len_filter_le (allocationtest.observed v p) items) as Hc.
    cbn [fst snd]. destruct reply as [q|].
    + rewrite record_lookup. destruct (decide (u = v /\ q = p)) as [[-> ->]|Hn].
      * rewrite (proj2 (observed_true v p v (Some p))) by auto. rewrite IH.
        destruct (0 <? Go.len (List.filter (allocationtest.observed v p) items)) eqn:E;
          cbn [default from_option id].
        -- rewrite incr_small by lia. apply Z.ltb_lt in E.
           destruct (Z.ltb_spec 0 (Go.len (List.filter (allocationtest.observed v p) items) + 1));
             [reflexivity|lia].
        -- apply Z.ltb_ge in E.
           replace (Go.len (List.filter (allocationtest.observed v p) items)) with 0 by lia.
           reflexivity.
      * destruct (allocationtest.observed v p (u, Some q)) eqn:E.
        -- apply observed_true in E. destruct E as [-> [= ->]]. tauto.
        -- rewrite Z.add_0_r. exact IH.
    + destruct (allocationtest.observed v p (u, None)) eqn:E.
      * apply observed_true in E. destruct E as [_ E]. discriminate.
      * rewrite Z.add_0_r. exact IH.
Qed.

Lemma record_inner (m : gmap string (gmap string Z)) (u q v : string) :
  default ∅ (allocationtest.record m u q !! v) =
  if decide (u = v)
  then <[q := allocationtest.incr (default 0 (default ∅ (m !! v) !! q))]>
         (default ∅ (m !! v))
  else default ∅ (m !! v).
Proof.
  unfold allocationtest.record.
  destruct (decide (u = v)) as [->|Hne].
  - rewrite lookup_insert_eq. reflexivity.
  - rewrite lookup_insert_ne by exact Hne. reflexivity.
Qed.


Lemma sumCounts_perm (l l' : list (string * Z)) :
  Permutation l l' -> allocationtest.sumCounts l = allocationtest.sumCounts l'.
Proof.
  unfold allocationtest.sumCounts.
  intros HP. induction HP as [|x l l' _ IH|x y l|l l' l'' _ IH1 _ IH2]; simpl; lia.
Qed.

Lemma sumCounts_insert (inner : gmap string Z) (q : string) (c : Z) :
  allocationtest.sumCounts (map_to_list (<[q := c]> inner)) =
  allocationtest.sumCounts (map_to_list inner) - default 0 (inner !! q) + c.
Proof.
  destruct (inner !! q) as [old|] eqn:E; cbn [default from_option id].
  - rewrite <- (insert_delete_id inner q old E) at 2.
    rewrite <- (insert_delete_eq inner q c).
    rewrite (sumCounts_perm _ _ (map_to_list_insert (delete q inner) q c
                                   (lookup_delete_eq inner q))).
    rewrite (sumCounts_perm _ _ (map_to_list_insert (delete q inner) q old
                                   (lookup_delete_eq inner q))).
    unfold allocationtest.sumCounts. simpl. lia.
  - rewrite (sumCounts_perm _ _ (map_to_list_insert inner q c E)).
    unfold allocationtest.sumCounts. simpl. lia.
Qed.

Lemma sumCounts_cons (e : string * Z) (l : list (string * Z)) :
  allocationtest.sumCounts (e :: l) = snd e + allocationtest.sumCounts l.
Proof. reflexivity. Qed.

Lemma sumCounts_nonneg (l : list (string * Z)) :
  (forall e, In e l -> 0 <= snd e) -> 0 <= allocationtest.sumCounts l.
Proof.
  induction l as [|e l IH]; intros Hpos.
  - unfold allocationtest.sumCounts. simpl. lia.
  - rewrite sumCounts_cons.
    pose proof (Hpos e (or_introl eq_refl)).
    assert (0 <= allocationtest.sumCounts l) by (apply IH; intros e' H'; apply Hpos; right; exact H').
    lia.
Qed.

Lemma fold_wrap_sum (l : list (string * Z)) :
  forall acc : Z,
    0 <= acc -> (forall e, In e l -> 0 <= snd e) ->
    acc + allocationtest.sumCounts l < 2 ^ 63 ->
    fold_left (fun acc '(_, count) => Go.wrapS Go.intBits (acc + count)) l acc =
    acc + allocationtest.sumCounts l.
Proof.
  induction l as [|[k c] l IH]; intros acc H0 Hpos Hb.
  - unfold allocationtest.sumCounts. simpl. lia.
  - rewrite sumCounts_cons in *. cbn [snd fold_left] in *.
    assert (Hc : 0 <= c) by (apply (Hpos (k, c)); left; reflexivity).
    assert (Hl : forall e, In e l -> 0 <= snd e) by (intros e He; apply Hpos; right; exact He).
    pose proof (sumCounts_nonneg l Hl) as Hs.
    unfold Go.intBits. rewrite wrapS_small by lia.
    fold Go.intBits. rewrite IH; [lia|lia|exact Hl|lia].
Qed.

Lemma observed_count_pos (v p : string) (items : list (string * option string)) :
  0 < Go.len (List.filter (allocationtest.observed v p) items) <->
  In (v, Some p) items.
Proof.
  split.
  - intros H. destruct (List.filter (allocationtest.observed v p) items) as [|[u r] l] eqn:E.
    + unfold Go.len in H. simpl in H. lia.
    + assert (Hin : In (u, r) (List.filter (allocationtest.observed v p) items))
        by (rewrite E; left; reflexivity).
      apply List.filter_In in Hin. destruct Hin as [Hin Ho].
      apply observed_true in Ho. destruct Ho as [-> ->]. exact Hin.
  - intros Hin.
    assert (Hf : In (v, Some p) (List.filter (allocationtest.observed v p) items)).
    { apply List.filter_In. split; [exact Hin|]. apply observed_true. auto. }
    destruct (List.filter (allocationtest.observed v p) items); [destruct Hf|].
    unfold Go.len. simpl. lia.
Qed.

(** The entries of the inner map of [v]. *)
Lemma workers_inner_Some (v p : string) (c : Z) (items : list (string * option string)) :
  Go.len items < 2 ^ 63 ->
  default ∅ (allocationtest.userPayloads (allocationtest.runWorkers items) !! v) !! p = Some c ->
  c = Go.len (List.filter (allocationtest.observed v p) items) /\ 0 < c /\
  In (v, Some p) items.
Proof.
  intros Hb H. rewrite workers_inner in H by exact Hb. cbv zeta in H.
  destruct (Z.ltb_spec 0 (Go.len (List.filter (allocationtest.observed v p) items)))
    as [Hpos|]; [|discriminate].
  injection H as <-. repeat split; [exact Hpos|]. apply observed_count_pos, Hpos.
Qed.

Lemma workers_inner_default (v p : string) (items : list (string * option string)) :
  Go.len items < 2 ^ 63 ->
  default 0 (default ∅ (allocationtest.userPayloads (allocationtest.runWorkers items) !! v) !! p) =
  Go.len (List.filter (allocationtest.observed v p) items).
Proof.
  intros Hb. rewrite workers_inner by exact Hb. cbv zeta.
  pose proof (len_filter_le (allocationtest.observed v p) items).
  destruct (Z.ltb_spec 0 (Go.len (List.filter (allocationtest.observed v p) items)));
    cbn [default from_option id]; lia.
Qed.

(** The counts in the inner map of [v] add up to the number of successful
    requests of [v]. *)
Lemma workers_sum (v : string) (items : list (string * option string)) :
  Go.len items < 2 ^ 63 ->
  allocationtest.sumCounts (map_to_list
               (default ∅ (allocationtest.userPayloads (allocationtest.runWorkers items) !! v))) =
  Go.len (List.filter (fun w => allocationtest.ofUser v w && allocationtest.succeeded w) items).
Proof.
  induction items as [|[u reply] items IH] using rev_ind; intros Hb.
  - reflexivity.
  - rewrite len_snoc in Hb. assert (Hb' : Go.len items < 2 ^ 63) by (unfold Go.len in *; lia).
    specialize (IH Hb').
    rewrite runWorkers_snoc, work_userPayloads, filter_snoc.
    unfold allocationtest.ofUser, allocationtest.succeeded. cbn [fst snd].
    destruct reply as [q|].
    + rewrite record_inner. destruct (decide (u = v)) as [->|Hne].
      * rewrite String.eqb_refl. cbn [andb].
        rewrite sumCounts_insert, workers_inner_default by exact Hb'.
        pose proof (len_filter_le (allocationtest.observed v q) items).
        rewrite incr_small by lia.
        unfold allocationtest.ofUser, allocationtest.succeeded in IH. lia.
      * destruct (String.eqb_spec u v); [congruence|]. cbn [andb].
        unfold allocationtest.ofUser, allocationtest.succeeded in IH. lia.
    + rewrite andb_false_r.
      unfold allocationtest.ofUser, allocationtest.succeeded in IH. lia.
Qed.

Lemma primary_fold (l : list (string * Z)) :
  forall acc : string * Z,
    let r := fold_left (fun '(primaryPayload, maxCount) '(payload, count) =>
                          if maxCount <? count then (payload, count)
                          else (primaryPayload, maxCount)) l acc in
    snd acc <= snd r /\
    (forall e, In e l -> snd e <= snd r) /\
    (r = acc \/ In r l).
Proof.
  induction l as [|[q d] l IH]; intros [p0 c0]; cbn [fold_left snd]; cbv zeta.
  - cbn [snd]. split; [lia|]. split; [intros e []|left; reflexivity].
  - destruct (Z.ltb_spec c0 d) as [Hlt|Hge].
    + specialize (IH (q, d)). cbv zeta in IH. cbn [snd] in IH.
      destruct IH as (H1 & H2 & H3).
      split; [lia|]. split.
      * intros e [<-|He]; [exact H1|apply H2, He].
      * right. destruct H3 as [->|H3]; [left; reflexivity|right; exact H3].
    + specialize (IH (p0, c0)). cbv zeta in IH. cbn [snd] in IH.
      destruct IH as (H1 & H2 & H3).
      split; [lia|]. split.
      * intros e [<-|He]; [cbn [snd]; lia|apply H2, He].
      * destruct H3 as [->|H3]; [left; reflexivity|right; right; exact H3].
Qed.

(** The primary payload of a non-empty list of entries with positive counts
    is one of the entries, and no entry has a larger count. *)
Lemma primary_max (l : list (string * Z)) :
  l <> [] -> (forall e, In e l -> 0 < snd e) ->
  In (allocationtest.primary l) l /\
  forall e, In e l -> snd e <= snd (allocationtest.primary l).
Proof.
  intros Hne Hpos. unfold allocationtest.primary.
  destruct (primary_fold l (""%string, 0)) as (H1 & H2 & H3). cbv zeta in *.
  split; [|exact H2].
  destruct H3 as [E|H3]; [|exact H3].
  destruct l as [|e l]; [congruence|].
  pose proof (H2 e (or_introl eq_refl)) as He.
  pose proof (Hpos e (or_introl eq_refl)) as Hp.
  rewrite E in He. cbn [snd] in He. lia.
Qed.

Lemma analyzeUsers_records (l : list (string * gmap string Z)) :
  forall r : allocationtest.TestResults,
    allocationtest.UserAllocations (fold_left allocationtest.analyzeUser l r) =
    allocationtest.UserAllocations r ++
    List.map (fun e : string * gmap string Z =>
                {| allocationtest.UserID := fst e;
                   allocationtest.PayloadName :=
                     fst (allocationtest.primary (map_to_list (snd e)));
                   allocationtest.RequestCount :=
                     fold_left (fun acc '(_, count) => Go.wrapS Go.intBits (acc + count))
                               (map_to_list (snd e)) 0;
                   allocationtest.Consistent := Z.of_nat (size (snd e)) =? 1 |}) l.
Proof.
  induction l as [|[userID payloads] l IH]; intros r; cbn [fold_left List.map].
  - now rewrite app_nil_r.
  - rewrite IH. cbn [allocationtest.analyzeUser allocationtest.UserAllocations fst snd].
    rewrite <- app_assoc. reflexivity.
Qed.

(** Each per-user record is computed from the inner map of its user. *)
Lemma analyzeResults_records (m : gmap string (gmap string Z)) (rpu d t s f : Z)
      (a : allocationtest.UserAllocation) :
  In a (allocationtest.UserAllocations (allocationtest.analyzeResults m rpu d t s f)) ->
  exists inner,
    m !! allocationtest.UserID a = Some inner /\
    allocationtest.PayloadName a = fst (allocationtest.primary (map_to_list inner)) /\
    allocationtest.RequestCount a =
      fold_left (fun acc '(_, count) => Go.wrapS Go.intBits (acc + count))
                (map_to_list inner) 0 /\
    allocationtest.Consistent a = (Z.of_nat (size inner) =? 1).
Proof.
  unfold allocationtest.analyzeResults. cbn [allocationtest.UserAllocations].
  rewrite analyzeUsers_records. cbn [allocationtest.UserAllocations app].
  intros Hin. apply in_map_iff in Hin. destruct Hin as ([k inner] & <- & Hkv).
  apply list_elem_of_In, elem_of_map_to_list in Hkv.
  exists inner. cbn. auto.
Qed.

Lemma size_one_key (m : gmap string Z) (p q : string) :
  size m = 1%nat -> is_Some (m !! p) -> is_Some (m !! q) -> p = q.
Proof.
  intros Hs [x Hp] [y Hq]. rewrite <- length_map_to_list in Hs.
  apply elem_of_map_to_list in Hp, Hq.
  destruct (map_to_list m) as [|e [|e' l]]; try discriminate.
  apply list_elem_of_singleton in Hp, Hq. congruence.
Qed.

Lemma one_key_size (m : gmap string Z) (p : string) :
  (forall k, is_Some (m !! k) <-> k = p) -> size m = 1%nat.
Proof.
  intros H. destruct (proj2 (H p) eq_refl) as [x Hx].
  assert (E : m = {[p := x]}).
  { apply map_eq. intros k. destruct (decide (k = p)) as [->|Hne].
    - now rewrite lookup_singleton_eq.
    - rewrite lookup_singleton_ne by congruence.
      apply eq_None_not_Some. rewrite H. exact Hne. }
  rewrite E. apply map_size_singleton.
Qed.

Lemma list_fmap_map {A B} (f : A -> B) (l : list A) : f <$> l = List.map f l.
Proof. induction l as [|a l IH]; [reflexivity|]. cbn. now rewrite <- IH. Qed.

(** The inner map behind a per-user record of a run. *)
Lemma run_record_inner (items : list (string * option string)) (rpu d : Z)
      (a : allocationtest.UserAllocation) :
  In a (allocationtest.UserAllocations (allocationtest.runAllocationTest items rpu d)) ->
  exists inner,
    allocationtest.userPayloads (allocationtest.runWorkers items) !! allocationtest.UserID a
      = Some inner /\
    allocationtest.PayloadName a = fst (allocationtest.primary (map_to_list inner)) /\
    allocationtest.RequestCount a =
      fold_left (fun acc '(_, count) => Go.wrapS Go.intBits (acc + count))
                (map_to_list inner) 0 /\
    allocationtest.Consistent a = (Z.of_nat (size inner) =? 1) /\
    exists p0, In (allocationtest.UserID a, Some p0) items.
Proof.
  intros Hin. unfold allocationtest.runAllocationTest in Hin.
  apply analyzeResults_records in Hin. destruct Hin as (inner & Hm & H1 & H2 & H3).
  exists inner. repeat split; try assumption.
  assert (Hs : is_Some (allocationtest.userPayloads (allocationtest.runWorkers items)
                          !! allocationtest.UserID a)) by eauto.
  unfold allocationtest.runWorkers in Hs. rewrite workers_record_successes in Hs.
  destruct Hs as [[? Hs]|Hs]; [|exact Hs].
  simpl in Hs. rewrite lookup_empty in Hs. discriminate.
Qed.

Lemma run_record_users (items : list (string * option string)) (rpu d : Z) :
  let res := allocationtest.runAllocationTest items rpu d in
  NoDup (List.map allocationtest.UserID (allocationtest.UserAllocations res)) /\
  forall v, In v (List.map allocationtest.UserID (allocationtest.UserAllocations res)) <->
            exists payload, In (v, Some payload) items.
Proof.
  cbv zeta. unfold allocationtest.runAllocationTest, allocationtest.analyzeResults.
  cbn [allocationtest.UserAllocations]. rewrite analyzeUsers_ids.
  cbn [allocationtest.UserAllocations List.map app].
  split.
  - rewrite <- list_fmap_map. apply NoDup_fst_map_to_list.
  - intros v. rewrite in_map_iff. split.
    + intros ([k inner] & <- & Hin). cbn [fst].
      apply list_elem_of_In, elem_of_map_to_list in Hin.
      assert (Hs : is_Some (allocationtest.userPayloads (allocationtest.runWorkers items) !! k))
        by eauto.
      unfold allocationtest.runWorkers in Hs. rewrite workers_record_successes in Hs.
      destruct Hs as [[? Hs]|Hs]; [|exact Hs].
      simpl in Hs. rewrite lookup_empty in Hs. discriminate.
    + intros Hp.
      assert (Hs : is_Some (allocationtest.userPayloads (allocationtest.runWorkers items) !! v)).
      { unfold allocationtest.runWorkers. rewrite workers_record_successes. right. exact Hp. }
      destruct Hs as [inner Hs]. exists (v, inner). split; [reflexivity|].
      apply list_elem_of_In, elem_of_map_to_list. exact Hs.
Qed.

(** X2.  There is exactly one per-user record for each user with at least one
    successful request, and none for any other user. *)
Theorem one_record_per_answered_user (items : list (string * option string))
        (requestsPerUser duration : Z) :
  let res := allocationtest.runAllocationTest items requestsPerUser duration in
  NoDup (List.map allocationtest.UserID (allocationtest.UserAllocations res)) /\
  forall v, In v (List.map allocationtest.UserID (allocationtest.UserAllocations res)) <->
            exists payload, In (v, Some payload) items.
Proof. apply run_record_users. Qed.

(** X3.  The request count of a per-user record is the number of that user's
    successful requests, which is at least one. *)
Theorem record_counts_successes (items : list (string * option string))
        (requestsPerUser duration : Z) (a : allocationtest.UserAllocation) :
  Go.len items < 2 ^ 63 ->
  In a (allocationtest.UserAllocations
          (allocationtest.runAllocationTest items requestsPerUser duration)) ->
  allocationtest.RequestCount a =
    Go.len (List.filter (fun w => allocationtest.ofUser (allocationtest.UserID a) w
                                  && allocationtest.succeeded w) items) /\
  1 <= allocationtest.RequestCount a.
Proof.
  intros Hb Hin.
  destruct (run_record_inner items _ _ a Hin) as (inner & Hm & _ & Hc & _ & p0 & Hp0).
  pose proof (workers_sum (allocationtest.UserID a) items Hb) as Hsum.
  rewrite Hm in Hsum. cbn [default from_option id] in Hsum.
  pose proof (len_filter_le (fun w => allocationtest.ofUser (allocationtest.UserID a) w
                                      && allocationtest.succeeded w) items) as Hle.
  assert (Hpos : forall e, In e (map_to_list inner) -> 0 <= snd e).
  { intros [p c] He. apply list_elem_of_In, elem_of_map_to_list in He.
    destruct (workers_inner_Some (allocationtest.UserID a) p c items Hb) as (_ & H0 & _).
    - rewrite Hm. exact He.
    - cbn [snd]. lia. }
  rewrite Hc, fold_wrap_sum by (try exact Hpos; lia).
  split; [lia|]. rewrite Z.add_0_l, Hsum.
  assert (Hf : In (allocationtest.UserID a, Some p0)
                  (List.filter (fun w => allocationtest.ofUser (allocationtest.UserID a) w
                                         && allocationtest.succeeded w) items)).
  { apply List.filter_In. split; [exact Hp0|].
    unfold allocationtest.ofUser, allocationtest.succeeded. cbn [fst snd].
    now rewrite String.eqb_refl. }
  destruct (List.filter _ items); [destruct Hf|]. unfold Go.len. simpl. lia.
Qed.

Lemma record_counts_successes_witness :
  allocationtest.RequestCount
    {| allocationtest.UserID := "alice"; allocationtest.PayloadName := "a.json";
       allocationtest.RequestCount := 2; allocationtest.Consistent := true |} =
  Go.len (List.filter
            (fun w => allocationtest.ofUser "alice" w && allocationtest.succeeded w)
            [("alice"%string, Some "a.json"%string); ("bob"%string, None);
             ("alice"%string, Some "a.json"%string)]) /\
  1 <= allocationtest.RequestCount
         {| allocationtest.UserID := "alice"; allocationtest.PayloadName := "a.json";
            allocationtest.RequestCount := 2; allocationtest.Consistent := true |}.
Proof.
  apply (record_counts_successes
           [("alice"%string, Some "a.json"%string); ("bob"%string, None);
            ("alice"%string, Some "a.json"%string)] 2 1000
           {| allocationtest.UserID := "alice"; allocationtest.PayloadName := "a.json";
              allocationtest.RequestCount := 2; allocationtest.Consistent := true |}).
  - vm_compute. reflexivity.
  - vm_compute. left. reflexivity.
Defined.

Lemma record_consistent_iff (items : list (string * option string))
      (requestsPerUser duration : Z) (a : allocationtest.UserAllocation) :
  Go.len items < 2 ^ 63 ->
  In a (allocationtest.UserAllocations
          (allocationtest.runAllocationTest items requestsPerUser duration)) ->
  allocationtest.Consistent a = true <->
  forall p q, In (allocationtest.UserID a, Some p) items ->
              In (allocationtest.UserID a, Some q) items -> p = q.
Proof.
  intros Hb Hin.
  destruct (run_record_inner items _ _ a Hin) as (inner & Hm & _ & _ & Hc & p0 & Hp0).
  assert (Hkey : forall k, is_Some (inner !! k) <-> In (allocationtest.UserID a, Some k) items).
  { intros k. pose proof (workers_inner (allocationtest.UserID a) k items Hb) as Hk.
    rewrite Hm in Hk. cbn [default from_option id] in Hk. cbv zeta in Hk.
    rewrite <- observed_count_pos. rewrite Hk.
    destruct (Z.ltb_spec 0 (Go.len (List.filter
                (allocationtest.observed (allocationtest.UserID a) k) items))).
    - split; [auto|eauto].
    - split; [intros [? ?]; discriminate|lia]. }
  rewrite Hc. split.
  - intros Hone p q Hp Hq. apply Z.eqb_eq in Hone.
    apply (size_one_key inner p q); [lia|apply Hkey, Hp|apply Hkey, Hq].
  - intros Hsame. apply Z.eqb_eq.
    rewrite (one_key_size inner p0); [reflexivity|].
    intros k. rewrite Hkey. split.
    + intros Hk. apply (Hsame k p0 Hk Hp0).
    + intros ->. exact Hp0.
Qed.

(** X4.  A per-user record is marked consistent exactly when all successful
    requests of its user were answered with the same payload name. *)
Theorem consistent_iff_single_payload (items : list (string * option string))
        (requestsPerUser duration : Z) (a : allocationtest.UserAllocation) :
  Go.len items < 2 ^ 63 ->
  In a (allocationtest.UserAllocations
          (allocationtest.runAllocationTest items requestsPerUser duration)) ->
  allocationtest.Consistent a = true <->
  forall p q, In (allocationtest.UserID a, Some p) items ->
              In (allocationtest.UserID a, Some q) items -> p = q.
Proof. apply record_consistent_iff. Qed.

(** X5.  The payload name of a per-user record was observed for its user, and no
    payload name was observed for that user more often. *)
Theorem primary_payload_most_frequent (items : list (string * option string))
        (requestsPerUser duration : Z) (a : allocationtest.UserAllocation) :
  Go.len items < 2 ^ 63 ->
  In a (allocationtest.UserAllocations
          (allocationtest.runAllocationTest items requestsPerUser duration)) ->
  In (allocationtest.UserID a, Some (allocationtest.PayloadName a)) items /\
  forall q,
    Go.len (List.filter (allocationtest.observed (allocationtest.UserID a) q) items) <=
    Go.len (List.filter (allocationtest.observed (allocationtest.UserID a)
                                                 (allocationtest.PayloadName a)) items).
Proof.
  intros Hb Hin.
  destruct (run_record_inner items _ _ a Hin) as (inner & Hm & Hn & _ & _ & p0 & Hp0).
  assert (Hent : forall p c, In (p, c) (map_to_list inner) ->
            c = Go.len (List.filter (allocationtest.observed (allocationtest.UserID a) p) items)
            /\ 0 < c /\ In (allocationtest.UserID a, Some p) items).
  { intros p c He. apply list_elem_of_In, elem_of_map_to_list in He.
    apply (workers_inner_Some (allocationtest.UserID a) p c items Hb).
    rewrite Hm. exact He. }
  assert (Hhas : forall q, In (allocationtest.UserID a, Some q) items ->
            In (q, Go.len (List.filter (allocationtest.observed (allocationtest.UserID a) q) items))
               (map_to_list inner)).
  { intros q Hq. apply list_elem_of_In, elem_of_map_to_list.
    pose proof (workers_inner (allocationtest.UserID a) q items Hb) as Hk.
    rewrite Hm in Hk. cbn [default from_option id] in Hk. cbv zeta in Hk.
    rewrite Hk. apply observed_count_pos in Hq.
    destruct (Z.ltb_spec 0 (Go.len (List.filter
                (allocationtest.observed (allocationtest.UserID a) q) items))); [reflexivity|lia]. }
  destruct (primary_max (map_to_list inner)) as [Hprim Hmax].
  { intros E. pose proof (Hhas p0 Hp0) as H. rewrite E in H. destruct H. }
  { intros [p c] He. destruct (Hent p c He) as (_ & H0 & _). exact H0. }
  destruct (allocationtest.primary (map_to_list inner)) as [pn c] eqn:Ep.
  cbn [fst snd] in *. rewrite Hn.
  destruct (Hent pn c Hprim) as (Hc & H0 & Hobs).
  split; [exact Hobs|]. intros q.
  pose proof (len_filter_le (allocationtest.observed (allocationtest.UserID a) q) items) as Hq.
  destruct (Z.ltb_spec 0 (Go.len (List.filter
              (allocationtest.observed (allocationtest.UserID a) q) items))) as [Hpos|Hz].
  - apply observed_count_pos in Hpos. specialize (Hmax _ (Hhas q Hpos)).
    cbn [snd] in Hmax. lia.
  - lia.
Qed.

Lemma primary_payload_most_frequent_witness :
  In ("alice"%string, Some "a.json"%string)
     [("alice"%string, Some "a.json"%string); ("bob"%string, None);
      ("alice"%string, Some "a.json"%string)] /\
  forall q,
    Go.len (List.filter (allocationtest.observed "alice" q)
              [("alice"%string, Some "a.json"%string); ("bob"%string, None);
               ("alice"%string, Some "a.json"%string)]) <=
    Go.len (List.filter (allocationtest.observed "alice" "a.json")
              [("alice"%string, Some "a.json"%string); ("bob"%string, None);
               ("alice"%string, Some "a.json"%string)]).
Proof.
  apply (primary_payload_most_frequent
           [("alice"%string, Some "a.json"%string); ("bob"%string, None);
            ("alice"%string, Some "a.json"%string)] 2 1000
           {| allocationtest.UserID := "alice"; allocationtest.PayloadName := "a.json";
              allocationtest.RequestCount := 2; allocationtest.Consistent := true |}).
  - vm_compute. reflexivity.
  - vm_compute. left. reflexivity.
Defined.

Lemma consistent_iff_single_payload_witness :
  allocationtest.Consistent
    {| allocationtest.UserID := "alice"; allocationtest.PayloadName := "a.json";
       allocationtest.RequestCount := 2; allocationtest.Consistent := true |} = true <->
  forall p q,
    In ("alice"%string, Some p)
       [("alice"%string, Some "a.json"%string); ("bob"%string, None);
        ("alice"%string, Some "a.json"%string)] ->
    In ("alice"%string, Some q)
       [("alice"%string, Some "a.json"%string); ("bob"%string, None);
        ("alice"%string, Some "a.json"%string)] -> p = q.
Proof.
  apply (consistent_iff_single_payload
           [("alice"%string, Some "a.json"%string); ("bob"%string, None);
            ("alice"%string, Some "a.json"%string)] 2 1000
           {| allocationtest.UserID := "alice"; allocationtest.PayloadName := "a.json";
              allocationtest.RequestCount := 2; allocationtest.Consistent := true |}).
  - vm_compute. reflexivity.
  - vm_compute. left. reflexivity.
Defined.

(** ** The verifier: counters and verdict *)

Lemma analyzeUser_tallied (r : allocationtest.TestResults) (e : string * gmap string Z) :
  allocationtest.tallied r ->
  Go.len (allocationtest.UserAllocations r) + 1 < 2 ^ 63 ->
  allocationtest.tallied (allocationtest.analyzeUser r e).
Proof.
  intros (HC & HI & HD & HP) Hb. destruct e as [u inner].
  pose proof (len_filter_le allocationtest.Consistent (allocationtest.UserAllocations r)) as B1.
  pose proof (len_filter_le (fun a => negb (allocationtest.Consistent a))
                (allocationtest.UserAllocations r)) as B2.
  unfold allocationtest.tallied, allocationtest.analyzeUser.
  cbn [allocationtest.ConsistentUsers allocationtest.InconsistentUsers
       allocationtest.UserAllocations allocationtest.InconsistentDetails
       allocationtest.PayloadDistribution].
  rewrite !filter_snoc.
  cbn [allocationtest.Consistent allocationtest.PayloadName].
  repeat split.
  - destruct (Z.of_nat (size inner) =? 1); [rewrite incr_small by lia|]; lia.
  - destruct (Z.of_nat (size inner) =? 1); cbn [negb]; [|rewrite incr_small by lia]; lia.
  - destruct (Z.of_nat (size inner) =? 1); [lia|].
    rewrite len_snoc, incr_small by lia. lia.
  - intros p.
    pose proof (len_filter_le (fun a => String.eqb (allocationtest.PayloadName a) p)
                  (allocationtest.UserAllocations r)) as B3.
    destruct (decide (fst (allocationtest.primary (map_to_list inner)) = p)) as [<-|Hne].
    + rewrite lookup_insert_eq, filter_snoc. cbn [allocationtest.PayloadName].
      rewrite String.eqb_refl. cbn [default from_option id].
      rewrite HP, incr_small by lia. lia.
    + rewrite lookup_insert_ne by exact Hne.
      rewrite filter_snoc. cbn [allocationtest.PayloadName].
      rewrite (proj2 (String.eqb_neq _ _) Hne), HP. lia.
Qed.

Lemma analyzeUsers_tallied (l : list (string * gmap string Z)) :
  forall r : allocationtest.TestResults,
    allocationtest.tallied r ->
    Go.len (allocationtest.UserAllocations r) + Go.len l < 2 ^ 63 ->
    allocationtest.tallied (fold_left allocationtest.analyzeUser l r).
Proof.
  induction l as [|e l IH]; intros r Ht Hb; [exact Ht|].
  cbn [fold_left]. unfold Go.len in Hb. cbn [length] in Hb.
  apply IH.
  - apply analyzeUser_tallied; [exact Ht|unfold Go.len; lia].
  - destruct e as [u inner]. cbn [allocationtest.analyzeUser allocationtest.UserAllocations].
    rewrite len_snoc. unfold Go.len. lia.
Qed.

(** Each successful request adds at most one user to the map. *)
Lemma workers_users_le (items : list (string * option string)) :
  Z.of_nat (size (allocationtest.userPayloads (allocationtest.runWorkers items))) <=
  Go.len (List.filter allocationtest.succeeded items).
Proof.
  induction items as [|[u reply] items IH] using rev_ind.
  - unfold Go.len. simpl. rewrite map_size_empty. lia.
  - rewrite runWorkers_snoc, work_userPayloads, filter_snoc.
    unfold allocationtest.succeeded at 2. cbn [fst snd].
    destruct reply as [q|]; [|lia].
    unfold allocationtest.record. rewrite map_size_insert.
    destruct (allocationtest.userPayloads (allocationtest.runWorkers items) !! u);
      cbn [id]; lia.
Qed.

Lemma run_tallied (items : list (string * option string)) (rpu d : Z) :
  Go.len items < 2 ^ 63 ->
  let res := allocationtest.runAllocationTest items rpu d in
  allocationtest.tallied res /\
  allocationtest.TotalUsers res = Go.len (allocationtest.UserAllocations res) /\
  allocationtest.TotalUsers res <= allocationtest.SuccessfulRequests res.
Proof.
  intros Hb res.
  pose proof (workers_users_le items) as Hu.
  pose proof (len_filter_le allocationtest.succeeded items) as Hs.
  destruct (runWorkers_counts items Hb) as (_ & Hsucc & _).
  subst res. unfold allocationtest.runAllocationTest.
  set (s := allocationtest.runWorkers items) in *.
  destruct (analyzeResults_counts (allocationtest.userPayloads s) rpu d
              (allocationtest.totalRequests s) (allocationtest.successRequests s)
              (allocationtest.failedRequests s)) as (ET & ES & _ & _).
  rewrite ET, ES. split; [|split; [|lia]].
  - unfold allocationtest.analyzeResults, allocationtest.tallied.
    cbn [allocationtest.ConsistentUsers allocationtest.InconsistentUsers
         allocationtest.UserAllocations allocationtest.InconsistentDetails
         allocationtest.PayloadDistribution].
    match goal with
    | |- context [fold_left allocationtest.analyzeUser ?l ?r] =>
        apply (analyzeUsers_tallied l r)
    end.
    + unfold allocationtest.tallied. simpl. repeat split.
    + cbn [allocationtest.UserAllocations]. unfold Go.len. cbn [length].
      rewrite length_map_to_list. unfold Go.len in *. lia.
  - unfold allocationtest.analyzeResults. cbn [allocationtest.UserAllocations].
    rewrite analyzeUsers_records. cbn [allocationtest.UserAllocations app].
    unfold Go.len. rewrite length_map, length_map_to_list. reflexivity.
Qed.

Lemma filter_split {A} (f : A -> bool) (l : list A) :
  Go.len (List.filter f l) + Go.len (List.filter (fun a => negb (f a)) l) = Go.len l.
Proof.
  unfold Go.len. induction l as [|a l IH]; [reflexivity|].
  cbn [List.filter]. destruct (f a); cbn [negb length]; lia.
Qed.

(** X6.  The verdict counters count the per-user records: the consistent ones,
    the inconsistent ones (one detail line each), together all users, which
    are at most as many as the successful requests. *)
Theorem verdict_counters (items : list (string * option string))
        (requestsPerUser duration : Z) :
  Go.len items < 2 ^ 63 ->
  let res := allocationtest.runAllocationTest items requestsPerUser duration in
  allocationtest.ConsistentUsers res =
    Go.len (List.filter allocationtest.Consistent (allocationtest.UserAllocations res)) /\
  allocationtest.InconsistentUsers res =
    Go.len (List.filter (fun a => negb (allocationtest.Consistent a))
                        (allocationtest.UserAllocations res)) /\
  Go.len (allocationtest.InconsistentDetails res) = allocationtest.InconsistentUsers res /\
  allocationtest.TotalUsers res = Go.len (allocationtest.UserAllocations res) /\
  allocationtest.ConsistentUsers res + allocationtest.InconsistentUsers res =
    allocationtest.TotalUsers res /\
  allocationtest.TotalUsers res <= allocationtest.SuccessfulRequests res.
Proof.
  intros Hb res. destruct (run_tallied items requestsPerUser duration Hb)
    as ((HC & HI & HD & _) & HT & HS).
  fold res in HC, HI, HD, HT, HS.
  pose proof (filter_split allocationtest.Consistent (allocationtest.UserAllocations res)).
  repeat split; try assumption. lia.
Qed.

Lemma verdict_counters_witness :
  let res := allocationtest.runAllocationTest
               [("alice"%string, Some "a.json"%string); ("bob"%string, None);
                ("carol"%string, Some "a.json"%string);
                ("carol"%string, Some "b.json"%string)] 2 1000 in
  allocationtest.ConsistentUsers res + allocationtest.InconsistentUsers res =
    allocationtest.TotalUsers res /\
  allocationtest.TotalUsers res <= allocationtest.SuccessfulRequests res.
Proof.
  assert (Hb : Go.len [("alice"%string, Some "a.json"%string); ("bob"%string, None);
                       ("carol"%string, Some "a.json"%string);
                       ("carol"%string, Some "b.json"%string)] < 2 ^ 63)
    by (vm_compute; reflexivity).
  destruct (verdict_counters _ 2 1000 Hb) as (_ & _ & _ & _ & H1 & H2).
  split; [exact H1|exact H2].
Defined.

(** X7.  The distribution holds, for each payload name, the number of users
    whose primary payload it is; the names of no user's primary payload are
    absent from it. *)
Theorem distribution_counts_primaries (items : list (string * option string))
        (requestsPerUser duration : Z) (p : string) :
  Go.len items < 2 ^ 63 ->
  let res := allocationtest.runAllocationTest items requestsPerUser duration in
  default 0 (allocationtest.PayloadDistribution res !! p) =
  Go.len (List.filter (fun a => String.eqb (allocationtest.PayloadName a) p)
                      (allocationtest.UserAllocations res)).
Proof.
  intros Hb res. destruct (run_tallied items requestsPerUser duration Hb)
    as ((_ & _ & _ & HP) & _). apply HP.
Qed.

Lemma distribution_counts_primaries_witness :
  default 0
    (allocationtest.PayloadDistribution
       (allocationtest.runAllocationTest
          [("alice"%string, Some "a.json"%string); ("bob"%string, Some "a.json"%string)]
          1 1000) !! "a.json"%string) =
  Go.len (List.filter
            (fun a => String.eqb (allocationtest.PayloadName a) "a.json")
            (allocationtest.UserAllocations
               (allocationtest.runAllocationTest
                  [("alice"%string, Some "a.json"%string);
                   ("bob"%string, Some "a.json"%string)] 1 1000))).
Proof.
  apply (distribution_counts_primaries
           [("alice"%string, Some "a.json"%string); ("bob"%string, Some "a.json"%string)]
           1 1000 "a.json").
  vm_compute. reflexivity.
Defined.

Lemma analyzeUsers_rate (l : list (string * gmap string Z)) :
  forall r : allocationtest.TestResults,
    allocationtest.AllocationConsistency (fold_left allocationtest.analyzeUser l r) =
    allocationtest.AllocationConsistency r.
Proof.
  induction l as [|[k v] l IH]; intros r; [reflexivity|].
  cbn [fold_left]. rewrite IH. reflexivity.
Qed.

(** The consistency rate in terms of the two counters. *)
Lemma run_rate (items : list (string * option string)) (rpu d : Z) :
  let res := allocationtest.runAllocationTest items rpu d in
  allocationtest.AllocationConsistency res =
  if 0 <? allocationtest.TotalUsers res
  then float64.mul
         (float64.div (float64.ofInt (allocationtest.ConsistentUsers res))
                      (float64.ofInt (allocationtest.TotalUsers res)))
         (float64.ofInt 100)
  else allocationtest.zero.
Proof.
  cbv zeta. unfold allocationtest.runAllocationTest, allocationtest.analyzeResults.
  cbn [allocationtest.AllocationConsistency allocationtest.TotalUsers
       allocationtest.ConsistentUsers].
  rewrite analyzeUsers_rate. reflexivity.
Qed.

Lemma filter_all {A} (f : A -> bool) (l : list A) :
  Go.len (List.filter f l) = Go.len l <-> forall a, In a l -> f a = true.
Proof.
  unfold Go.len. induction l as [|a l IH]; cbn [List.filter].
  - split; [intros _ a []|reflexivity].
  - pose proof (List.filter_length_le f l) as Hle.
    destruct (f a) eqn:E; cbn [length].
    + split.
      * intros H b [<-|Hb]; [exact E|]. apply IH; [lia|exact Hb].
      * intros H. assert (length (List.filter f l) = length l).
        { apply Nat2Z.inj. apply IH. intros b Hb. apply H. right. exact Hb. }
        lia.
    + split; [lia|]. intros H. specialize (H a (or_introl eq_refl)). congruence.
Qed.

(** X8.  The verdict is PASS exactly when at least one request succeeded and
    every user's successful requests were all answered with the same payload
    name. *)
Theorem verdict_pass_iff (items : list (string * option string))
        (requestsPerUser duration : Z) :
  Go.len items < 2 ^ 53 ->
  allocationtest.passed
    (allocationtest.runAllocationTest items requestsPerUser duration) = true <->
  (exists v p, In (v, Some p) items) /\
  (forall v p q, In (v, Some p) items -> In (v, Some q) items -> p = q).
Proof.
  intros Hb.
  assert (Hb63 : Go.len items < 2 ^ 63) by lia.
  set (res := allocationtest.runAllocationTest items requestsPerUser duration).
  destruct (run_tallied items requestsPerUser duration Hb63) as ((HC & _) & HT & HS).
  fold res in HC, HT, HS.
  pose proof (len_filter_le allocationtest.Consistent (allocationtest.UserAllocations res))
    as HCle.
  pose proof (len_filter_le allocationtest.succeeded items) as Hsle.
  destruct (runWorkers_counts items Hb63) as (_ & Hsucc & _).
  assert (HS' : allocationtest.SuccessfulRequests res <= Go.len items).
  { unfold res, allocationtest.runAllocationTest.
    destruct (analyzeResults_counts
                (allocationtest.userPayloads (allocationtest.runWorkers items))
                requestsPerUser duration
                (allocationtest.totalRequests (allocationtest.runWorkers items))
                (allocationtest.successRequests (allocationtest.runWorkers items))
                (allocationtest.failedRequests (allocationtest.runWorkers items)))
      as (_ & -> & _). lia. }
  destruct (run_record_users items requestsPerUser duration) as [_ Husers].
  fold res in Husers.
  assert (Hpass : allocationtest.passed res = true <->
                  0 < allocationtest.TotalUsers res /\
                  allocationtest.ConsistentUsers res = allocationtest.TotalUsers res).
  { unfold allocationtest.passed. fold res. unfold res at 1. rewrite run_rate. fold res.
    destruct (Z.ltb_spec 0 (allocationtest.TotalUsers res)) as [Hpos|Hz].
    - rewrite rate_is_100 by lia. rewrite Z.eqb_eq. tauto.
    - split; [discriminate|lia]. }
  rewrite Hpass, HC, HT. rewrite filter_all. split.
  - intros [Hpos Hall]. split.
    + destruct (allocationtest.UserAllocations res) as [|a l] eqn:E;
        [unfold Go.len in Hpos; simpl in Hpos; lia|].
      assert (Hin : In (allocationtest.UserID a) (List.map allocationtest.UserID (a :: l)))
        by (left; reflexivity).
      apply Husers in Hin. destruct Hin as [p Hp]. eauto.
    + intros v p q Hp Hq.
      assert (Hin : In v (List.map allocationtest.UserID (allocationtest.UserAllocations res)))
        by (apply Husers; eauto).
      apply in_map_iff in Hin. destruct Hin as (a & <- & Ha).
      apply (proj1 (record_consistent_iff items requestsPerUser duration a Hb63 Ha));
        [apply Hall, Ha|exact Hp|exact Hq].
  - intros [(v & p & Hp) Hsame]. split.
    + assert (Hin : In v (List.map allocationtest.UserID (allocationtest.UserAllocations res)))
        by (apply Husers; eauto).
      destruct (allocationtest.UserAllocations res); [destruct Hin|].
      unfold Go.len. simpl. lia.
    + intros a Ha.
      apply (proj2 (record_consistent_iff items requestsPerUser duration a Hb63 Ha)).
      intros p' q'. apply Hsame.
Qed.

Lemma verdict_pass_iff_witness :
  allocationtest.passed
    (allocationtest.runAllocationTest
       [("alice"%string, Some "a.json"%string); ("bob"%string, None);
        ("alice"%string, Some "a.json"%string)] 2 1000) = true <->
  (exists v p, In (v, Some p)
                  [("alice"%string, Some "a.json"%string); ("bob"%string, None);
                   ("alice"%string, Some "a.json"%string)]) /\
  (forall v p q,
     In (v, Some p) [("alice"%string, Some "a.json"%string); ("bob"%string, None);
                     ("alice"%string, Some "a.json"%string)] ->
     In (v, Some q) [("alice"%string, Some "a.json"%string); ("bob"%string, None);
                     ("alice"%string, Some "a.json"%string)] -> p = q).
Proof.
  apply (verdict_pass_iff
           [("alice"%string, Some "a.json"%string); ("bob"%string, None);
            ("alice"%string, Some "a.json"%string)] 2 1000).
  vm_compute. reflexivity.
Defined.

(** ** The verifier: the request counters *)

Lemma sumZ_perm (l l' : list Z) :
  Permutation l l' -> fold_right Z.add 0 l = fold_right Z.add 0 l'.
Proof.
  intros HP. induction HP as [|x l l' _ IH|x y l|l l' l'' _ IH1 _ IH2]; simpl; lia.
Qed.

Lemma weight_insert {V} (w : V -> Z) (m : gmap string V) (k : string) (v : V) :
  fold_right Z.add 0 (List.map (fun e => w (snd e)) (map_to_list (<[k := v]> m))) =
  fold_right Z.add 0 (List.map (fun e => w (snd e)) (map_to_list m))
  - from_option w 0 (m !! k) + w v.
Proof.
  assert (Hperm : forall l l' : list (string * V),
            Permutation l l' ->
            fold_right Z.add 0 (List.map (fun e => w (snd e)) l) =
            fold_right Z.add 0 (List.map (fun e => w (snd e)) l')).
  { intros l l' HP. apply sumZ_perm, Permutation_map, HP. }
  destruct (m !! k) as [old|] eqn:E; cbn [from_option].
  - rewrite <- (insert_delete_id m k old E) at 2.
    rewrite <- (insert_delete_eq m k v).
    rewrite (Hperm _ _ (map_to_list_insert (delete k m) k v (lookup_delete_eq m k))).
    rewrite (Hperm _ _ (map_to_list_insert (delete k m) k old (lookup_delete_eq m k))).
    simpl. lia.
  - rewrite (Hperm _ _ (map_to_list_insert m k v E)). simpl. lia.
Qed.

Lemma record_total (m : gmap string (gmap string Z)) (u p : string) :
  let total := fun m : gmap string (gmap string Z) =>
    fold_right Z.add 0
      (List.map (fun e => allocationtest.sumCounts (map_to_list (snd e))) (map_to_list m)) in
  let c := default 0 (default ∅ (m !! u) !! p) in
  total (allocationtest.record m u p) = total m - c + allocationtest.incr c.
Proof.
  cbv zeta. unfold allocationtest.record.
  rewrite (weight_insert (fun inner => allocationtest.sumCounts (map_to_list inner))).
  rewrite sumCounts_insert.
  destruct (m !! u) as [inner|] eqn:E; cbn [from_option default id].
  - lia.
  - rewrite map_to_list_empty. unfold allocationtest.sumCounts. simpl. lia.
Qed.

(** The counts in the map add up to the number of successful requests. *)
Lemma workers_total (items : list (string * option string)) :
  Go.len items < 2 ^ 63 ->
  fold_right Z.add 0
    (List.map (fun e => allocationtest.sumCounts (map_to_list (snd e)))
              (map_to_list (allocationtest.userPayloads (allocationtest.runWorkers items)))) =
  Go.len (List.filter allocationtest.succeeded items).
Proof.
  induction items as [|[u reply] items IH] using rev_ind; intros Hb.
  - unfold allocationtest.runWorkers. simpl. rewrite map_to_list_empty. reflexivity.
  - rewrite len_snoc in Hb. assert (Hb' : Go.len items < 2 ^ 63) by (unfold Go.len in *; lia).
    specialize (IH Hb').
    rewrite runWorkers_snoc, work_userPayloads, filter_snoc.
    unfold allocationtest.succeeded at 2. cbn [fst snd].
    destruct reply as [q|]; [|lia].
    pose proof (record_total (allocationtest.userPayloads (allocationtest.runWorkers items)) u q)
      as Hr. cbv zeta in Hr. rewrite Hr, IH.
    rewrite workers_inner_default by exact Hb'.
    pose proof (len_filter_le (allocationtest.observed u q) items).
    rewrite incr_small by lia. lia.
Qed.

(** X9.  Every request is counted once, as successful or as failed, and the
    request counts of the per-user records add up to the number of
    successful requests. *)
Theorem verifier_counters_balance (items : list (string * option string))
        (requestsPerUser duration : Z) :
  Go.len items < 2 ^ 63 ->
  let res := allocationtest.runAllocationTest items requestsPerUser duration in
  allocationtest.TotalRequests res = Go.len items /\
  allocationtest.TotalRequests res =
    allocationtest.SuccessfulRequests res + allocationtest.FailedRequests res /\
  allocationtest.SuccessfulRequests res =
    Go.len (List.filter allocationtest.succeeded items) /\
  fold_right Z.add 0
    (List.map allocationtest.RequestCount (allocationtest.UserAllocations res)) =
    allocationtest.SuccessfulRequests res.
Proof.
  intros Hb res.
  destruct (runWorkers_counts items Hb) as (Ht & Hs & Hf).
  pose proof (filter_split allocationtest.succeeded items) as Hsplit.
  subst res. unfold allocationtest.runAllocationTest.
  set (s := allocationtest.runWorkers items) in *.
  destruct (analyzeResults_counts (allocationtest.userPayloads s) requestsPerUser duration
              (allocationtest.totalRequests s) (allocationtest.successRequests s)
              (allocationtest.failedRequests s)) as (_ & -> & -> & ->).
  split; [exact Ht|]. split; [lia|]. split; [exact Hs|].
  rewrite Hs, <- (workers_total items Hb). fold s.
  unfold allocationtest.analyzeResults. cbn [allocationtest.UserAllocations].
  rewrite analyzeUsers_records. cbn [allocationtest.UserAllocations app].
  rewrite List.map_map. cbn [allocationtest.RequestCount]. f_equal.
  apply map_ext_in. intros [u inner] Hin. cbn [snd].
  apply list_elem_of_In, elem_of_map_to_list in Hin.
  pose proof (workers_sum u items Hb) as Hsum. fold s in Hsum.
  rewrite Hin in Hsum. cbn [default from_option id] in Hsum.
  pose proof (len_filter_le (fun w => allocationtest.ofUser u w && allocationtest.succeeded w)
                items) as Hle.
  rewrite fold_wrap_sum; [lia|lia| |lia].
  intros [p c] He. apply list_elem_of_In, elem_of_map_to_list in He.
  destruct (workers_inner_Some u p c items Hb) as (_ & H0 & _).
  - fold s. rewrite Hin. exact He.
  - cbn [snd]. lia.
Qed.

Lemma verifier_counters_balance_witness :
  let res := allocationtest.runAllocationTest
               [("alice"%string, Some "a.json"%string); ("bob"%string, None);
                ("alice"%string, Some "b.json"%string)] 2 1000 in
  allocationtest.TotalRequests res = 3 /\
  fold_right Z.add 0
    (List.map allocationtest.RequestCount (allocationtest.UserAllocations res)) =
    allocationtest.SuccessfulRequests res.
Proof.
  assert (Hb : Go.len [("alice"%string, Some "a.json"%string); ("bob"%string, None);
                       ("alice"%string, Some "b.json"%string)] < 2 ^ 63)
    by (vm_compute; reflexivity).
  destruct (verifier_counters_balance _ 2 1000 Hb) as (H1 & _ & _ & H4).
  split; [exact H1|exact H4].
Defined.

(** ** Load generator: the counters of a run *)

Lemma iteration_total (s : loadtest.Stats) (it : loadtest.Class * loadtest.Exchange) :
  loadtest.totalRequests (loadtest.iteration s it) =
  if (fun _ : loadtest.Class * loadtest.Exchange => true) it
  then atomic.Add (loadtest.totalRequests s) 1
  else loadtest.totalRequests s.
Proof.
  destruct it as [[|] [|status [|] latency]]; simpl; try reflexivity;
    unfold loadtest.makeFastRequest, loadtest.makeSlowRequest;
    destruct (status =? loadtest.StatusOK); reflexivity.
Qed.

Lemma iteration_failed (s : loadtest.Stats) (it : loadtest.Class * loadtest.Exchange) :
  loadtest.failedRequests (loadtest.iteration s it) =
  if negb (loadtest.succeeded (snd it))
  then atomic.Add (loadtest.failedRequests s) 1
  else loadtest.failedRequests s.
Proof.
  destruct it as [[|] [|status [|] latency]]; simpl; try reflexivity;
    unfold loadtest.makeFastRequest, loadtest.makeSlowRequest;
    destruct (status =? loadtest.StatusOK); reflexivity.
Qed.

Lemma filter_true {A} (l : list A) : List.filter (fun _ => true) l = l.
Proof. induction l as [|a l IH]; simpl; congruence. Qed.

Lemma class_split (its : list (loadtest.Class * loadtest.Exchange)) :
  loadtest.issued loadtest.Fast its + loadtest.issued loadtest.Slow its = Go.len its /\
  loadtest.successes loadtest.Fast its + loadtest.successes loadtest.Slow its =
    loadtest.allSuccesses its.
Proof.
  unfold loadtest.issued, loadtest.successes, loadtest.allSuccesses, Go.len.
  assert (H : (length (List.filter (loadtest.isClass loadtest.Fast) its) +
               length (List.filter (loadtest.isClass loadtest.Slow) its) = length its /\
               length (List.filter (fun it => loadtest.isClass loadtest.Fast it &&
                                              loadtest.succeeded (snd it)) its) +
               length (List.filter (fun it => loadtest.isClass loadtest.Slow it &&
                                              loadtest.succeeded (snd it)) its) =
               length (List.filter (fun it => loadtest.succeeded (snd it)) its))%nat).
  { induction its as [|[[|] x] its IH]; [simpl; lia| |];
      simpl in *; destruct (loadtest.succeeded x); simpl in *; lia. }
  lia.
Qed.

(** X10.  When all clients have returned, every request was counted once as
    fast or slow and once as successful or failed, the total is their
    number, and there is one latency sample per successful request. *)
Theorem counters_balance (its : list (loadtest.Class * loadtest.Exchange)) :
  Go.len its < 2 ^ 63 ->
  let s := loadtest.runLoadTest its loadtest.zeroStats in
  loadtest.totalRequests s = Go.len its /\
  loadtest.totalRequests s = loadtest.successRequests s + loadtest.failedRequests s /\
  loadtest.totalRequests s = loadtest.fastRequests s + loadtest.slowRequests s /\
  loadtest.successRequests s =
    Go.len (loadtest.fastLatencies s) + Go.len (loadtest.slowLatencies s) /\
  0 <= loadtest.successRequests s /\ 0 <= loadtest.failedRequests s.
Proof.
  intros Hb s.
  destruct (runLoadTest_counts its Hb) as (Hs & Hf & Hsl & Hfl & Hsll). fold s in Hs, Hf, Hsl, Hfl, Hsll.
  destruct (class_split its) as [Hc1 Hc2].
  pose proof (filter_split (fun it => loadtest.succeeded (snd it)) its) as Hsplit.
  cbv beta in Hsplit. fold (loadtest.allSuccesses its) in Hsplit.
  pose proof (len_filter_le (fun it => loadtest.succeeded (snd it)) its) as Hle.
  fold (loadtest.allSuccesses its) in Hle.
  pose proof (len_filter_le (fun it => negb (loadtest.succeeded (snd it))) its) as Hle'.
  assert (Ht : loadtest.totalRequests s = Go.len its).
  { unfold s, loadtest.runLoadTest.
    rewrite (counter_fold _ _ (fun _ => true) iteration_total); rewrite ?filter_true;
      simpl; lia. }
  assert (Hfail : loadtest.failedRequests s =
                  Go.len (List.filter (fun it => negb (loadtest.succeeded (snd it))) its)).
  { unfold s, loadtest.runLoadTest.
    rewrite (counter_fold _ _ (fun it => negb (loadtest.succeeded (snd it))) iteration_failed);
      simpl; lia. }
  repeat split; lia.
Qed.

Lemma counters_balance_witness :
  let s := loadtest.runLoadTest
             [(loadtest.Fast, loadtest.Answered 200 true 12);
              (loadtest.Slow, loadtest.PostFailed);
              (loadtest.Slow, loadtest.Answered 500 true 7)] loadtest.zeroStats in
  loadtest.totalRequests s = 3 /\
  loadtest.totalRequests s = loadtest.successRequests s + loadtest.failedRequests s /\
  loadtest.totalRequests s = loadtest.fastRequests s + loadtest.slowRequests s.
Proof.
  assert (Hb : Go.len [(loadtest.Fast, loadtest.Answered 200 true 12);
                       (loadtest.Slow, loadtest.PostFailed);
                       (loadtest.Slow, loadtest.Answered 500 true 7)] < 2 ^ 63)
    by (vm_compute; reflexivity).
  destruct (counters_balance _ Hb) as (H1 & H2 & H3 & _).
  split; [exact H1|]. split; [exact H2|exact H3].
Defined.

(** ** Load generator: the report and the order of the run *)

Lemma iteration_samples (s : loadtest.Stats) (it : loadtest.Class * loadtest.Exchange) :
  loadtest.fastLatencies (loadtest.iteration s it) =
    loadtest.fastLatencies s ++ loadtest.samples loadtest.Fast [it] /\
  loadtest.slowLatencies (loadtest.iteration s it) =
    loadtest.slowLatencies s ++ loadtest.samples loadtest.Slow [it].
Proof.
  destruct it as [[|] [|status [|] latency]]; simpl;
    rewrite ?app_nil_r; try (split; reflexivity);
    unfold loadtest.makeFastRequest, loadtest.makeSlowRequest;
    destruct (status =? loadtest.StatusOK); simpl; rewrite ?app_nil_r; split; reflexivity.
Qed.

Lemma samples_cons (c : loadtest.Class) (it : loadtest.Class * loadtest.Exchange)
      (its : list (loadtest.Class * loadtest.Exchange)) :
  loadtest.samples c (it :: its) = loadtest.samples c [it] ++ loadtest.samples c its.
Proof. unfold loadtest.samples. simpl. now rewrite app_nil_r. Qed.

(** The two slices when all clients have returned. *)
Lemma run_samples (its : list (loadtest.Class * loadtest.Exchange)) :
  forall s : loadtest.Stats,
    loadtest.fastLatencies (loadtest.runLoadTest its s) =
      loadtest.fastLatencies s ++ loadtest.samples loadtest.Fast its /\
    loadtest.slowLatencies (loadtest.runLoadTest its s) =
      loadtest.slowLatencies s ++ loadtest.samples loadtest.Slow its.
Proof.
  unfold loadtest.runLoadTest.
  induction its as [|it its IH]; intros s.
  - simpl. now rewrite !app_nil_r.
  - cbn [fold_left]. destruct (IH (loadtest.iteration s it)) as [-> ->].
    destruct (iteration_samples s it) as [-> ->].
    rewrite !(samples_cons _ it its), !app_assoc. split; reflexivity.
Qed.

Lemma insertInt64_comm (x y : Z) (l : list Z) :
  loadtest.insertInt64 x (loadtest.insertInt64 y l) =
  loadtest.insertInt64 y (loadtest.insertInt64 x l).
Proof.
  induction l as [|z l IH]; simpl.
  - destruct (Z.leb_spec x y), (Z.leb_spec y x); try reflexivity; try lia.
    assert (x = y) by lia. subst. reflexivity.
  - destruct (Z.leb_spec y z), (Z.leb_spec x z); simpl;
      repeat (match goal with
              | |- context [?a <=? ?b] => destruct (Z.leb_spec a b); simpl
              end);
      try lia; try reflexivity; try (rewrite IH; reflexivity).
    assert (x = y) by lia. subst. reflexivity.
Qed.

(** Sorting forgets the order of its input. *)
Lemma sortInt64_perm (l l' : list Z) :
  Permutation l l' -> loadtest.sortInt64 l = loadtest.sortInt64 l'.
Proof.
  unfold loadtest.sortInt64.
  intros HP. induction HP as [|x l l' _ IH|x y l|l l' l'' _ IH1 _ IH2]; simpl.
  - reflexivity.
  - now rewrite IH.
  - apply insertInt64_comm.
  - now rewrite IH1.
Qed.

Lemma len_filter_perm {A} (f : A -> bool) (l l' : list A) :
  Permutation l l' -> Go.len (List.filter f l) = Go.len (List.filter f l').
Proof.
  unfold Go.len.
  intros HP. induction HP as [|x l l' _ IH|x y l|l l' l'' _ IH1 _ IH2]; simpl.
  - reflexivity.
  - destruct (f x); simpl; lia.
  - destruct (f x), (f y); simpl; lia.
  - lia.
Qed.

Lemma printResults_ext (u : spec_float -> Z) (s s' : loadtest.Stats) (d : Z) :
  loadtest.successRequests s = loadtest.successRequests s' ->
  loadtest.fastRequests s = loadtest.fastRequests s' ->
  loadtest.slowRequests s = loadtest.slowRequests s' ->
  loadtest.sortInt64 (loadtest.fastLatencies s) =
    loadtest.sortInt64 (loadtest.fastLatencies s') ->
  loadtest.sortInt64 (loadtest.slowLatencies s) =
    loadtest.sortInt64 (loadtest.slowLatencies s') ->
  loadtest.printResults u s d = loadtest.printResults u s' d.
Proof.
  intros E1 E2 E3 E4 E5. unfold loadtest.printResults.
  rewrite E1, E2, E3, E4, E5. reflexivity.
Qed.

(** X11.  The report does not depend on the order in which the clients' updates
    of the shared statistics took effect. *)
Theorem report_order_irrelevant (unrepresentable : spec_float -> Z)
        (its its' : list (loadtest.Class * loadtest.Exchange)) (duration : Z) :
  Go.len its < 2 ^ 63 ->
  Permutation its its' ->
  loadtest.printResults unrepresentable
    (loadtest.runLoadTest its loadtest.zeroStats) duration =
  loadtest.printResults unrepresentable
    (loadtest.runLoadTest its' loadtest.zeroStats) duration.
Proof.
  intros Hb HP.
  assert (Hb' : Go.len its' < 2 ^ 63).
  { unfold Go.len in *. rewrite <- (Permutation_length HP). exact Hb. }
  destruct (runLoadTest_counts its Hb) as (Hs & Hf & Hsl & _).
  destruct (runLoadTest_counts its' Hb') as (Hs' & Hf' & Hsl' & _).
  destruct (run_samples its loadtest.zeroStats) as [Hfl Hsll].
  destruct (run_samples its' loadtest.zeroStats) as [Hfl' Hsll'].
  cbn [loadtest.fastLatencies loadtest.slowLatencies loadtest.zeroStats app] in *.
  apply printResults_ext.
  - rewrite Hs, Hs'. apply len_filter_perm, HP.
  - rewrite Hf, Hf'. apply len_filter_perm, HP.
  - rewrite Hsl, Hsl'. apply len_filter_perm, HP.
  - rewrite Hfl, Hfl'. apply sortInt64_perm. unfold loadtest.samples.
    apply Permutation_flat_map, HP.
  - rewrite Hsll, Hsll'. apply sortInt64_perm. unfold loadtest.samples.
    apply Permutation_flat_map, HP.
Qed.

Lemma report_order_irrelevant_witness :
  loadtest.printResults (fun _ => - 2 ^ 63)
    (loadtest.runLoadTest
       [(loadtest.Fast, loadtest.Answered 200 true 12);
        (loadtest.Slow, loadtest.Answered 200 true 40)] loadtest.zeroStats) 1000000000 =
  loadtest.printResults (fun _ => - 2 ^ 63)
    (loadtest.runLoadTest
       [(loadtest.Slow, loadtest.Answered 200 true 40);
        (loadtest.Fast, loadtest.Answered 200 true 12)] loadtest.zeroStats) 1000000000.
Proof.
  apply (report_order_irrelevant (fun _ => - 2 ^ 63)
           [(loadtest.Fast, loadtest.Answered 200 true 12);
            (loadtest.Slow, loadtest.Answered 200 true 40)]
           [(loadtest.Slow, loadtest.Answered 200 true 40);
            (loadtest.Fast, loadtest.Answered 200 true 12)] 1000000000).
  - vm_compute. reflexivity.
  - apply perm_swap.
Defined.

(** ** Load generator: the latency figures *)

Lemma insertInt64_perm (x : Z) (l : list Z) :
  Permutation (loadtest.insertInt64 x l) (x :: l).
Proof.
  induction l as [|y l IH]; simpl; [reflexivity|].
  destruct (x <=? y); [reflexivity|].
  rewrite IH. apply perm_swap.
Qed.

Lemma sortInt64_permutation (l : list Z) : Permutation (loadtest.sortInt64 l) l.
Proof.
  unfold loadtest.sortInt64. induction l as [|x l IH]; simpl; [reflexivity|].
  rewrite insertInt64_perm. now apply perm_skip.
Qed.

Lemma In_sortInt64 (x : Z) (l : list Z) : In x (loadtest.sortInt64 l) <-> In x l.
Proof.
  split; apply Permutation_in; [|symmetry]; apply sortInt64_permutation.
Qed.

Lemma insertInt64_sorted (x : Z) (l : list Z) :
  StronglySorted Z.le l -> StronglySorted Z.le (loadtest.insertInt64 x l).
Proof.
  induction l as [|y l IH]; intros Hs; simpl.
  - constructor; constructor.
  - apply StronglySorted_inv in Hs. destruct Hs as [Hs Hy].
    destruct (Z.leb_spec x y) as [Hxy|Hxy].
    + constructor; [constructor; assumption|].
      constructor; [exact Hxy|].
      apply List.Forall_forall. intros z Hz.
      pose proof (proj1 (List.Forall_forall _ _) Hy z Hz). lia.
    + constructor; [apply IH, Hs|].
      apply List.Forall_forall. intros z Hz.
      apply (Permutation_in _ (insertInt64_perm x l)) in Hz.
      destruct Hz as [<-|Hz]; [lia|].
      apply (proj1 (List.Forall_forall _ _) Hy z Hz).
Qed.

Lemma sortInt64_sorted (l : list Z) : StronglySorted Z.le (loadtest.sortInt64 l).
Proof.
  unfold loadtest.sortInt64. induction l as [|x l IH]; simpl; [constructor|].
  apply insertInt64_sorted, IH.
Qed.

Lemma sorted_first (l : list Z) (lo : Z) :
  StronglySorted Z.le l -> nth_error l 0 = Some lo ->
  In lo l /\ forall x, In x l -> lo <= x.
Proof.
  intros Hs Hn. destruct l as [|a l]; [discriminate|]. injection Hn as ->.
  apply StronglySorted_inv in Hs. destruct Hs as [_ Ha].
  split; [left; reflexivity|].
  intros x [<-|Hx]; [lia|]. apply (proj1 (List.Forall_forall _ _) Ha x Hx).
Qed.

Lemma sorted_last (l : list Z) (hi : Z) :
  StronglySorted Z.le l -> nth_error l (length l - 1) = Some hi ->
  In hi l /\ forall x, In x l -> x <= hi.
Proof.
  intros Hs. induction Hs as [|a l Hs IH Ha]; intros Hn; [discriminate|].
  destruct l as [|b l].
  - injection Hn as ->. split; [left; reflexivity|]. intros x [<-|[]]. lia.
  - replace (length (a :: b :: l) - 1)%nat with (S (length (b :: l) - 1)) in Hn
      by (simpl; lia).
    cbn [nth_error] in Hn. destruct (IH Hn) as [Hin Hmax].
    split; [right; exact Hin|].
    intros x [<-|Hx]; [|apply Hmax, Hx].
    apply (proj1 (List.Forall_forall _ _) Ha hi Hin).
Qed.

Lemma index_nth_error {T} (s : list T) (i : Z) (v : T) :
  Go.index s i = Go.Ok v -> 0 <= i /\ nth_error s (Z.to_nat i) = Some v.
Proof.
  unfold Go.index. destruct (Z.ltb_spec i 0); [discriminate|].
  destruct (nth_error s (Z.to_nat i)) eqn:E; [|discriminate].
  intros [= ->]. split; [lia|reflexivity].
Qed.

(** A percentile of a non-empty sorted collection is one of its elements. *)
Lemma calculatePercentile_In (u : spec_float -> Z) (sorted : list Z) (p : spec_float) :
  0 < Go.len sorted < 2 ^ 60 ->
  float64.nonneg p = true -> float64.belowTwo p ->
  exists v, loadtest.calculatePercentile u sorted p = Go.Ok v /\ In v sorted.
Proof.
  intros [Hlen Hlt] Hn Hb.
  destruct (percentile_index_fits (Go.len sorted) p (conj Hlen Hlt) Hb) as [idx Ht].
  pose proof (percentile_index_nonneg _ _ _ Hlen Hn Ht) as Hidx.
  eexists. split; [apply (calculatePercentile_index _ _ _ idx Hlen Hidx Ht)|].
  apply nth_In. unfold Go.len in *. lia.
Qed.

(** The block of figures of a sorted collection. *)
Lemma latencyStats_summarises (u : spec_float -> Z) (l : list Z) :
  l <> [] -> Go.len l < 2 ^ 60 ->
  exists ls, loadtest.latencyStats u (loadtest.sortInt64 l) = Go.Ok ls /\
             loadtest.summarises ls l /\
             loadtest.Average ls =
               Go.wrapS 64
                 (Z.quot (fold_left (fun acc lat => Go.wrapS 64 (acc + lat))
                                    (loadtest.sortInt64 l) 0)
                         (Go.len l)).
Proof.
  intros Hne Hlt.
  pose proof (sortInt64_permutation l) as HP.
  pose proof (sortInt64_sorted l) as HS.
  assert (Hlen : Go.len (loadtest.sortInt64 l) = Go.len l).
  { unfold Go.len. now rewrite (Permutation_length HP). }
  assert (Hpos : 0 < Go.len l).
  { unfold Go.len. destruct l; [congruence|simpl; lia]. }
  set (sorted := loadtest.sortInt64 l) in *.
  unfold loadtest.latencyStats. rewrite Hlen.
  destruct (Z.ltb_spec 0 (Go.len l)) as [_|?]; [|lia].
  destruct (index_in_bounds sorted 0 ltac:(lia)) as (lo & Hlo & _).
  destruct (index_in_bounds sorted (Go.len l - 1) ltac:(lia)) as (hi & Hhi & _).
  destruct (calculatePercentile_In u sorted (float64.decimal 50 100) ltac:(lia))
    as (p50 & H50 & I50); [reflexivity|vm_compute; intros ?; discriminate|].
  destruct (calculatePercentile_In u sorted (float64.decimal 90 100) ltac:(lia))
    as (p90 & H90 & I90); [reflexivity|vm_compute; intros ?; discriminate|].
  destruct (calculatePercentile_In u sorted (float64.decimal 99 100) ltac:(lia))
    as (p99 & H99 & I99); [reflexivity|vm_compute; intros ?; discriminate|].
  rewrite Hlo, Hhi. cbn [Go.bind]. rewrite H50. cbn [Go.bind]. rewrite H90.
  cbn [Go.bind]. rewrite H99. cbn [Go.bind].
  eexists. split; [reflexivity|]. split; [|reflexivity].
  apply index_nth_error in Hlo, Hhi. destruct Hlo as [_ Hlo]. destruct Hhi as [_ Hhi].
  change (Z.to_nat 0) with 0%nat in Hlo.
  replace (Z.to_nat (Go.len l - 1)) with (length sorted - 1)%nat in Hhi
    by (unfold Go.len in *; lia).
  destruct (sorted_first sorted lo HS Hlo) as [Ilo Hmin].
  destruct (sorted_last sorted hi HS Hhi) as [Ihi Hmax].
  assert (Hin : forall x, In x sorted <-> In x l) by (intros x; apply In_sortInt64).
  unfold loadtest.summarises.
  cbn [loadtest.Minimum loadtest.Maximum loadtest.P50 loadtest.P90 loadtest.P99].
  repeat split; try (apply Hin; assumption).
  - apply Hmin, Hin, H.
  - apply Hmax, Hin, H.
Qed.

Lemma samples_len (its : list (loadtest.Class * loadtest.Exchange)) :
  Go.len (loadtest.samples loadtest.Fast its) = loadtest.successes loadtest.Fast its /\
  Go.len (loadtest.samples loadtest.Slow its) = loadtest.successes loadtest.Slow its.
Proof.
  destruct (run_samples its loadtest.zeroStats) as [Hf Hs].
  cbn [loadtest.fastLatencies loadtest.slowLatencies loadtest.zeroStats app] in Hf, Hs.
  rewrite <- Hf, <- Hs. unfold loadtest.runLoadTest. split.
  - rewrite (append_fold _ _ (fun it => loadtest.isClass loadtest.Fast it &&
                                        loadtest.succeeded (snd it))
               iteration_fastLatencies). reflexivity.
  - rewrite (append_fold _ _ (fun it => loadtest.isClass loadtest.Slow it &&
                                        loadtest.succeeded (snd it))
               iteration_slowLatencies). reflexivity.
Qed.

Lemma summarises_ext (ls : loadtest.LatencyStats) (l l' : list Z) :
  (forall x, In x l <-> In x l') -> loadtest.summarises ls l -> loadtest.summarises ls l'.
Proof.
  intros E (H1 & H2 & H3 & H4 & H5 & H6). unfold loadtest.summarises.
  repeat split; try (apply E; assumption); apply H3, E, H.
Qed.

Lemma len_nil_iff {A} (l : list A) : 0 < Go.len l <-> l <> [].
Proof.
  unfold Go.len. destruct l; simpl; split; try congruence; try lia.
Qed.

(** X12.  The figures of the report are taken from the latencies of the
    successful requests: the overall block from those of both classes, the
    block of a class, printed only when the class has a sample, from those
    of the class.  Every figure but the average is one of the samples, and
    the minimum and the maximum bound them all. *)
Theorem report_summarises_samples (unrepresentable : spec_float -> Z)
        (its : list (loadtest.Class * loadtest.Exchange)) (duration : Z) :
  Go.len its < 2 ^ 60 ->
  let fast := loadtest.samples loadtest.Fast its in
  let slow := loadtest.samples loadtest.Slow its in
  exists report,
    loadtest.printResults unrepresentable
      (loadtest.runLoadTest its loadtest.zeroStats) duration = Go.Ok report /\
    (fast ++ slow <> [] -> loadtest.summarises (loadtest.Overall report) (fast ++ slow)) /\
    match loadtest.FastOnly report with
    | Some ls => fast <> [] /\ loadtest.summarises ls fast
    | None => fast = []
    end /\
    match loadtest.SlowOnly report with
    | Some ls => slow <> [] /\ loadtest.summarises ls slow
    | None => slow = []
    end.
Proof.
  intros Hlt fast slow.
  destruct (run_samples its loadtest.zeroStats) as [Hf Hs].
  cbn [loadtest.fastLatencies loadtest.slowLatencies loadtest.zeroStats app] in Hf, Hs.
  fold fast in Hf. fold slow in Hs.
  destruct (samples_len its) as [Lf Ls]. fold fast in Lf. fold slow in Ls.
  destruct (class_split its) as [_ Hc].
  pose proof (len_filter_le (fun it => loadtest.succeeded (snd it)) its) as Hall.
  fold (loadtest.allSuccesses its) in Hall.
  pose proof (len_filter_le (fun it => loadtest.isClass loadtest.Fast it &&
                                       loadtest.succeeded (snd it)) its) as Hfle.
  fold (loadtest.successes loadtest.Fast its) in Hfle.
  pose proof (len_filter_le (fun it => loadtest.isClass loadtest.Slow it &&
                                       loadtest.succeeded (snd it)) its) as Hsle.
  fold (loadtest.successes loadtest.Slow its) in Hsle.
  assert (Lall : Go.len (fast ++ slow) = Go.len fast + Go.len slow)
    by (unfold Go.len; rewrite length_app; lia).
  assert (Eall : loadtest.sortInt64 (loadtest.sortInt64 fast ++ loadtest.sortInt64 slow) =
                 loadtest.sortInt64 (fast ++ slow)).
  { apply sortInt64_perm. apply Permutation_app; apply sortInt64_permutation. }
  unfold loadtest.printResults. rewrite Hf, Hs, Eall.
  assert (Ho : exists ls, loadtest.latencyStats unrepresentable
                            (loadtest.sortInt64 (fast ++ slow)) = Go.Ok ls /\
                          (fast ++ slow <> [] -> loadtest.summarises ls (fast ++ slow))).
  { destruct (decide (fast ++ slow = [])) as [E|Hne].
    - rewrite E. eexists. split; [reflexivity|]. congruence.
    - destruct (latencyStats_summarises unrepresentable (fast ++ slow) Hne ltac:(lia))
        as (ls & H1 & H2 & _). eauto. }
  assert (Hblock : forall l, Go.len l < 2 ^ 60 ->
            exists ls, loadtest.latencyStats unrepresentable (loadtest.sortInt64 l) = Go.Ok ls /\
                       (l <> [] -> loadtest.summarises ls l)).
  { intros l Hl. destruct (decide (l = [])) as [E|Hne].
    - rewrite E. eexists. split; [reflexivity|]. congruence.
    - destruct (latencyStats_summarises unrepresentable l Hne Hl) as (ls & H1 & H2 & _).
      eauto. }
  destruct Ho as (lo & Hlo & Slo).
  destruct (Hblock fast ltac:(lia)) as (lf & Hlf & Slf).
  destruct (Hblock slow ltac:(lia)) as (lsl & Hlsl & Slsl).
  rewrite Hlo, Hlf, Hlsl. cbn [Go.bind].
  eexists. split; [reflexivity|].
  cbn [loadtest.Overall loadtest.FastOnly loadtest.SlowOnly].
  assert (Lsf : Go.len (loadtest.sortInt64 fast) = Go.len fast) by apply len_sortInt64.
  assert (Lss : Go.len (loadtest.sortInt64 slow) = Go.len slow) by apply len_sortInt64.
  rewrite Lsf, Lss.
  split; [exact Slo|]. split.
  - destruct (Z.ltb_spec 0 (Go.len fast)) as [Hp|Hz].
    + apply len_nil_iff in Hp. auto.
    + destruct fast; [reflexivity|]. unfold Go.len in Hz. simpl in Hz. lia.
  - destruct (Z.ltb_spec 0 (Go.len slow)) as [Hp|Hz].
    + apply len_nil_iff in Hp. auto.
    + destruct slow; [reflexivity|]. unfold Go.len in Hz. simpl in Hz. lia.
Qed.

Lemma report_summarises_samples_witness :
  exists report,
    loadtest.printResults (fun _ => - 2 ^ 63)
      (loadtest.runLoadTest
         [(loadtest.Fast, loadtest.Answered 200 true 12);
          (loadtest.Slow, loadtest.PostFailed)] loadtest.zeroStats) 1000000000
    = Go.Ok report /\
    loadtest.SlowOnly report = None.
Proof.
  assert (Hb : Go.len [(loadtest.Fast, loadtest.Answered 200 true 12);
                       (loadtest.Slow, loadtest.PostFailed)] < 2 ^ 60)
    by (vm_compute; reflexivity).
  destruct (report_summarises_samples (fun _ => - 2 ^ 63) _ 1000000000 Hb)
    as (report & Hr & _ & _ & Hslow).
  exists report. split; [exact Hr|].
  destruct (loadtest.SlowOnly report) as [ls|]; [|reflexivity].
  destruct Hslow as [Hne _]. exfalso. apply Hne. reflexivity.
Defined.

Lemma sumZ_nonneg (l : list Z) :
  (forall x, In x l -> 0 <= x) -> 0 <= fold_right Z.add 0 l.
Proof.
  induction l as [|a l IH]; intros H; simpl; [lia|].
  pose proof (H a (or_introl eq_refl)).
  assert (0 <= fold_right Z.add 0 l) by (apply IH; intros x Hx; apply H; right; exact Hx).
  lia.
Qed.

Lemma fold_wrap_sumZ (l : list Z) :
  forall acc : Z,
    0 <= acc -> (forall x, In x l -> 0 <= x) -> acc + fold_right Z.add 0 l < 2 ^ 63 ->
    fold_left (fun acc lat => Go.wrapS 64 (acc + lat)) l acc = acc + fold_right Z.add 0 l.
Proof.
  induction l as [|a l IH]; intros acc H0 Hpos Hb; cbn [fold_left fold_right] in *.
  - lia.
  - pose proof (Hpos a (or_introl eq_refl)) as Ha.
    assert (Hl : forall x, In x l -> 0 <= x) by (intros x Hx; apply Hpos; right; exact Hx).
    pose proof (sumZ_nonneg l Hl) as Hs.
    rewrite wrapS_small by lia. rewrite IH; [lia|lia|exact Hl|lia].
Qed.

Lemma sumZ_bounds (l : list Z) (a b : Z) :
  (forall x, In x l -> a <= x <= b) ->
  Go.len l * a <= fold_right Z.add 0 l <= Go.len l * b.
Proof.
  unfold Go.len. induction l as [|y l IH]; intros H; cbn [fold_right length].
  - simpl. lia.
  - pose proof (H y (or_introl eq_refl)).
    assert (Z.of_nat (length l) * a <= fold_right Z.add 0 l <= Z.of_nat (length l) * b)
      by (apply IH; intros x Hx; apply H; right; exact Hx).
    rewrite Nat2Z.inj_succ. lia.
Qed.

(** X13.  When no latency is negative and their sum fits an int64, the average
    printed for a collection is the integer mean of its samples, and it lies
    between the minimum and the maximum. *)
Theorem average_within_extremes (unrepresentable : spec_float -> Z) (l : list Z) :
  l <> [] -> Go.len l < 2 ^ 60 ->
  (forall x, In x l -> 0 <= x) ->
  fold_right Z.add 0 l < 2 ^ 63 ->
  exists ls,
    loadtest.latencyStats unrepresentable (loadtest.sortInt64 l) = Go.Ok ls /\
    loadtest.Average ls = fold_right Z.add 0 l / Go.len l /\
    loadtest.Minimum ls <= loadtest.Average ls <= loadtest.Maximum ls.
Proof.
  intros Hne Hlt Hpos Hsum.
  destruct (latencyStats_summarises unrepresentable l Hne Hlt) as (ls & Hls & Hsm & Havg).
  exists ls. split; [exact Hls|].
  pose proof (sortInt64_permutation l) as HP.
  assert (Hlen : 0 < Go.len l) by (apply len_nil_iff, Hne).
  pose proof (sumZ_nonneg l Hpos) as Hs0.
  rewrite fold_wrap_sumZ in Havg.
  - rewrite Z.add_0_l, (sumZ_perm _ _ HP) in Havg.
    rewrite Z.quot_div_nonneg in Havg by lia.
    destruct Hsm as (_ & _ & Hb & _).
    pose proof (sumZ_bounds l _ _ Hb) as [Hlo Hhi].
    assert (Hq : loadtest.Minimum ls <= fold_right Z.add 0 l / Go.len l <= loadtest.Maximum ls).
    { split.
      - apply Z.div_le_lower_bound; lia.
      - apply Z.div_le_upper_bound; lia. }
    assert (Hq0 : 0 <= fold_right Z.add 0 l / Go.len l < 2 ^ 63).
    { split; [apply Z.div_pos; lia|].
      apply Z.div_lt_upper_bound; [lia|]. nia. }
    rewrite wrapS_small in Havg by lia. rewrite Havg. split; [reflexivity|exact Hq].
  - lia.
  - intros x Hx. apply Hpos, In_sortInt64, Hx.
  - rewrite Z.add_0_l, (sumZ_perm _ _ HP). exact Hsum.
Qed.

Lemma average_within_extremes_witness :
  exists ls,
    loadtest.latencyStats (fun _ => - 2 ^ 63) (loadtest.sortInt64 [30; 10; 20]) = Go.Ok ls /\
    loadtest.Average ls = fold_right Z.add 0 [30; 10; 20] / Go.len [30; 10; 20] /\
    loadtest.Minimum ls <= loadtest.Average ls <= loadtest.Maximum ls.
Proof.
  apply (average_within_extremes (fun _ => - 2 ^ 63) [30; 10; 20]).
  - intros ?; discriminate.
  - vm_compute. reflexivity.
  - intros x [<-|[<-|[<-|[]]]]; lia.
  - vm_compute. reflexivity.
Defined.

(** ** Load generator: the order of the percentiles *)

Example percentile_constants :
  float64.decimal 50 100 = S754_finite false 4503599627370496 (-53) /\
  float64.decimal 90 100 = S754_finite false 8106479329266893 (-53) /\
  float64.decimal 99 100 = S754_finite false 8917127262193582 (-53).
Proof. repeat split; vm_compute; reflexivity. Qed.

Lemma truncate_finite (m : positive) (e v : Z) :
  (0 <= e -> v = Z.pos m * 2 ^ e) ->
  (e < 0 -> v = Z.pos m / 2 ^ (- e)) ->
  0 <= v < 2 ^ 63 ->
  float64.truncate (S754_finite false m e) = Some v.
Proof.
  intros Hpos Hneg Hv. unfold float64.truncate.
  destruct (Z.leb_spec 0 e) as [He|He].
  - rewrite <- (Hpos He).
    destruct (Z.leb_spec (- 2 ^ 63) v); [|lia]. destruct (Z.ltb_spec v (2 ^ 63)); [|lia].
    reflexivity.
  - rewrite <- (Hneg He).
    destruct (Z.leb_spec (- 2 ^ 63) v); [|lia]. destruct (Z.ltb_spec v (2 ^ 63)); [|lia].
    reflexivity.
Qed.

(** The index computed for a count below 2^53 and a percentile in
    [1/2, 1): the exact product of the two mantissas, cut to an integer, up
    to one unit in the last place of the rounded product. *)
Lemma percentile_index_bounds (n : Z) (mp : positive) :
  0 < n < 2 ^ 53 -> 2 ^ 52 <= Z.pos mp < 2 ^ 53 ->
  exists idx,
    float64.truncate (float64.mul (float64.ofInt n) (S754_finite false mp (-53))) = Some idx /\
    (n * 2 ^ (53 - Zdigits2 n) * Z.pos mp - 2 ^ 53) / 2 ^ (106 - Zdigits2 n) <= idx /\
    idx <= (n * 2 ^ (53 - Zdigits2 n) * Z.pos mp + 2 ^ 53) / 2 ^ (106 - Zdigits2 n).
Proof.
  intros Hn Hmp.
  destruct (ofInt_exact n Hn) as (mn & En & Vn & Dn).
  pose proof (range_of_digits mn Dn) as Rn.
  destruct (Zdigits2_bounds n ltac:(lia)) as (Hd1 & _ & _).
  pose proof (Zdigits2_le n 53 ltac:(lia) ltac:(lia)) as Hd53.
  rewrite <- Vn. set (dn := Zdigits2 n) in *.
  rewrite En. unfold float64.mul, SFmul. cbn [xorb].
  assert (HM : Z.pos (mn * mp) = Z.pos mn * Z.pos mp) by apply Pos2Z.inj_mul.
  set (M := Z.pos (mn * mp)) in *. rewrite <- HM.
  assert (HMr : 2 ^ 104 <= M < 2 ^ 106) by (rewrite HM; nia).
  assert (HdM : 105 <= Zdigits2 M <= 106).
  { destruct (Zdigits2_bounds M ltac:(lia)) as (_ & Hlo & Hhi).
    split.
    - destruct (Z.le_gt_cases 105 (Zdigits2 M)) as [?|Hlt]; [assumption|].
      assert (2 ^ Zdigits2 M <= 2 ^ 104) by (apply Z.pow_le_mono_r; lia). lia.
    - apply Zdigits2_le; lia. }
  destruct (binary_round_aux_normal false M (dn - 53 + -53) loc_Exact ltac:(lia) ltac:(lia)
              ltac:(lia) ltac:(lia)) as (_ & HR & HQ & Hcases).
  cbv zeta in HR, HQ, Hcases.
  set (R := round_nearest_even _ _) in *. clearbody R.
  set (k := Zdigits2 M - 53) in *.
  assert (Hk : 52 <= k <= 53) by (unfold k; lia).
  set (s := 106 - dn).
  assert (Hs : 53 <= s <= 105) by (unfold s; lia).
  assert (Hpk : 0 < 2 ^ k) by (apply Z.pow_pos_nonneg; lia).
  assert (Hpsk : 0 < 2 ^ (s - k)) by (apply Z.pow_pos_nonneg; lia).
  assert (Hps : 2 ^ s = 2 ^ k * 2 ^ (s - k))
    by (rewrite <- Z.pow_add_r by lia; f_equal; lia).
  (* the index is the rounded mantissa cut at the binary point *)
  assert (Hidx : M / 2 ^ s <= R / 2 ^ (s - k) <= (M + 2 ^ k) / 2 ^ s).
  { rewrite Hps, <- !Z.div_div by lia. split.
    - apply Z.div_le_mono; lia.
    - apply Z.div_le_mono; [lia|].
      replace (M + 2 ^ k) with (M + 1 * 2 ^ k) by lia.
      rewrite Z.div_add by lia. lia. }
  assert (Hlo : (M - 2 ^ 53) / 2 ^ s <= M / 2 ^ s)
    by (apply Z.div_le_mono; [apply Z.pow_pos_nonneg|]; lia).
  assert (Hhi : (M + 2 ^ k) / 2 ^ s <= (M + 2 ^ 53) / 2 ^ s).
  { apply Z.div_le_mono; [apply Z.pow_pos_nonneg; lia|].
    assert (2 ^ k <= 2 ^ 53) by (apply Z.pow_le_mono_r; lia). lia. }
  assert (Hrange : 0 <= R / 2 ^ (s - k) < 2 ^ 63).
  { split; [apply Z.div_pos; lia|].
    apply Z.le_lt_trans with R; [|lia].
    apply Z.div_le_upper_bound; [lia|]. nia. }
  exists (R / 2 ^ (s - k)). split; [|lia].
  destruct Hcases as [(HRlt & m & Em & ->)|(HR53 & ->)].
  - apply truncate_finite; [| |exact Hrange].
    + intros He. assert (Esk : s - k = 0) by (unfold s; lia).
      rewrite Esk. replace (dn - 53 + -53 + k) with 0 by (unfold s in Esk; lia).
      rewrite Em. simpl. rewrite Z.div_1_r. lia.
    + intros He. rewrite Em. f_equal. f_equal. unfold s. lia.
  - apply truncate_finite; [| |exact Hrange].
    + intros He. rewrite HR53.
      assert (Esk : s - k = 0 \/ s - k = 1) by (unfold s; lia).
      destruct Esk as [Esk|Esk]; rewrite Esk.
      * replace (dn - 53 + -53 + k + 1) with 1 by (unfold s in Esk; lia). reflexivity.
      * replace (dn - 53 + -53 + k + 1) with 0 by (unfold s in Esk; lia). reflexivity.
    + intros He. rewrite HR53.
      replace (- (dn - 53 + -53 + k + 1)) with (s - k - 1) by (unfold s; lia).
      change (Z.pos (2 ^ 52)) with (2 ^ 52).
      replace (2 ^ 53) with (2 ^ 52 * 2) by reflexivity.
      replace (2 ^ (s - k)) with (2 ^ (s - k - 1) * 2).
      * rewrite Z.div_mul_cancel_r; [reflexivity| |lia].
        apply Z.pow_nonzero; [lia|unfold s in *; lia].
      * rewrite Z.mul_comm, <- Z.pow_succ_r by (unfold s in *; lia). f_equal. lia.
Qed.

Lemma percentile_index_mono (n : Z) (mp1 mp2 : positive) (idx1 idx2 : Z) :
  0 < n < 2 ^ 53 ->
  2 ^ 52 <= Z.pos mp1 -> Z.pos mp1 + 4 <= Z.pos mp2 -> Z.pos mp2 < 2 ^ 53 ->
  float64.truncate (float64.mul (float64.ofInt n) (S754_finite false mp1 (-53))) = Some idx1 ->
  float64.truncate (float64.mul (float64.ofInt n) (S754_finite false mp2 (-53))) = Some idx2 ->
  idx1 <= idx2.
Proof.
  intros Hn H1 H12 H2 E1 E2.
  destruct (percentile_index_bounds n mp1 Hn ltac:(lia)) as (i1 & E1' & _ & Hhi).
  destruct (percentile_index_bounds n mp2 Hn ltac:(lia)) as (i2 & E2' & Hlo & _).
  rewrite E1 in E1'. injection E1' as <-. rewrite E2 in E2'. injection E2' as <-.
  destruct (ofInt_exact n Hn) as (mn & _ & Vn & Dn).
  pose proof (range_of_digits mn Dn) as Rn. rewrite Vn in Rn.
  set (A := n * 2 ^ (53 - Zdigits2 n)) in *.
  destruct (Zdigits2_bounds n ltac:(lia)) as (Hd1 & _ & _).
  pose proof (Zdigits2_le n 53 ltac:(lia) ltac:(lia)) as Hd53.
  assert (Hmono : (A * Z.pos mp1 + 2 ^ 53) / 2 ^ (106 - Zdigits2 n) <=
                  (A * Z.pos mp2 - 2 ^ 53) / 2 ^ (106 - Zdigits2 n)).
  { apply Z.div_le_mono; [apply Z.pow_pos_nonneg; lia|]. nia. }
  lia.
Qed.

Lemma sorted_nth_le (l : list Z) :
  StronglySorted Z.le l ->
  forall i j : nat, (i <= j < length l)%nat -> nth i l 0 <= nth j l 0.
Proof.
  intros Hs. induction Hs as [|a l Hs IH Ha]; intros i j Hij; [simpl in Hij; lia|].
  destruct i as [|i], j as [|j]; cbn [nth]; cbn [length] in Hij; try lia.
  - apply (proj1 (List.Forall_forall _ _) Ha). apply nth_In. lia.
  - apply IH. lia.
Qed.

Lemma latencyStats_fields (u : spec_float -> Z) (sorted : list Z)
      (ls : loadtest.LatencyStats) :
  0 < Go.len sorted ->
  loadtest.latencyStats u sorted = Go.Ok ls ->
  loadtest.calculatePercentile u sorted (float64.decimal 50 100) = Go.Ok (loadtest.P50 ls) /\
  loadtest.calculatePercentile u sorted (float64.decimal 90 100) = Go.Ok (loadtest.P90 ls) /\
  loadtest.calculatePercentile u sorted (float64.decimal 99 100) = Go.Ok (loadtest.P99 ls).
Proof.
  intros Hlen. unfold loadtest.latencyStats.
  destruct (Z.ltb_spec 0 (Go.len sorted)) as [_|?]; [|lia].
  destruct (Go.index sorted 0) as [lo|]; cbn [Go.bind]; [|discriminate].
  destruct (Go.index sorted (Go.len sorted - 1)) as [hi|]; cbn [Go.bind]; [|discriminate].
  destruct (loadtest.calculatePercentile u sorted (float64.decimal 50 100)) as [p50|];
    cbn [Go.bind]; [|discriminate].
  destruct (loadtest.calculatePercentile u sorted (float64.decimal 90 100)) as [p90|];
    cbn [Go.bind]; [|discriminate].
  destruct (loadtest.calculatePercentile u sorted (float64.decimal 99 100)) as [p99|];
    cbn [Go.bind]; [|discriminate].
  intros [= <-]. cbn. auto.
Qed.

(** The element calculatePercentile selects, with its index. *)
Lemma calculatePercentile_nth (u : spec_float -> Z) (sorted : list Z) (mp : positive) :
  0 < Go.len sorted < 2 ^ 53 -> 2 ^ 52 <= Z.pos mp < 2 ^ 53 ->
  exists idx,
    float64.truncate (float64.mul (float64.ofInt (Go.len sorted))
                                  (S754_finite false mp (-53))) = Some idx /\
    0 <= idx /\
    loadtest.calculatePercentile u sorted (S754_finite false mp (-53)) =
      Go.Ok (nth (Z.to_nat (Z.min idx (Go.len sorted - 1))) sorted 0).
Proof.
  intros Hlen Hmp.
  destruct (percentile_index_bounds (Go.len sorted) mp Hlen Hmp) as (idx & Ht & _ & _).
  assert (Hidx : 0 <= idx).
  { apply (percentile_index_nonneg (Go.len sorted) (S754_finite false mp (-53)) idx);
      [lia|reflexivity|exact Ht]. }
  exists idx. split; [exact Ht|]. split; [exact Hidx|].
  apply calculatePercentile_index; [lia|exact Hidx|exact Ht].
Qed.

(** X14.  For fewer than 2^53 samples the figures of a latency block are in
    order: minimum, 50th, 90th and 99th percentile, maximum. *)
Theorem percentiles_ordered (unrepresentable : spec_float -> Z) (l : list Z) :
  l <> [] -> Go.len l < 2 ^ 53 ->
  exists ls,
    loadtest.latencyStats unrepresentable (loadtest.sortInt64 l) = Go.Ok ls /\
    loadtest.Minimum ls <= loadtest.P50 ls /\
    loadtest.P50 ls <= loadtest.P90 ls /\
    loadtest.P90 ls <= loadtest.P99 ls /\
    loadtest.P99 ls <= loadtest.Maximum ls.
Proof.
  intros Hne Hlt.
  destruct (latencyStats_summarises unrepresentable l Hne ltac:(lia))
    as (ls & Hls & (_ & _ & Hb & I50 & _ & I99) & _).
  exists ls. split; [exact Hls|].
  pose proof (sortInt64_sorted l) as HS.
  assert (Hlen : Go.len (loadtest.sortInt64 l) = Go.len l) by apply len_sortInt64.
  assert (Hpos : 0 < Go.len l) by (apply len_nil_iff, Hne).
  set (sorted := loadtest.sortInt64 l) in *.
  destruct (latencyStats_fields unrepresentable sorted ls ltac:(lia) Hls) as (H50 & H90 & H99).
  destruct percentile_constants as (C50 & C90 & C99).
  rewrite C50 in H50. rewrite C90 in H90. rewrite C99 in H99.
  destruct (calculatePercentile_nth unrepresentable sorted 4503599627370496
              ltac:(lia) ltac:(lia)) as (i50 & T50 & P50 & E50).
  destruct (calculatePercentile_nth unrepresentable sorted 8106479329266893
              ltac:(lia) ltac:(lia)) as (i90 & T90 & P90 & E90).
  destruct (calculatePercentile_nth unrepresentable sorted 8917127262193582
              ltac:(lia) ltac:(lia)) as (i99 & T99 & P99 & E99).
  rewrite H50 in E50. injection E50 as E50.
  rewrite H90 in E90. injection E90 as E90.
  rewrite H99 in E99. injection E99 as E99.
  pose proof (percentile_index_mono (Go.len sorted) 4503599627370496 8106479329266893
                i50 i90 ltac:(lia) ltac:(lia) ltac:(lia) ltac:(lia) T50 T90) as M1.
  pose proof (percentile_index_mono (Go.len sorted) 8106479329266893 8917127262193582
                i90 i99 ltac:(lia) ltac:(lia) ltac:(lia) ltac:(lia) T90 T99) as M2.
  split; [apply Hb, I50|]. split; [|split; [|apply Hb, I99]].
  - rewrite E50, E90. apply sorted_nth_le; [exact HS|]. unfold Go.len in *. lia.
  - rewrite E90, E99. apply sorted_nth_le; [exact HS|]. unfold Go.len in *. lia.
Qed.

Lemma percentiles_ordered_witness :
  exists ls,
    loadtest.latencyStats (fun _ => - 2 ^ 63) (loadtest.sortInt64 [30; 10; 20]) = Go.Ok ls /\
    loadtest.Minimum ls <= loadtest.P50 ls /\
    loadtest.P50 ls <= loadtest.P90 ls /\
    loadtest.P90 ls <= loadtest.P99 ls /\
    loadtest.P99 ls <= loadtest.Maximum ls.
Proof.
  apply (percentiles_ordered (fun _ => - 2 ^ 63) [30; 10; 20]).
  - intros ?; discriminate.
  - vm_compute. reflexivity.
Defined.

(** ** Load generator: the slow reader *)

(** X15.  A slow reader made with a speed above -10 bytes per second passes the
    wrapped reader a window of the caller's buffer that is never longer
    than the buffer nor than a tenth of the speed (one byte at least), and
    not empty unless the buffer is; made with a speed of -10 or less it
    panics on the first read into a non-empty buffer. *)
Theorem slow_reader_window (bytesPerSec lenp : Z) :
  0 <= lenp ->
  (-10 < bytesPerSec ->
   exists n, loadtest.readWindow bytesPerSec lenp = Go.Ok n /\
             0 <= n <= lenp /\ n <= Z.max 1 (bytesPerSec / 10) /\
             (0 < lenp -> 1 <= n)) /\
  (bytesPerSec <= -10 -> 0 < lenp ->
   exists msg, loadtest.readWindow bytesPerSec lenp = Go.Panic msg).
Proof.
  intros Hlen. unfold loadtest.readWindow, loadtest.chunkSize. cbv zeta. split.
  - intros Hbps.
    assert (Hq : 0 <= Z.quot bytesPerSec 10 /\
                 (0 < Z.quot bytesPerSec 10 -> Z.quot bytesPerSec 10 = bytesPerSec / 10)).
    { destruct (Z.le_gt_cases 0 bytesPerSec) as [Hnn|Hneg].
      - split; [apply Z.quot_pos; lia|]. intros _. apply Z.quot_div_nonneg; lia.
      - rewrite <- (Z.opp_involutive bytesPerSec), Z.quot_opp_l by lia.
        rewrite Z.quot_small by lia. lia. }
    destruct Hq as [Hq0 Hqd].
    set (q := Z.quot bytesPerSec 10) in *.
    set (k := if q =? 0 then 1 else q).
    assert (Hk : 1 <= k /\ k <= Z.max 1 (bytesPerSec / 10)).
    { unfold k. destruct (Z.eqb_spec q 0) as [E0|Hne]; [lia|].
      rewrite <- Hqd by lia. lia. }
    set (n := if lenp <? k then lenp else k).
    assert (Hn : 0 <= n <= lenp /\ n <= k /\ (0 < lenp -> 1 <= n)).
    { unfold n. destruct (Z.ltb_spec lenp k); lia. }
    destruct (Z.ltb_spec n 0); [lia|]. destruct (Z.ltb_spec lenp n); [lia|].
    cbn [orb]. exists n. split; [reflexivity|]. lia.
  - intros Hbps Hpos.
    assert (Hq : Z.quot bytesPerSec 10 <= -1).
    { rewrite <- (Z.opp_involutive bytesPerSec), Z.quot_opp_l by lia.
      assert (1 <= Z.quot (- bytesPerSec) 10).
      { rewrite Z.quot_div_nonneg by lia. apply Z.div_le_lower_bound; lia. }
      lia. }
    destruct (Z.eqb_spec (Z.quot bytesPerSec 10) 0) as [E0|Hne]; [lia|].
    destruct (Z.ltb_spec lenp (Z.quot bytesPerSec 10)); [lia|].
    destruct (Z.ltb_spec (Z.quot bytesPerSec 10) 0); [|lia].
    cbn [orb]. eauto.
Qed.

Lemma slow_reader_window_witness :
  (exists n, loadtest.readWindow 1024 32768 = Go.Ok n /\
             0 <= n <= 32768 /\ n <= Z.max 1 (1024 / 10) /\ (0 < 32768 -> 1 <= n)) /\
  exists msg, loadtest.readWindow (-100) 32768 = Go.Panic msg.
Proof.
  assert (H0 : 0 <= 32768) by lia.
  split.
  - apply (proj1 (slow_reader_window 1024 32768 H0)). lia.
  - apply (proj2 (slow_reader_window (-100) 32768 H0)); lia.
Defined.

(** ** Payload store: the listing order *)

Lemma ascii_compare_eq (a b : ascii) : Ascii.compare a b = Eq -> a = b.
Proof. apply Ascii.compare_eq_iff. Qed.

Lemma string_leb_trans (a b c : string) :
  String.leb a b = true -> String.leb b c = true -> String.leb a c = true.
Proof.
  unfold String.leb. revert b c.
  induction a as [|x a IH]; intros [|y b] [|z c]; simpl; try congruence.
  unfold Ascii.compare.
  destruct (N.compare_spec (N_of_ascii x) (N_of_ascii y)) as [Exy|Hxy|Hxy];
    destruct (N.compare_spec (N_of_ascii y) (N_of_ascii z)) as [Eyz|Hyz|Hyz];
    destruct (N.compare_spec (N_of_ascii x) (N_of_ascii z)) as [Exz|Hxz|Hxz];
    try congruence; try lia.
  apply IH.
Qed.

Ltac leb_saturate :=
  repeat match goal with
         | H : String.leb ?a ?b = false |- _ =>
             lazymatch goal with
             | _ : String.leb b a = true |- _ => fail
             | _ => let T := fresh "T" in
                    destruct (String.leb_total a b) as [T|T]; [congruence|]
             end
         end;
  repeat match goal with
         | H1 : String.leb ?a ?b = true, H2 : String.leb ?b ?c = true |- _ =>
             lazymatch goal with
             | _ : String.leb a c = true |- _ => fail
             | _ => pose proof (string_leb_trans a b c H1 H2)
             end
         end.

Lemma insertString_comm (x y : string) (l : list string) :
  insertString x (insertString y l) = insertString y (insertString x l).
Proof.
  induction l as [|z l IH]; simpl.
  - destruct (String.leb x y) eqn:Exy, (String.leb y x) eqn:Eyx; try reflexivity.
    + now rewrite (String.leb_antisym x y Exy Eyx).
    + destruct (String.leb_total x y); congruence.
  - destruct (String.leb y z) eqn:Eyz, (String.leb x z) eqn:Exz; simpl;
      repeat (match goal with
              | |- context [String.leb ?a ?b] => destruct (String.leb a b) eqn:?; simpl
              end);
      try reflexivity; try (rewrite IH; reflexivity);
      leb_saturate; try congruence;
      try (match goal with
           | H1 : String.leb x y = true, H2 : String.leb y x = true |- _ =>
               rewrite (String.leb_antisym x y H1 H2); reflexivity
           end).
Qed.

(** sort.Strings forgets the order of its input. *)
Lemma sortStrings_perm (l l' : list string) :
  Permutation l l' -> sortStrings l = sortStrings l'.
Proof.
  unfold sortStrings.
  intros HP. induction HP as [|x l l' _ IH|x y l|l l' l'' _ IH1 _ IH2]; simpl.
  - reflexivity.
  - now rewrite IH.
  - apply insertString_comm.
  - now rewrite IH1.
Qed.

Lemma find_unique (entries : list DirEntry) (e : DirEntry) :
  NoDup (List.map EntryName entries) -> In e entries ->
  List.find (fun e' => String.eqb (EntryName e') (EntryName e)) entries = Some e.
Proof.
  induction entries as [|a entries IH]; intros Hnd Hin; [destruct Hin|].
  cbn [List.map] in Hnd. apply NoDup_cons in Hnd. destruct Hnd as [Hna Hnd].
  cbn [List.find]. destruct Hin as [->|Hin].
  - now rewrite String.eqb_refl.
  - destruct (String.eqb_spec (EntryName a) (EntryName e)) as [E|_].
    + exfalso. apply Hna. rewrite E. apply list_elem_of_In, in_map, Hin.
    + apply IH; assumption.
Qed.

Lemma fold_left_ext_in {S A} (f g : S -> A -> S) (l : list A) :
  (forall s a, In a l -> f s a = g s a) ->
  forall s, fold_left f l s = fold_left g l s.
Proof.
  induction l as [|a l IH]; intros H s; [reflexivity|].
  cbn [fold_left]. rewrite (H s a (or_introl eq_refl)).
  apply IH. intros s' a' Ha'. apply H. right. exact Ha'.
Qed.

Section ListingOrder.

Variable Marshal : json.value -> option string.

(** X16.  Initialisation depends on the payload files only: neither the order in
    which os.ReadDir lists the entries nor the entries that are not payload
    files change the table or the log. *)
Theorem init_ignores_listing (entries entries' : list DirEntry) :
  NoDup (List.map EntryName entries) ->
  NoDup (List.map EntryName entries') ->
  Permutation (List.filter isPayloadFile entries) (List.filter isPayloadFile entries') ->
  init Marshal (Some entries) = init Marshal (Some entries') /\
  start Marshal (Some entries) = start Marshal (Some entries').
Proof.
  intros Hnd Hnd' HP.
  assert (Hnames : sortStrings (payloadNames entries) = sortStrings (payloadNames entries')).
  { apply sortStrings_perm. unfold payloadNames. apply Permutation_map, HP. }
  assert (Hread : forall name, In name (sortStrings (payloadNames entries)) ->
                    ReadFile entries name = ReadFile entries' name).
  { intros name Hin. apply (proj1 (In_sortStrings name _)) in Hin.
    unfold payloadNames in Hin.
    apply in_map_iff in Hin. destruct Hin as (e & <- & He).
    assert (He' : In e (List.filter isPayloadFile entries'))
      by (apply (Permutation_in _ HP), He).
    apply filter_In in He, He'. unfold ReadFile.
    rewrite (find_unique entries e Hnd (proj1 He)).
    rewrite (find_unique entries' e Hnd' (proj1 He')). reflexivity. }
  assert (Hinit : init Marshal (Some entries) = init Marshal (Some entries')).
  { unfold init. rewrite <- Hnames.
    rewrite (fold_left_ext_in (loadFile Marshal entries) (loadFile Marshal entries')).
    - reflexivity.
    - intros s name Hin. unfold loadFile. rewrite (Hread name Hin). reflexivity. }
  split; [exact Hinit|]. unfold start. now rewrite Hinit.
Qed.

End ListingOrder.

Lemma init_ignores_listing_witness :
  init (fun _ => Some "null"%string)
       (Some [mkEntry "b.json" false (Some "{}"%string);
              mkEntry "notes.txt" false (Some "x"%string);
              mkEntry "a.json" false (Some "{}"%string)]) =
  init (fun _ => Some "null"%string)
       (Some [mkEntry "a.json" false (Some "{}"%string);
              mkEntry "b.json" false (Some "{}"%string)]).
Proof.
  apply (init_ignores_listing (fun _ => Some "null"%string)
           [mkEntry "b.json" false (Some "{}"%string);
            mkEntry "notes.txt" false (Some "x"%string);
            mkEntry "a.json" false (Some "{}"%string)]
           [mkEntry "a.json" false (Some "{}"%string);
            mkEntry "b.json" false (Some "{}"%string)]).
  - apply (bool_decide_unpack _). vm_compute. exact I.
  - apply (bool_decide_unpack _). vm_compute. exact I.
  - vm_compute. apply perm_swap.
Defined.

(** ** Payload store: files with a "payloads" array *)

Section ArrayFiles.

Variable Marshal : json.value -> option string.

Lemma explode_indexed (name : string) (items : list json.value) :
  forall (i : nat) (st : Loader),
    payloads (explode Marshal name i items st) =
    payloads st ++
    flat_map (fun ki : nat * json.value =>
                match Marshal (snd ki) with
                | Some itemBytes =>
                    [{| Name := (name ++ "[" ++ itoa (fst ki) ++ "]")%string;
                        Content := itemBytes |}]
                | None => []
                end)
             (combine (seq i (length items)) items).
Proof.
  induction items as [|item items IH]; intros i st; cbn [explode length seq combine flat_map].
  - now rewrite app_nil_r.
  - cbn [fst snd]. destruct (Marshal item) as [itemBytes|]; rewrite IH; cbn [payloads appendPayload logLine].
    + now rewrite <- app_assoc.
    + reflexivity.
Qed.

Lemma indexed_length (name : string) (items : list json.value) (i : nat) :
  let out := flat_map (fun ki : nat * json.value =>
                         match Marshal (snd ki) with
                         | Some itemBytes =>
                             [{| Name := (name ++ "[" ++ itoa (fst ki) ++ "]")%string;
                                 Content := itemBytes |}]
                         | None => []
                         end)
                      (combine (seq i (length items)) items) in
  (length out <= length items)%nat /\
  ((forall item, In item items -> Marshal item <> None) ->
   length out = length items /\
   forall k p, nth_error out k = Some p ->
               Name p = (name ++ "[" ++ itoa (i + k) ++ "]")%string /\
               exists item, nth_error items k = Some item /\
                            Marshal item = Some (Content p)).
Proof.
  revert i. induction items as [|item items IH]; intros i; cbv zeta;
    cbn [length seq combine flat_map].
  - split; [lia|]. intros _. split; [reflexivity|]. intros [|k] p; discriminate.
  - cbn [fst snd]. specialize (IH (S i)). cbv zeta in IH. destruct IH as [IH1 IH2].
    destruct (Marshal item) as [b|] eqn:EM.
    + cbn [app length]. split; [lia|].
      intros Hall.
      destruct (IH2 ltac:(intros it Hit; apply Hall; right; exact Hit)) as [IH3 IH4].
      split; [lia|].
      intros [|k] p; cbn [nth_error].
      * intros [= <-]. cbn [Name Content]. replace (i + 0)%nat with i by lia.
        split; [reflexivity|]. exists item. auto.
      * intros Hk. destruct (IH4 k p Hk) as [Hn Hitem].
        split; [|exact Hitem]. rewrite Hn.
        replace (S i + k)%nat with (i + S k)%nat by lia. reflexivity.
    + cbn [app]. split; [lia|].
      intros Hall. exfalso. apply (Hall item); [left; reflexivity|exact EM].
Qed.

(** X17.  A file whose decoded map has a "payloads" array gives one variant per
    array element that json.Marshal accepts, in array order, named after the
    file and the element's index in the array, with the marshalled element
    as content; the file's own content is not a variant, and an empty array
    gives none. *)
Theorem array_file_variants (entries : list DirEntry) (name content : string)
        (parsed : list (string * json.value)) (items : list json.value) :
  ReadFile entries name = Some content ->
  json.UnmarshalMap content = Some parsed ->
  json.mapIndex parsed "payloads" = Some (json.Array items) ->
  variants Marshal entries name =
    flat_map (fun ki : nat * json.value =>
                match Marshal (snd ki) with
                | Some itemBytes =>
                    [{| Name := (name ++ "[" ++ itoa (fst ki) ++ "]")%string;
                        Content := itemBytes |}]
                | None => []
                end)
             (combine (seq 0 (length items)) items) /\
  Go.len (variants Marshal entries name) <= Go.len items /\
  ((forall item, In item items -> Marshal item <> None) ->
   Go.len (variants Marshal entries name) = Go.len items /\
   forall k p, nth_error (variants Marshal entries name) k = Some p ->
               Name p = (name ++ "[" ++ itoa k ++ "]")%string /\
               exists item, nth_error items k = Some item /\
                            Marshal item = Some (Content p)).
Proof.
  intros Hread Hmap Hidx.
  assert (E : variants Marshal entries name =
              flat_map (fun ki : nat * json.value =>
                          match Marshal (snd ki) with
                          | Some itemBytes =>
                              [{| Name := (name ++ "[" ++ itoa (fst ki) ++ "]")%string;
                                  Content := itemBytes |}]
                          | None => []
                          end)
                       (combine (seq 0 (length items)) items)).
  { unfold variants, loadFile. rewrite Hread, Hmap, Hidx.
    cbn [payloads logLine]. rewrite explode_indexed. reflexivity. }
  rewrite E. clear E Hread Hmap Hidx.
  destruct (indexed_length name items 0) as [H1 H2]. cbv zeta in H1, H2.
  split; [reflexivity|]. split; [unfold Go.len; lia|].
  intros Hall. destruct (H2 Hall) as [H3 H4].
  split; [unfold Go.len; lia|]. exact H4.
Qed.

End ArrayFiles.

Lemma array_file_variants_witness :
  variants (fun _ => Some "null"%string)
           [mkEntry "z.json" false (Some ("{" ++ json.quote "payloads" ++ ":[1,{}]}")%string)]
           "z.json" =
  [{| Name := "z.json[0]"; Content := "null" |};
   {| Name := "z.json[1]"; Content := "null" |}].
Proof.
  apply (proj1 (array_file_variants (fun _ => Some "null"%string)
                  [mkEntry "z.json" false
                     (Some ("{" ++ json.quote "payloads" ++ ":[1,{}]}")%string)]
                  "z.json" ("{" ++ json.quote "payloads" ++ ":[1,{}]}")%string
                  [("payloads"%string,
                    json.Array [json.Number false 1 0; json.Object []])]
                  [json.Number false 1 0; json.Object []]
                  ltac:(vm_compute; reflexivity) ltac:(vm_compute; reflexivity)
                  ltac:(vm_compute; reflexivity))).
Defined.

(** ** Payload store: what the table holds *)

Section Table.

Variable Marshal : json.value -> option string.

(** X18.  The table of a process that serves holds exactly the variants of the
    payload files: no file's failure removes the variants of another, and
    the process serves as soon as one file gives a variant. *)
Theorem table_holds_all_variants (entries : list DirEntry) (p : Payload) :
  (exists e, In e entries /\ isPayloadFile e = true /\
             In p (variants Marshal entries (EntryName e))) <->
  (exists table, start Marshal (Some entries) = Serving table /\ In p table).
Proof.
  rewrite start_Some, produced_concat. split.
  - intros (e & Hin & Hfile & Hp).
    assert (Hc : In p (concat (List.map (variants Marshal entries)
                                        (sortStrings (payloadNames entries))))).
    { apply in_concat. exists (variants Marshal entries (EntryName e)).
      split; [|exact Hp]. apply in_map. apply payloadNames_In; assumption. }
    destruct (concat _) as [|q l] eqn:E; [destruct Hc|].
    change (Go.len (q :: l) =? 0) with (Z.of_nat (S (length l)) =? 0).
    destruct (Z.eqb_spec (Z.of_nat (S (length l))) 0) as [?|_]; [lia|].
    eexists. split; [reflexivity|exact Hc].
  - intros (table & Hs & Hp).
    destruct (Go.len _ =? 0); [discriminate|]. injection Hs as <-.
    apply in_concat in Hp. destruct Hp as (vs & Hvs & Hp).
    apply in_map_iff in Hvs. destruct Hvs as (name & <- & Hname).
    apply (proj1 (In_sortStrings name _)) in Hname. unfold payloadNames in Hname.
    apply in_map_iff in Hname. destruct Hname as (e & <- & He).
    apply filter_In in He. destruct He as [Hin Hfile].
    exists e. auto.
Qed.

End Table.

(** ** Payload store: the names of the variants *)















Section Names.

Variable Marshal : json.value -> option string.







End Names.


(** ** Handler: every table *)


(** ** The verifier against the server *)

Example coerce_examples :
  utf8.coerce "user-123" = "user-123"%string /\
  utf8.coerce (String (ascii_of_N 0xC3) (String (ascii_of_N 0xA9) "")) =
    String (ascii_of_N 0xC3) (String (ascii_of_N 0xA9) "") /\
  utf8.coerce (String (ascii_of_N 0xC3) "a") =
    String (ascii_of_N 0xEF) (String (ascii_of_N 0xBF) (String (ascii_of_N 0xBD) "a")) /\
  utf8.coerce (String (ascii_of_N 0xED) (String (ascii_of_N 0xA0) (String (ascii_of_N 0x80) ""))) =
    string_of_list_ascii (utf8.replacement ++ utf8.replacement ++ utf8.replacement).
Proof. repeat split; vm_compute; reflexivity. Qed.

Example fieldOf_examples :
  allocationtest.fieldOf "payload" = Some allocationtest.FPayload /\
  allocationtest.fieldOf "PayLoad" = Some allocationtest.FPayload /\
  allocationtest.fieldOf "payloads" = None /\
  allocationtest.fieldOf "selectedpayloadname" = Some allocationtest.FSelectedPayloadName.
Proof. repeat split; vm_compute; reflexivity. Qed.

Lemma fieldOf_keys :
  allocationtest.fieldOf (utf8.coerce "experimentId") = Some allocationtest.FExperimentID /\
  allocationtest.fieldOf (utf8.coerce "selectedPayloadName") =
    Some allocationtest.FSelectedPayloadName /\
  allocationtest.fieldOf (utf8.coerce "payload") = Some allocationtest.FPayload /\
  allocationtest.fieldOf (utf8.coerce "error") = None.
Proof. repeat split; vm_compute; reflexivity. Qed.

(** The reply to a successful response of the experiment handler. *)
Lemma makeRequest_success (name content : string) (v : json.value) :
  json.parse content = Some v ->
  allocationtest.makeRequest
    (allocationtest.Delivered
       {| fiber.Status := 200;
          fiber.Body :=
            fiber.JSONObject
              [("experimentId"%string, fiber.JString "exp-localization-v1");
               ("selectedPayloadName"%string, fiber.JString name);
               ("payload"%string, fiber.JRaw content)] |} true) =
  if allocationtest.textual v then Some (utf8.coerce name) else None.
Proof.
  intros Hp. unfold allocationtest.makeRequest.
  cbn [fiber.Status fiber.Body negb Z.eqb Pos.eqb allocationtest.document
       allocationtest.documentMembers].
  rewrite Hp. cbn [option_map allocationtest.Unmarshal fold_left].
  destruct fieldOf_keys as (K1 & K2 & K3 & _).
  unfold allocationtest.decodeMember at 3. cbn [fst snd]. rewrite K1.
  cbn [allocationtest.storeString allocationtest.ExperimentID
       allocationtest.SelectedPayloadName allocationtest.Payload
       allocationtest.zeroResponse].
  unfold allocationtest.decodeMember at 2. cbn [fst snd]. rewrite K2.
  cbn [allocationtest.storeString allocationtest.ExperimentID
       allocationtest.SelectedPayloadName allocationtest.Payload].
  unfold allocationtest.decodeMember. cbn [fst snd]. rewrite K3.
  cbn [allocationtest.ExperimentID allocationtest.SelectedPayloadName
       allocationtest.Payload].
  destruct v; reflexivity.
Qed.

Lemma index_In {T} (s : list T) (i : Z) (v : T) : Go.index s i = Go.Ok v -> In v s.
Proof.
  unfold Go.index. destruct (i <? 0); [discriminate|].
  destruct (nth_error s (Z.to_nat i)) eqn:E; [|discriminate].
  intros [= <-]. eapply nth_error_In, E.
Qed.

Lemma getPayloadForUser_In (table : list Payload) (u : string) (p : Payload) :
  getPayloadForUser table u = Go.Ok p -> In p table.
Proof.
  unfold getPayloadForUser. destruct (assignIndex u (Go.len table)) as [i|msg]; simpl;
    [apply index_In|discriminate].
Qed.

Lemma parse_of_Valid (content : string) :
  json.Valid content = true -> exists v, json.parse content = Some v.
Proof. unfold json.Valid. destruct (json.parse content); [eauto|discriminate]. Qed.

(** X21.  What the verifier makes of the server's answer to a request: nothing
    for a request the handler refuses; for the others the name of the
    selected variant, provided the body could be read and the variant's
    content is a JSON string or null, the only values the verifier's
    response struct accepts under "payload". *)
Theorem verifier_reply (table : list Payload) (c : fiber.Ctx) (bodyRead : bool) :
  0 < Go.len table -> List.Forall wellFormed table ->
  (badRequest c ->
   allocationtest.makeRequest
     (allocationtest.Delivered (serve (experiment table) c) bodyRead) = None) /\
  (forall userId,
     fiber.reqBody c = fiber.Decoded (Some userId) -> userId <> ""%string ->
     exists p v,
       getPayloadForUser table userId = Go.Ok p /\ In p table /\
       json.parse (Content p) = Some v /\
       allocationtest.makeRequest
         (allocationtest.Delivered (serve (experiment table) c) bodyRead) =
       if bodyRead && allocationtest.textual v then Some (utf8.coerce (Name p)) else None).
Proof.
  intros Hlen Hwf. split.
  - intros Hbad. destruct (experiment_refuses table c Hbad) as [Hst _].
    unfold allocationtest.makeRequest. rewrite Hst. reflexivity.
  - intros userId Hb Hne.
    destruct (getPayloadForUser_ok table userId Hlen) as (p & Hp & Hin).
    assert (Hw : wellFormed p) by (apply (proj1 (List.Forall_forall _ _) Hwf p Hin)).
    destruct (parse_of_Valid _ Hw) as [v Hv].
    exists p, v. repeat split; try assumption.
    rewrite (experiment_accepts table c userId p Hb Hne Hp Hw).
    destruct bodyRead.
    + rewrite (makeRequest_success _ _ v Hv). reflexivity.
    + reflexivity.
Qed.

Lemma verifier_reply_witness :
  exists p v,
    getPayloadForUser [{| Name := "a.json"; Content := "{}" |}] "user-123" = Go.Ok p /\
    In p [{| Name := "a.json"; Content := "{}" |}] /\
    json.parse (Content p) = Some v /\
    allocationtest.makeRequest
      (allocationtest.Delivered
         (serve (experiment [{| Name := "a.json"; Content := "{}" |}])
                (fiber.mkCtx (fiber.Decoded (Some "user-123"%string)) [] "" 0)) true) =
    if true && allocationtest.textual v then Some (utf8.coerce (Name p)) else None.
Proof.
  apply (proj2 (verifier_reply [{| Name := "a.json"; Content := "{}" |}]
                  (fiber.mkCtx (fiber.Decoded (Some "user-123"%string)) [] "" 0) true
                  ltac:(vm_compute; reflexivity)
                  ltac:(repeat constructor))
               "user-123"%string).
  - reflexivity.
  - intros ?; discriminate.
Defined.

(** Against a table none of whose contents is a JSON string or null, every
    request of the verifier fails, whatever it sends. *)
Lemma structured_payload_reply (table : list Payload) (c : fiber.Ctx) (bodyRead : bool) :
  (forall p v, In p table -> json.parse (Content p) = Some v ->
               allocationtest.textual v = false) ->
  allocationtest.makeRequest
    (allocationtest.Delivered (serve (experiment table) c) bodyRead) = None.
Proof.
  intros Hstruct.
  destruct (badRequest_dec c) as [Hbad|(userId & Hb & Hne)].
  - destruct (experiment_refuses table c Hbad) as [Hst _].
    unfold allocationtest.makeRequest. rewrite Hst. reflexivity.
  - destruct (getPayloadForUser table userId) as [p|msg] eqn:Hp.
    + pose proof (getPayloadForUser_In _ _ _ Hp) as Hin.
      destruct (json.Valid (Content p)) eqn:Hv.
      * destruct (parse_of_Valid _ Hv) as [v Hparse].
        rewrite (experiment_accepts table c userId p Hb Hne Hp Hv).
        destruct bodyRead; [|reflexivity].
        rewrite (makeRequest_success _ _ v Hparse), (Hstruct p v Hin Hparse). reflexivity.
      * unfold serve, experiment, fiber.BodyParser. rewrite Hb. cbn [model.UserID].
        destruct (String.eqb_spec userId "") as [->|_]; [congruence|].
        rewrite Hp. cbn [Go.bind]. unfold fiber.JSON. cbn [model.Payload]. rewrite Hv.
        reflexivity.
    + unfold serve, experiment, fiber.BodyParser. rewrite Hb. cbn [model.UserID].
      destruct (String.eqb_spec userId "") as [->|_]; [congruence|].
      rewrite Hp. reflexivity.
Qed.

Lemma failed_run_map (items : list (string * option string)) :
  (forall w, In w items -> snd w = None) ->
  forall s : allocationtest.Shared,
    allocationtest.userPayloads (fold_left allocationtest.work items s) =
      allocationtest.userPayloads s /\
    allocationtest.successRequests (fold_left allocationtest.work items s) =
      allocationtest.successRequests s.
Proof.
  induction items as [|[u r] items IH]; intros Hall s; [auto|].
  cbn [fold_left].
  destruct (IH (fun w Hw => Hall w (or_intror Hw)) (allocationtest.work s (u, r)))
    as [-> ->].
  pose proof (Hall (u, r) (or_introl eq_refl)) as Hr. cbn [snd] in Hr. subst r.
  split; reflexivity.
Qed.

(** A run without a single successful request: no user, no record, rate
    zero, verdict FAIL. *)
Lemma failed_run (items : list (string * option string)) (rpu d : Z) :
  (forall w, In w items -> snd w = None) ->
  let res := allocationtest.runAllocationTest items rpu d in
  allocationtest.SuccessfulRequests res = 0 /\
  allocationtest.TotalUsers res = 0 /\
  allocationtest.UserAllocations res = [] /\
  allocationtest.AllocationConsistency res = allocationtest.zero /\
  allocationtest.passed res = false.
Proof.
  intros Hall res. subst res. unfold allocationtest.runAllocationTest, allocationtest.runWorkers.
  destruct (failed_run_map items Hall allocationtest.noWork) as [Em Es].
  rewrite Em, Es. cbn [allocationtest.userPayloads allocationtest.successRequests
                      allocationtest.noWork].
  unfold allocationtest.passed, allocationtest.analyzeResults.
  rewrite map_to_list_empty. cbn [fold_left].
  cbn [allocationtest.SuccessfulRequests allocationtest.TotalUsers
       allocationtest.UserAllocations allocationtest.AllocationConsistency
       allocationtest.ConsistentUsers].
  rewrite map_size_empty. repeat split.
Qed.

(** X22.  Against a server none of whose variants has a JSON string or null as
    content (one built from files holding JSON objects, say) the verifier
    counts no success and no user and reports FAIL: the response carries
    the content as a JSON value where the verifier's struct expects a
    string, so decoding fails for every response. *)
Theorem verifier_fails_on_structured_payloads (table : list Payload)
        (items : list (string * option string)) (requestsPerUser duration : Z) :
  (forall p v, In p table -> json.parse (Content p) = Some v ->
               allocationtest.textual v = false) ->
  (forall w, In w items ->
     snd w = allocationtest.makeRequest allocationtest.Unreachable \/
     exists c bodyRead,
       snd w = allocationtest.makeRequest
                 (allocationtest.Delivered (serve (experiment table) c) bodyRead)) ->
  let res := allocationtest.runAllocationTest items requestsPerUser duration in
  allocationtest.SuccessfulRequests res = 0 /\
  allocationtest.TotalUsers res = 0 /\
  allocationtest.passed res = false.
Proof.
  intros Hstruct Hitems res.
  assert (Hall : forall w, In w items -> snd w = None).
  { intros w Hw. destruct (Hitems w Hw) as [->|(c & rd & ->)]; [reflexivity|].
    apply structured_payload_reply, Hstruct. }
  destruct (failed_run items requestsPerUser duration Hall) as (H1 & H2 & _ & _ & H5).
  auto.
Qed.

Lemma verifier_fails_on_structured_payloads_witness :
  let res :=
    allocationtest.runAllocationTest
      [("user-123"%string,
        allocationtest.makeRequest
          (allocationtest.Delivered
             (serve (experiment [{| Name := "a.json"; Content := "{}" |}])
                    (fiber.mkCtx (fiber.Decoded (Some "user-123"%string)) [] "" 0)) true))]
      1 1000 in
  allocationtest.SuccessfulRequests res = 0 /\
  allocationtest.TotalUsers res = 0 /\
  allocationtest.passed res = false.
Proof.
  apply (verifier_fails_on_structured_payloads [{| Name := "a.json"; Content := "{}" |}]).
  - intros p v [<-|[]] H. vm_compute in H. injection H as <-. reflexivity.
  - intros w [<-|[]]. right.
    exists (fiber.mkCtx (fiber.Decoded (Some "user-123"%string)) [] "" 0), true.
    reflexivity.
Defined.
